(** * ImageCropTool: coordinate mapping and crop-rectangle editing

    A shallow embedding of the coordinate engine of ImageCropTool
    ([src/coord_transform.py], [image_crop_tool/utils.py],
    [image_crop_tool/crop_core.py]) and of the viewport and crop-rectangle
    handlers of [image_crop_tool/gui.py].

    Python [int] is [Z].  Python [float] is IEEE-754 binary64; the code is
    written once over an interface [PyFloat] of the float operations it uses
    and read at two structures:
    - [binary64], the kernel's primitive floats: what the interpreter computes;
    - [exactQ], the rationals: the same expressions without rounding, for the
      algebraic laws that hold of the formulas.
    Exceptions are values of [exn]; a computation that may raise returns a
    [result].

    An int operand of mixed arithmetic is converted to a float, and the
    conversion raises OverflowError when the int is too large.  The ints
    that Tk and the raster hand to the program (canvas sizes, pointer
    coordinates, image sizes, offsets inside the image) are machine
    integers and convert with [of_int].  The crop rectangle is not bounded,
    the entry fields accept any number, and wherever one of its ints meets
    a float the conversion is [to_float], which may raise. *)

From Stdlib Require Import ZArith QArith Qabs Floats String Ascii Bool List Lia Lqa.
Import ListNotations.

Set Warnings "-inexact-float".
Local Open Scope Z_scope.

(** ** Exceptions and results *)

Inductive exn : Type :=
| ZeroDivisionError
| ValueError
| OverflowError
| TypeError
| InvalidBoundsError
| CoordinateTransformError (msg : ct_msg)
with ct_msg : Type :=
| MatrixSingular                (* "仿射变换矩阵奇异，无法求逆" *)
| ConversionFailed (cause : exn) (* "地理坐标转像素坐标失败: {e}" *).

Inductive result (A : Type) : Type :=
| Ok (a : A)
| Raise (e : exn).

Arguments Ok {A} a.
Arguments Raise {A} e.

Definition bind {A B : Type} (c : result A) (k : A -> result B) : result B :=
  match c with
  | Ok a => k a
  | Raise e => Raise e
  end.

(** [try: c except Exception as e: h e] *)
Definition try_except {A : Type} (c : result A) (h : exn -> result A) : result A :=
  match c with
  | Ok a => Ok a
  | Raise e => h e
  end.

Declare Scope py_scope.
Delimit Scope py_scope with py.

Notation "x <- c ;; k" := (bind c (fun x => k))
  (at level 61, c at next level, right associativity) : py_scope.
Notation "' pat <- c ;; k" := (bind c (fun x => match x with pat => k end))
  (at level 61, pat pattern, c at next level, right associativity) : py_scope.

(** ** The float operations of the source *)

Class PyFloat (F : Type) : Type := {
  of_int : Z -> F;           (* float(n) of an int that converts *)
  converts : Z -> bool;      (* float(n) does not raise OverflowError *)
  lit : Q -> F;              (* a decimal literal *)
  fadd : F -> F -> F;
  fsub : F -> F -> F;
  fmul : F -> F -> F;
  fquo : F -> F -> F;        (* the quotient; [py_div] adds Python's zero check *)
  fabs : F -> F;
  feqb : F -> F -> bool;
  fltb : F -> F -> bool;
  fleb : F -> F -> bool;
  ftrunc : F -> result Z     (* int(x): truncation toward zero *)
}.

Infix "+" := fadd : py_scope.
Infix "-" := fsub : py_scope.
Infix "*" := fmul : py_scope.
Infix "==" := feqb (at level 70, no associativity) : py_scope.
Infix "!=" := (fun x y => negb (feqb x y)) (at level 70, no associativity) : py_scope.
Infix "<" := fltb : py_scope.
Infix "<=" := fleb : py_scope.
Notation "x > y" := (fltb y x) : py_scope.

Section PyOps.
Context {F : Type} `{PyFloat F}.

(** The conversion of an int operand in [n * x], [n + x], [n - x] with a
    float [x]: OverflowError ("int too large to convert to float") when the
    int does not convert. *)
Definition to_float (n : Z) : result F :=
  if converts n then Ok (of_int n) else Raise OverflowError.

(** [x / y] on floats: ZeroDivisionError when the divisor compares equal
    to zero. *)
Definition py_div (x y : F) : result F :=
  if feqb y (of_int 0) then Raise ZeroDivisionError else Ok (fquo x y).

(** [min(a, b)] and [max(a, b)] return [a] unless [b] is strictly smaller
    (resp. larger). *)
Definition py_min (a b : F) : F := if fltb b a then b else a.
Definition py_max (a b : F) : F := if fltb a b then b else a.
End PyOps.

Infix "/" := py_div : py_scope.

(** *** Exact arithmetic *)

Definition Qtrunc (q : Q) : Z := Z.quot (Qnum q) (Z.pos (Qden q)).

#[export] Instance exactQ : PyFloat Q := {|
  of_int := inject_Z;
  converts := fun _ => true;
  lit := fun q => q;
  fadd := Qplus;
  fsub := Qminus;
  fmul := Qmult;
  fquo := Qdiv;
  fabs := Qabs;
  feqb := Qeq_bool;
  fltb := fun x y => negb (Qle_bool y x);
  fleb := Qle_bool;
  ftrunc := fun q => Ok (Qtrunc q)
|}.

(** *** binary64 *)

(** [float(n)]: the nearest binary64 value, ties to even, of an int for
    which that value is finite. *)
Definition float_of_Z (n : Z) : float :=
  SF2Prim (binary_normalize prec emax n 0 false).

(** The nearest value is finite: [|n| < 2^1024 - 2^970].  From there on
    CPython raises OverflowError. *)
Definition float_converts (n : Z) : bool :=
  match binary_normalize prec emax n 0 false with
  | S754_infinity _ => false
  | _ => true
  end.

(** [int(x)]: ValueError on a NaN, OverflowError on an infinity. *)
Definition float_trunc (x : float) : result Z :=
  match Prim2SF x with
  | S754_zero _ => Ok 0
  | S754_infinity _ => Raise OverflowError
  | S754_nan => Raise ValueError
  | S754_finite s m e => Ok (cond_Zopp s (Z.shiftl (Z.pos m) e))
  end.

(** A decimal literal [n/d] with [n] and [d] below 2^53 is the correctly
    rounded quotient of two exact floats. *)
Definition float_lit (q : Q) : float :=
  PrimFloat.div (float_of_Z (Qnum q)) (float_of_Z (Z.pos (Qden q))).

#[export] Instance binary64 : PyFloat float := {|
  of_int := float_of_Z;
  converts := float_converts;
  lit := float_lit;
  fadd := PrimFloat.add;
  fsub := PrimFloat.sub;
  fmul := PrimFloat.mul;
  fquo := PrimFloat.div;
  fabs := PrimFloat.abs;
  feqb := PrimFloat.eqb;
  fltb := PrimFloat.ltb;
  fleb := PrimFloat.leb;
  ftrunc := float_trunc
|}.

(** ** src/coord_transform.py *)

Module coord_transform.
Section Defs.
Context {F : Type} `{PyFloat F}.
Local Open Scope py_scope.

(** The 6-tuple [gt]. *)
Record GeoTransform : Type := mkGT {
  x_origin : F;
  pixel_width : F;
  x_rotation : F;
  y_origin : F;
  y_rotation : F;
  pixel_height : F
}.

Definition geo_to_pixel (gt : GeoTransform) (geo_x geo_y : F) : result (Z * Z) :=
  try_except
    (let '(mkGT x_origin pixel_width x_rotation y_origin y_rotation pixel_height) := gt in
     '(pixel_x, pixel_y) <-
       (if (x_rotation != of_int 0) || (y_rotation != of_int 0) then
          let det := pixel_width * pixel_height - x_rotation * y_rotation in
          if fabs det < lit 1e-10 then
            Raise (CoordinateTransformError MatrixSingular)
          else
            pixel_x <- (pixel_height * (geo_x - x_origin)
                        - x_rotation * (geo_y - y_origin)) / det ;;
            pixel_y <- (pixel_width * (geo_y - y_origin)
                        - y_rotation * (geo_x - x_origin)) / det ;;
            Ok (pixel_x, pixel_y)
        else
          pixel_x <- (geo_x - x_origin) / pixel_width ;;
          pixel_y <- (geo_y - y_origin) / pixel_height ;;
          Ok (pixel_x, pixel_y)) ;;
     pixel_x <- ftrunc pixel_x ;;
     pixel_y <- ftrunc pixel_y ;;
     Ok (pixel_x, pixel_y))
    (fun e => Raise (CoordinateTransformError (ConversionFailed e))).

(** [pixel_to_geo] and [calculate_crop_geotransform], for pixel coordinates
    that convert to a float ([converts]), as those inside a raster do;
    beyond, the products raise OverflowError. *)
Definition pixel_to_geo (gt : GeoTransform) (pixel_x pixel_y : Z) : F * F :=
  let '(mkGT x_origin pixel_width x_rotation y_origin y_rotation pixel_height) := gt in
  let geo_x := x_origin + of_int pixel_x * pixel_width + of_int pixel_y * x_rotation in
  let geo_y := y_origin + of_int pixel_x * y_rotation + of_int pixel_y * pixel_height in
  (geo_x, geo_y).

Definition calculate_crop_geotransform (original_gt : GeoTransform) (x_off y_off : Z)
  : GeoTransform :=
  let '(mkGT x_origin pixel_width x_rotation y_origin y_rotation pixel_height) :=
    original_gt in
  let new_x_origin := x_origin + of_int x_off * pixel_width + of_int y_off * x_rotation in
  let new_y_origin := y_origin + of_int x_off * y_rotation + of_int y_off * pixel_height in
  mkGT new_x_origin pixel_width x_rotation new_y_origin y_rotation pixel_height.

Definition geo_bounds_to_pixel_bounds (gt : GeoTransform)
    (min_x min_y max_x max_y : F) (img_width img_height : Z)
  : result (Z * Z * Z * Z) :=
  '(ul_pixel_x, ul_pixel_y) <- geo_to_pixel gt min_x max_y ;;
  '(lr_pixel_x, lr_pixel_y) <- geo_to_pixel gt max_x min_y ;;
  let x_off := Z.min ul_pixel_x lr_pixel_x in
  let y_off := Z.min ul_pixel_y lr_pixel_y in
  let x_end := Z.max ul_pixel_x lr_pixel_x in
  let y_end := Z.max ul_pixel_y lr_pixel_y in
  let x_off := Z.max 0 x_off in
  let y_off := Z.max 0 y_off in
  let x_end := Z.min img_width x_end in
  let y_end := Z.min img_height y_end in
  let x_size := (x_end - x_off)%Z in
  let y_size := (y_end - y_off)%Z in
  Ok (x_off, y_off, x_size, y_size).
End Defs.
Arguments GeoTransform F : clear implicits.
End coord_transform.

(** ** image_crop_tool/utils.py *)

Module utils.
Definition validate_pixel_bounds (bounds : Z * Z * Z * Z) (img_width img_height : Z)
  : result (Z * Z * Z * Z) :=
  let '(x_off, y_off, x_size, y_size) := bounds in
  if (x_off <? 0) || (y_off <? 0) then Raise InvalidBoundsError
  else if (x_off >=? img_width) || (y_off >=? img_height) then Raise InvalidBoundsError
  else if (x_size <=? 0) || (y_size <=? 0) then Raise InvalidBoundsError
  else
    let x_size := if x_off + x_size >? img_width then img_width - x_off else x_size in
    let y_size := if y_off + y_size >? img_height then img_height - y_off else y_size in
    Ok (x_off, y_off, x_size, y_size).
End utils.

(** ** image_crop_tool/crop_core.py *)

Module crop_core.
Section Defs.
Context {F : Type} `{PyFloat F}.
Import coord_transform.
Local Open Scope py_scope.

(** What [open_raster], [get_raster_info] and [get_geotransform] read from
    the source file. *)
Record SrcRaster : Type := {
  width : Z;
  height : Z;
  bands : Z;
  src_gt : GeoTransform F
}.

(** The arguments of the [create_raster] and [read_band_data] calls: the
    raster written and the source window copied into it. *)
Record DstRaster : Type := {
  dst_width : Z;
  dst_height : Z;
  dst_bands : Z;
  dst_gt : GeoTransform F;
  read_window : Z * Z * Z * Z
}.

(** [crop_by_pixel], from the opened source on; the handler logs and
    re-raises, so an exception leaves as it was raised. *)
Definition crop_by_pixel (src : SrcRaster) (x_off y_off x_size y_size : Z)
  : result DstRaster :=
  try_except
    ('(x_off, y_off, x_size, y_size) <-
        utils.validate_pixel_bounds (x_off, y_off, x_size, y_size)
          (width src) (height src) ;;
     let dst_gt := calculate_crop_geotransform (src_gt src) x_off y_off in
     Ok {| dst_width := x_size;
           dst_height := y_size;
           dst_bands := bands src;
           dst_gt := dst_gt;
           read_window := (x_off, y_off, x_size, y_size) |})
    (fun e => Raise e).
End Defs.
Arguments SrcRaster F : clear implicits.
Arguments DstRaster F : clear implicits.
End crop_core.

(** ** image_crop_tool/gui.py *)

Module gui.
Section Defs.
Context {F : Type} `{PyFloat F}.
Import coord_transform.
Local Open Scope py_scope.

Definition ZOOM_FACTOR : F := lit 1.2.
Definition MIN_ZOOM : F := lit 0.1.
Definition MAX_ZOOM : F := lit 50.0.
Definition HANDLE_SIZE : Z := 8.

Definition bounds : Type := Z * Z * Z * Z.

(** The fields of [ImageCropApp] that the viewport and crop handlers read
    or assign.  Widgets are represented by what the handlers read from
    them: the canvas by its size, an entry by what [float] makes of its
    text.  Canvas items, labels and entry texts written are not state of
    the model. *)
Record ImageCropApp : Type := mkApp {
  original_image : bool;                     (* an image is loaded *)
  scale : F;
  offset_x : F;
  offset_y : F;
  img_width : Z;
  img_height : Z;
  geo_transform : option (GeoTransform F);
  has_geo : bool;
  inv_geo_transform : option (GeoTransform F);
  dragging_crop : bool;
  crop_start_x : Z;
  crop_start_y : Z;
  crop_drag_mode : option string;            (* None, 'move', 'resize' *)
  active_handle : option string;             (* 'nw', 'ne', 'sw', 'se' *)
  drag_start_bounds : option bounds;
  crop_bounds : option bounds;               (* (x, y, w, h) *)
  coord_mode : string;                       (* 'pixel' or 'geo' *)
  winfo_width : Z;
  winfo_height : Z;
  entries : string -> result F
}.

Definition set_view (self : ImageCropApp) (s ox oy : F) : ImageCropApp :=
  mkApp (original_image self) s ox oy (img_width self) (img_height self)
    (geo_transform self) (has_geo self) (inv_geo_transform self)
    (dragging_crop self) (crop_start_x self) (crop_start_y self)
    (crop_drag_mode self) (active_handle self) (drag_start_bounds self)
    (crop_bounds self) (coord_mode self) (winfo_width self) (winfo_height self)
    (entries self).

Definition set_crop_bounds (self : ImageCropApp) (b : option bounds) : ImageCropApp :=
  mkApp (original_image self) (scale self) (offset_x self) (offset_y self)
    (img_width self) (img_height self)
    (geo_transform self) (has_geo self) (inv_geo_transform self)
    (dragging_crop self) (crop_start_x self) (crop_start_y self)
    (crop_drag_mode self) (active_handle self) (drag_start_bounds self)
    b (coord_mode self) (winfo_width self) (winfo_height self)
    (entries self).

Definition set_dragging_crop (self : ImageCropApp) (d : bool) : ImageCropApp :=
  mkApp (original_image self) (scale self) (offset_x self) (offset_y self)
    (img_width self) (img_height self)
    (geo_transform self) (has_geo self) (inv_geo_transform self)
    d (crop_start_x self) (crop_start_y self)
    (crop_drag_mode self) (active_handle self) (drag_start_bounds self)
    (crop_bounds self) (coord_mode self) (winfo_width self) (winfo_height self)
    (entries self).

(** Assigns [crop_drag_mode], [active_handle], [drag_start_bounds],
    [crop_start_x] and [crop_start_y]. *)
Definition set_drag (self : ImageCropApp) (mode handle : option string)
    (start : option bounds) (cx cy : Z) : ImageCropApp :=
  mkApp (original_image self) (scale self) (offset_x self) (offset_y self)
    (img_width self) (img_height self)
    (geo_transform self) (has_geo self) (inv_geo_transform self)
    (dragging_crop self) cx cy
    mode handle start
    (crop_bounds self) (coord_mode self) (winfo_width self) (winfo_height self)
    (entries self).

(** How an event handler ends: it returns, or an exception leaves it (Tk
    reports it and goes on); either way with the object as assigned so
    far. *)
Inductive outcome : Type :=
| Returned (self : ImageCropApp)
| Escaped (e : exn) (self : ImageCropApp).

Definition state_after (o : outcome) : ImageCropApp :=
  match o with
  | Returned self => self
  | Escaped _ self => self
  end.

(** Runs [c], whose exceptions nothing handles, from the object [self]. *)
Definition run (self : ImageCropApp) (c : result ImageCropApp) : outcome :=
  match c with
  | Ok self' => Returned self'
  | Raise e => Escaped e self
  end.

(** *** Coordinate mappings *)

Definition image_to_canvas (self : ImageCropApp) (ix iy : F) : F * F :=
  let cx := ix * scale self + offset_x self in
  let cy := iy * scale self + offset_y self in
  (cx, cy).

Definition canvas_to_image (self : ImageCropApp) (cx cy : F) : result (F * F) :=
  ix <- (cx - offset_x self) / scale self ;;
  iy <- (cy - offset_y self) / scale self ;;
  Ok (ix, iy).

(** [gt = self.geo_transform] followed by [gt[i]]: subscripting None is
    a TypeError (the loader sets [has_geo] only with a transform). *)
Definition the_geo_transform (self : ImageCropApp) : result (GeoTransform F) :=
  match geo_transform self with
  | Some gt => Ok gt
  | None => Raise TypeError
  end.

Definition _geo_to_pixel (self : ImageCropApp) (gx gy : F) : result (F * F) :=
  if negb (has_geo self) then Ok (gx, gy)
  else
    match inv_geo_transform self with
    | Some gt =>
        let px := x_origin gt + gx * pixel_width gt + gy * x_rotation gt in
        let py := y_origin gt + gx * y_rotation gt + gy * pixel_height gt in
        Ok (px, py)
    | None =>
        gt <- the_geo_transform self ;;
        px <- (gx - x_origin gt) / pixel_width gt ;;
        py <- (gy - y_origin gt) / pixel_height gt ;;
        Ok (px, py)
    end.

Definition _pixel_to_geo (self : ImageCropApp) (px py : F) : result (F * F) :=
  if negb (has_geo self) then Ok (px, py)
  else
    gt <- the_geo_transform self ;;
    let gx := x_origin gt + px * pixel_width gt + py * x_rotation gt in
    let gy := y_origin gt + px * y_rotation gt + py * pixel_height gt in
    Ok (gx, gy).

(** *** Viewport *)

(** The zoom, pan and crop handlers end with [self.redraw()].  It assigns
    none of the fields above and is modelled apart, as [gui_view.redraw];
    the handlers below stop before it, so their outcome is that of the
    assignments. *)

(** The canvas size a zoom handler works with: 800 x 600 while the canvas
    reports a width below 10. *)
Definition canvas_size (self : ImageCropApp) : Z * Z :=
  let cw := winfo_width self in
  let ch := winfo_height self in
  if cw <? 10 then (800, 600) else (cw, ch).

Definition zoom_fit (self : ImageCropApp) : outcome :=
  if negb (original_image self) then Returned self
  else
    let '(cw, ch) := canvas_size self in
    run self
      (w_ratio <- of_int cw / of_int (img_width self) ;;
       h_ratio <- of_int ch / of_int (img_height self) ;;
       let scale := py_min w_ratio h_ratio * lit 0.95 in
       let disp_w := of_int (img_width self) * scale in
       let disp_h := of_int (img_height self) * scale in
       offset_x <- (of_int cw - disp_w) / of_int 2 ;;
       offset_y <- (of_int ch - disp_h) / of_int 2 ;;
       Ok (set_view self scale offset_x offset_y)).

Definition zoom_100 (self : ImageCropApp) : outcome :=
  if negb (original_image self) then Returned self
  else
    let '(cw, ch) := canvas_size self in
    run self
      (let scale := lit 1.0 in
       offset_x <- of_int (cw - img_width self) / of_int 2 ;;
       offset_y <- of_int (ch - img_height self) / of_int 2 ;;
       Ok (set_view self scale offset_x offset_y)).

Definition _zoom_view (self : ImageCropApp) (factor : F) : outcome :=
  if negb (original_image self) then Returned self
  else
    run self
      (cx <- of_int (winfo_width self) / of_int 2 ;;
       cy <- of_int (winfo_height self) / of_int 2 ;;
       let new_scale := scale self * factor in
       let new_scale := if new_scale < MIN_ZOOM then MIN_ZOOM else new_scale in
       let new_scale := if new_scale > MAX_ZOOM then MAX_ZOOM else new_scale in
       real_factor <- new_scale / scale self ;;
       let offset_x := cx - (cx - offset_x self) * real_factor in
       let offset_y := cy - (cy - offset_y self) * real_factor in
       Ok (set_view self new_scale offset_x offset_y)).

Definition zoom_in (self : ImageCropApp) : outcome := _zoom_view self ZOOM_FACTOR.

Definition zoom_out (self : ImageCropApp) : outcome :=
  match lit 1.0 / ZOOM_FACTOR with
  | Ok factor => _zoom_view self factor
  | Raise e => Escaped e self
  end.

(** A wheel event: [num] is the button of an X11 wheel event, [delta] the
    wheel movement elsewhere; [x], [y] the pointer. *)
Record WheelEvent : Type := {
  num : Z;
  delta : Z;
  wheel_x : Z;
  wheel_y : Z
}.

Definition on_mouse_wheel (self : ImageCropApp) (event : WheelEvent) : outcome :=
  if negb (original_image self) then Returned self
  else
    run self
      (factor <-
         (if (num event =? 5) || (delta event <? 0)
          then lit 1.0 / ZOOM_FACTOR
          else Ok ZOOM_FACTOR) ;;
       let new_scale := scale self * factor in
       let new_scale := if new_scale < MIN_ZOOM then MIN_ZOOM else new_scale in
       let new_scale := if new_scale > MAX_ZOOM then MAX_ZOOM else new_scale in
       real_factor <- new_scale / scale self ;;
       (* canvasx, canvasy: the canvas is not scrolled *)
       let mx := of_int (wheel_x event) in
       let my := of_int (wheel_y event) in
       let offset_x := mx - (mx - offset_x self) * real_factor in
       let offset_y := my - (my - offset_y self) * real_factor in
       Ok (set_view self new_scale offset_x offset_y)).

(** *** Numeric fields *)

(** A value that is an [int] on some paths and a [float] on others. *)
Inductive number : Type :=
| Int (n : Z)
| Float (x : F).

(** [int(v)] *)
Definition to_int (v : number) : result Z :=
  match v with
  | Int n => Ok n
  | Float x => ftrunc x
  end.

(** [max(a, y)] of an int [a] and a float [y]. *)
Definition max_int_float (a : Z) (y : F) : number :=
  if of_int a < y then Float y else Int a.

(** [_pixel_to_geo] with a georeference, called with two ints of the crop
    rectangle: the transform is subscripted, then the products convert
    the ints. *)
Definition _pixel_to_geo_ints (self : ImageCropApp) (px py : Z) : result (F * F) :=
  gt <- the_geo_transform self ;;
  px <- to_float px ;;
  py <- to_float py ;;
  _pixel_to_geo self px py.

(** The dictionary [vals] that [update_crop_inputs] formats into the
    entries ('x', 'y', 'w', 'h'); None when it writes nothing. *)
Definition update_crop_inputs (self : ImageCropApp)
  : result (option (number * number * number * number)) :=
  let mode := coord_mode self in
  match crop_bounds self with
  | None =>
      try_except
        (v_x <- entries self "x" ;;
         v_y <- entries self "y" ;;
         v_w <- entries self "w" ;;
         v_h <- entries self "h" ;;
         if String.eqb mode "geo" then
           '(gx1, gy1) <- _pixel_to_geo self v_x v_y ;;
           '(gx2, gy2) <- _pixel_to_geo self (v_x + v_w) (v_y + v_h) ;;
           Ok (Some (Float (py_min gx1 gx2), Float (py_min gy1 gy2),
                     Float (fabs (gx1 - gx2)), Float (fabs (gy1 - gy2))))
         else
           '(px1, py1) <- _geo_to_pixel self v_x v_y ;;
           '(px2, py2) <- _geo_to_pixel self (v_x + v_w) (v_y + v_h) ;;
           Ok (Some (Float (py_min px1 px2), Float (py_min py1 py2),
                     Float (fabs (px1 - px2)), Float (fabs (py1 - py2)))))
        (fun e => match e with
                  | ValueError => Ok None
                  | _ => Raise e
                  end)
  | Some (x, y, w, h) =>
      if String.eqb mode "pixel" then
        Ok (Some (Int x, Int y, Int w, Int h))
      else if negb (has_geo self) then
        (* [_pixel_to_geo] hands the ints back *)
        let '(gx, gy) := (x, y) in
        let '(gx2, gy2) := ((x + w)%Z, (y + h)%Z) in
        Ok (Some (Int (Z.min gx gx2), Int (Z.min gy gy2),
                  Int (Z.abs (gx2 - gx)), Int (Z.abs (gy2 - gy))))
      else
        '(gx, gy) <- _pixel_to_geo_ints self x y ;;
        '(gx2, gy2) <- _pixel_to_geo_ints self (x + w)%Z (y + h)%Z ;;
        Ok (Some (Float (py_min gx gx2), Float (py_min gy gy2),
                  Float (fabs (gx2 - gx)), Float (fabs (gy2 - gy))))
  end.

(** The trailing [self.update_crop_inputs()] of a handler. *)
Definition then_update (self : ImageCropApp) : outcome :=
  match update_crop_inputs self with
  | Ok _ => Returned self
  | Raise e => Escaped e self
  end.

Definition apply_input_bounds (self : ImageCropApp) : outcome :=
  if negb (original_image self) then Returned self
  else
    match
      (v_x <- entries self "x" ;;
       v_y <- entries self "y" ;;
       v_w <- entries self "w" ;;
       v_h <- entries self "h" ;;
       if String.eqb (coord_mode self) "pixel" then
         x <- ftrunc v_x ;;
         y <- ftrunc v_y ;;
         w <- ftrunc v_w ;;
         h <- ftrunc v_h ;;
         Ok (set_crop_bounds self (Some (x, y, w, h)))
       else
         '(p1_x, p1_y) <- _geo_to_pixel self v_x v_y ;;
         '(p2_x, p2_y) <- _geo_to_pixel self (v_x + v_w) (v_y + v_h) ;;
         let x := py_min p1_x p2_x in
         let y := py_min p1_y p2_y in
         let w := fabs (p2_x - p1_x) in
         let h := fabs (p2_y - p1_y) in
         x <- ftrunc x ;;
         y <- ftrunc y ;;
         w <- ftrunc w ;;
         h <- ftrunc h ;;
         Ok (set_crop_bounds self (Some (x, y, w, h))))
    with
    | Ok self' => Returned self'
    | Raise ValueError => Returned self      (* the warning box *)
    | Raise e => Escaped e self
    end.

(** *** Crop rectangle *)

(** ['c' in s] for a one-character [c]. *)
Fixpoint char_in (c : ascii) (s : string) : bool :=
  match s with
  | EmptyString => false
  | String a s' => Ascii.eqb a c || char_in c s'
  end.

(** [image_to_canvas] called with two ints of the crop rectangle, which
    its products convert. *)
Definition image_to_canvas_ints (self : ImageCropApp) (ix iy : Z) : result (F * F) :=
  ix <- to_float ix ;;
  iy <- to_float iy ;;
  Ok (image_to_canvas self ix iy).

Definition _get_handle_at (self : ImageCropApp) (cx cy : Z) : result (option string) :=
  match crop_bounds self with
  | None => Ok None
  | Some (bx, by_, bw, bh) =>
      '(hx1, hy1) <- image_to_canvas_ints self bx by_ ;;
      '(hx2, hy2) <- image_to_canvas_ints self (bx + bw)%Z (by_ + bh)%Z ;;
      let hs := (HANDLE_SIZE + 4)%Z in
      let handles :=
        [("nw", (hx1, hy1)); ("ne", (hx2, hy1));
         ("sw", (hx1, hy2)); ("se", (hx2, hy2))]%string in
      Ok (option_map fst
            (find (fun '(name, (hx, hy)) =>
                     (fabs (of_int cx - hx) <= of_int hs)
                     && (fabs (of_int cy - hy) <= of_int hs))
                  handles))
  end.

Definition _is_inside_crop (self : ImageCropApp) (cx cy : Z) : result bool :=
  match crop_bounds self with
  | None => Ok false
  | Some (bx, by_, bw, bh) =>
      '(cx1, cy1) <- image_to_canvas_ints self bx by_ ;;
      '(cx2, cy2) <- image_to_canvas_ints self (bx + bw)%Z (by_ + bh)%Z ;;
      Ok ((cx1 < of_int cx) && (of_int cx < cx2)
          && (cy1 < of_int cy) && (of_int cy < cy2))
  end.

(** An exception of the two tests leaves the handler before it has
    assigned anything. *)
Definition on_crop_start (self : ImageCropApp) (event_x event_y : Z) : outcome :=
  if negb (original_image self) then Returned self
  else
    let cx := event_x in
    let cy := event_y in
    match _get_handle_at self cx cy with
    | Raise e => Escaped e self
    | Ok (Some handle) =>
        Returned (set_drag self (Some "resize"%string) (Some handle)
                    (crop_bounds self) cx cy)
    | Ok None =>
        match _is_inside_crop self cx cy with
        | Raise e => Escaped e self
        | Ok true =>
            Returned (set_drag self (Some "move"%string) None (crop_bounds self) cx cy)
        | Ok false =>
            let self := set_dragging_crop self true in
            let self :=
              set_drag self None (active_handle self) (drag_start_bounds self) cx cy in
            Returned (set_crop_bounds self None)
        end
    end.

Definition mode_is (self : ImageCropApp) (m : string) : bool :=
  match crop_drag_mode self with
  | Some m' => String.eqb m' m
  | None => false
  end.

Definition on_crop_drag (self : ImageCropApp) (event_x event_y : Z) : outcome :=
  let cx := event_x in
  let cy := event_y in
  match (if mode_is self "move" then drag_start_bounds self else None),
        (if mode_is self "resize" then drag_start_bounds self else None) with
  | Some (ox, oy, ow, oh), _ =>
      let dx := (cx - crop_start_x self)%Z in
      let dy := (cy - crop_start_y self)%Z in
      run self
        (dx_img <- of_int dx / scale self ;;
         dy_img <- of_int dy / scale self ;;
         ox' <- to_float ox ;;
         new_x <- ftrunc (ox' + dx_img) ;;
         oy' <- to_float oy ;;
         new_y <- ftrunc (oy' + dy_img) ;;
         let new_x := Z.max 0 (Z.min new_x (img_width self - ow)) in
         let new_y := Z.max 0 (Z.min new_y (img_height self - oh)) in
         Ok (set_crop_bounds self (Some (new_x, new_y, ow, oh))))
  | None, Some (ox, oy, ow, oh) =>
      run self
        (dx <- of_int (cx - crop_start_x self)%Z / scale self ;;
         dy <- of_int (cy - crop_start_y self)%Z / scale self ;;
         let '(nx, ny, nw, nh) := (Int ox, Int oy, Int ow, Int oh) in
         h <- match active_handle self with
              | Some h => Ok h
              | None => Raise TypeError
              end ;;
         nw <- (if char_in "e" h
                then ow' <- to_float ow ;; Ok (max_int_float 10 (ow' + dx))
                else Ok nw) ;;
         '(nx, nw) <- (if char_in "w" h
                       then ox' <- to_float ox ;;
                            ow' <- to_float ow ;;
                            Ok (Float (ox' + dx), max_int_float 10 (ow' - dx))
                       else Ok (nx, nw)) ;;
         nh <- (if char_in "s" h
                then oh' <- to_float oh ;; Ok (max_int_float 10 (oh' + dy))
                else Ok nh) ;;
         '(ny, nh) <- (if char_in "n" h
                       then oy' <- to_float oy ;;
                            oh' <- to_float oh ;;
                            Ok (Float (oy' + dy), max_int_float 10 (oh' - dy))
                       else Ok (ny, nh)) ;;
         nx <- to_int nx ;;
         ny <- to_int ny ;;
         nw <- to_int nw ;;
         nh <- to_int nh ;;
         Ok (set_crop_bounds self (Some (nx, ny, nw, nh))))
  | None, None =>
      if negb (dragging_crop self) then Returned self
      else
        (* the temporary rectangle and its size label *)
        run self
          ('(ix1, iy1) <- canvas_to_image self (of_int (crop_start_x self))
                            (of_int (crop_start_y self)) ;;
           '(ix2, iy2) <- canvas_to_image self (of_int cx) (of_int cy) ;;
           tw <- ftrunc (fabs (ix2 - ix1)) ;;
           th <- ftrunc (fabs (iy2 - iy1)) ;;
           Ok self)
  end.

Definition on_crop_end (self : ImageCropApp) (event_x event_y : Z) : outcome :=
  if mode_is self "move" || mode_is self "resize" then
    then_update (set_drag self None None None (crop_start_x self) (crop_start_y self))
  else
    let self := set_dragging_crop self false in
    let '(cx1, cy1) := (crop_start_x self, crop_start_y self) in
    let '(cx2, cy2) := (event_x, event_y) in
    match
      ('(ix1, iy1) <- canvas_to_image self (of_int cx1) (of_int cy1) ;;
       '(ix2, iy2) <- canvas_to_image self (of_int cx2) (of_int cy2) ;;
       let x := py_min ix1 ix2 in
       let y := py_min iy1 iy2 in
       let w := fabs (ix2 - ix1) in
       let h := fabs (iy2 - iy1) in
       if (w < of_int 1) || (h < of_int 1) then
         Ok (Returned (set_crop_bounds self None))
       else
         x <- ftrunc x ;;
         y <- ftrunc y ;;
         w <- ftrunc w ;;
         h <- ftrunc h ;;
         Ok (then_update (set_crop_bounds self (Some (x, y, w, h)))))
    with
    | Ok o => o
    | Raise e => Escaped e self
    end.

Definition move_crop (self : ImageCropApp) (dx dy : Z) : outcome :=
  match crop_bounds self with
  | None => Returned self
  | Some (x, y, w, h) =>
      let nx := (x + dx)%Z in
      let ny := (y + dy)%Z in
      let nx := Z.max 0 (Z.min nx (img_width self - w)) in
      let ny := Z.max 0 (Z.min ny (img_height self - h)) in
      then_update (set_crop_bounds self (Some (nx, ny, w, h)))
  end.

Definition reset_crop (self : ImageCropApp) : outcome :=
  Returned (set_crop_bounds self None).
End Defs.
Arguments ImageCropApp F : clear implicits.
Arguments outcome F : clear implicits.
Arguments number F : clear implicits.
End gui.

(** ** Properties stated of the code *)

(** What the crop handlers use of the float arithmetic besides evaluation:
    truncation does not go below an integer bound, a finite value minus
    itself is zero, and [int] fails only with ValueError or OverflowError. *)
Class PyFloatLaws (F : Type) `{PyFloat F} : Prop := {
  trunc_above_ten : forall (x : F) (z : Z),
    fltb (of_int 10) x = true -> ftrunc x = Ok z -> 10 <= z;
  self_difference : forall x : F,
    fltb (fabs (fsub x x)) (of_int 1) = true \/ exists e, ftrunc x = Raise e;
  trunc_raises : forall (x : F) (e : exn),
    ftrunc x = Raise e -> e = ValueError \/ e = OverflowError
}.

(** The windows that [validate_pixel_bounds] is to reject. *)
Definition invalid_window (x_off y_off x_size y_size W H : Z) : Prop :=
  x_off < 0 \/ y_off < 0 \/ x_off >= W \/ y_off >= H \/ x_size <= 0 \/ y_size <= 0.

Section Predicates.
Context {F : Type} `{PyFloat F}.
Import coord_transform gui.

(** The crop rectangle lies in the [W] x [H] image. *)
Definition in_image (W H : Z) (b : bounds) : Prop :=
  let '(x, y, w, h) := b in
  0 <= x /\ 0 <= y /\ x + w <= W /\ y + h <= H.

(** Both sides of the rectangle are at least 10 pixels. *)
Definition min_size (b : bounds) : Prop :=
  let '(x, y, w, h) := b in 10 <= w /\ 10 <= h.

(** [P] of a rectangle that may be absent. *)
Definition when_set (P : bounds -> Prop) (b : option bounds) : Prop :=
  match b with
  | Some b => P b
  | None => True
  end.

(** [|x - c| <= tol], computed in floats. *)
Definition close_to (x c tol : F) : bool := fleb (fabs (fsub x c)) tol.

(** The determinant that [geo_to_pixel] computes. *)
Definition det (gt : GeoTransform F) : F :=
  fsub (fmul (pixel_width gt) (pixel_height gt))
       (fmul (x_rotation gt) (y_rotation gt)).

(** The guard of the full inverse in [geo_to_pixel]. *)
Definition rotated (gt : GeoTransform F) : bool :=
  negb (feqb (x_rotation gt) (of_int 0)) || negb (feqb (y_rotation gt) (of_int 0)).

(** The transform of the test image: (116.0, 0.001, 0, 40.0, 0, -0.001). *)
Definition test_gt : GeoTransform F :=
  mkGT (lit 116.0) (lit 0.001) (of_int 0) (lit 40.0) (of_int 0) (lit (-0.001)).

(** A rotated transform with determinant zero: (0, 1, 1, 0, 1, 1). *)
Definition singular_gt : GeoTransform F :=
  mkGT (of_int 0) (of_int 1) (of_int 1) (of_int 0) (of_int 1) (of_int 1).

(** The object after [__init__] and the loading of a [W] x [H] image, on
    a canvas of [cw] x [ch]; the entries hold the texts [txt]. *)
Definition loaded (W H : Z) (gt : option (GeoTransform F))
    (inv : option (GeoTransform F)) (mode : string) (cw ch : Z)
    (txt : string -> result F) : ImageCropApp F :=
  mkApp true (lit 1.0) (lit 0.0) (lit 0.0) W H gt
    (match gt with Some _ => true | None => false end) inv
    false 0 0 None None None None mode cw ch txt.

Definition no_text : string -> result F := fun _ => Raise ValueError.

(** The entries 'x', 'y', 'w', 'h' holding the numbers [vx], [vy], [vw],
    [vh]. *)
Definition texts (vx vy vw vh : F) : string -> result F :=
  fun k =>
    if String.eqb k "x" then Ok vx
    else if String.eqb k "y" then Ok vy
    else if String.eqb k "w" then Ok vw
    else if String.eqb k "h" then Ok vh
    else Raise ValueError.

(** A rectangle [b] selected in the object [app], and a drag of it begun
    at ([cx], [cy]) in [mode] with [handle]. *)
Definition selected (app : ImageCropApp F) (b : bounds) : ImageCropApp F :=
  set_crop_bounds app (Some b).

Definition dragging (app : ImageCropApp F) (mode : string)
    (handle : option string) (cx cy : Z) : ImageCropApp F :=
  set_drag app (Some mode) handle (crop_bounds app) cx cy.

(** The rectangle of [app] and the snapshot taken at the start of a drag
    lie in the image, resp. have the minimum size. *)
Definition crop_in_image (app : ImageCropApp F) : Prop :=
  when_set (in_image (img_width app) (img_height app)) (crop_bounds app)
  /\ when_set (in_image (img_width app) (img_height app)) (drag_start_bounds app).

Definition crop_min_size (app : ImageCropApp F) : Prop :=
  when_set min_size (crop_bounds app) /\ when_set min_size (drag_start_bounds app).

(** The error with which [geo_to_pixel] leaves on a singular matrix: the
    handler's wrapping of the error raised in the [try] block. *)
Definition singular_error : exn :=
  CoordinateTransformError (ConversionFailed (CoordinateTransformError MatrixSingular)).


(** A wheel turn away from the user at ([x], [y]). *)
Definition wheel_up (x y : Z) : WheelEvent :=
  {| num := 0; delta := 120; wheel_x := x; wheel_y := y |}.

(** The factor that [on_mouse_wheel] takes for a wheel event. *)
Definition wheel_factor (event : WheelEvent) : result F :=
  if (num event =? 5) || (delta event <? 0)
  then py_div (lit 1.0) ZOOM_FACTOR
  else Ok ZOOM_FACTOR.

(** The zoom about an anchor as the specification words it:
    [newScale = clamp(scale * factor, MIN_ZOOM, MAX_ZOOM)],
    [realFactor = newScale / scale],
    [offset' = anchor - (anchor - offset) * realFactor]. *)
Definition spec_clamp (x lo hi : F) : F :=
  if fltb x lo then lo else if fltb hi x then hi else x.

Definition spec_zoom_at (app : ImageCropApp F) (ax ay factor : F)
  : result (ImageCropApp F) :=
  let new_scale := spec_clamp (fmul (scale app) factor) MIN_ZOOM MAX_ZOOM in
  bind (py_div new_scale (scale app)) (fun real_factor =>
  Ok (set_view app new_scale
        (fsub ax (fmul (fsub ax (offset_x app)) real_factor))
        (fsub ay (fmul (fsub ay (offset_y app)) real_factor)))).

(** The transforms with which [geo_to_pixel] has something to divide by:
    rotated with a determinant of at least 1e-10 in absolute value, or
    not rotated with both pixel sizes different from zero. *)
Definition invertible (gt : GeoTransform F) : bool :=
  if rotated gt then negb (fltb (fabs (det gt)) (lit 1e-10))
  else negb (feqb (pixel_width gt) (of_int 0))
       && negb (feqb (pixel_height gt) (of_int 0)).

(** The object after [__init__], before an image is loaded, on a canvas
    of [cw] x [ch]. *)
Definition initial (cw ch : Z) : ImageCropApp F :=
  mkApp false (lit 1.0) (lit 0.0) (lit 0.0) 0 0 None false None
    false 0 0 None None None None "pixel" cw ch no_text.
End Predicates.

(** In exact arithmetic, the canvas point ([ax], [ay]) shows the same image
    point under the viewports of [app] and of [app']. *)
Definition anchor_fixed (app app' : gui.ImageCropApp Q) (ax ay : Q) : Prop :=
  exists ix iy ix' iy',
    gui.canvas_to_image app ax ay = Ok (ix, iy)
    /\ gui.canvas_to_image app' ax ay = Ok (ix', iy')
    /\ (ix' == ix)%Q /\ (iy' == iy)%Q.

(** ** image_crop_tool/crop_core.py: the other entry points *)

Module crop_entry.
Section Defs.
Context {F : Type} `{PyFloat F}.
Import coord_transform crop_core.
Local Open Scope py_scope.

(** [crop_by_geo], from the opened source on (the same source is opened
    again by [crop_by_pixel]); the handler logs and re-raises. *)
Definition crop_by_geo (src : SrcRaster F) (min_x min_y max_x max_y : F)
  : result (DstRaster F) :=
  try_except
    ('(x_off, y_off, x_size, y_size) <-
        geo_bounds_to_pixel_bounds (src_gt src) min_x min_y max_x max_y
          (width src) (height src) ;;
     crop_by_pixel src x_off y_off x_size y_size)
    (fun e => Raise e).

(** [c.lower()] of a character: the letters A to Z. *)
Definition lower_ascii (c : ascii) : ascii :=
  let n := nat_of_ascii c in
  if (65 <=? n)%nat && (n <=? 90)%nat then ascii_of_nat (n + 32) else c.

(** [s.lower()]; only the ASCII letters matter to the comparisons with
    'pixel' and 'geo'. *)
Fixpoint lower (s : string) : string :=
  match s with
  | EmptyString => EmptyString
  | String c s' => String (lower_ascii c) (lower s')
  end.

(** [crop_raster]: [int(b)] of each bound in pixel mode, [float(b)], which
    leaves a float as it is, in geo mode. *)
Definition crop_raster (src : SrcRaster F) (bounds : F * F * F * F)
    (coord_type : string) : result (DstRaster F) :=
  let '(b1, b2, b3, b4) := bounds in
  if String.eqb (lower coord_type) "pixel" then
    x_off <- ftrunc b1 ;;
    y_off <- ftrunc b2 ;;
    x_size <- ftrunc b3 ;;
    y_size <- ftrunc b4 ;;
    crop_by_pixel src x_off y_off x_size y_size
  else if String.eqb (lower coord_type) "geo" then
    crop_by_geo src b1 b2 b3 b4
  else
    Raise ValueError.
End Defs.
End crop_entry.

(** ** image_crop_tool/gui.py: redraw and panning *)

Module gui_view.
Section Defs.
Context {F : Type} `{PyFloat F}.
Import coord_transform gui.
Local Open Scope py_scope.

(** What [redraw] puts on the canvas: the region (ix1, iy1, ix2, iy2) of
    the image it crops, the size it resamples the region to, and the canvas
    position of its top-left corner. *)
Record Drawn : Type := {
  roi : Z * Z * Z * Z;
  target : Z * Z;
  dest : F * F
}.

(** [redraw]: None when it draws no image (none loaded, nothing visible,
    or the error it prints). *)
Definition redraw (self : ImageCropApp F) : result (option Drawn) :=
  if negb (original_image self) then Ok None
  else
    let cw := winfo_width self in
    let ch := winfo_height self in
    '(ix1, iy1) <- canvas_to_image self (of_int 0) (of_int 0) ;;
    '(ix2, iy2) <- canvas_to_image self (of_int cw) (of_int ch) ;;
    ix1 <- ftrunc ix1 ;;
    let ix1 := Z.max 0 ix1 in
    iy1 <- ftrunc iy1 ;;
    let iy1 := Z.max 0 iy1 in
    ix2 <- ftrunc ix2 ;;
    let ix2 := Z.min (img_width self) (ix2 + 1) in
    iy2 <- ftrunc iy2 ;;
    let iy2 := Z.min (img_height self) (iy2 + 1) in
    if (ix2 <=? ix1) || (iy2 <=? iy1) then Ok None
    else
      try_except
        (target_w <- ftrunc (of_int (ix2 - ix1)%Z * scale self) ;;
         let target_w := (target_w + 1)%Z in
         target_h <- ftrunc (of_int (iy2 - iy1)%Z * scale self) ;;
         let target_h := (target_h + 1)%Z in
         let '(dest_x, dest_y) := image_to_canvas self (of_int ix1) (of_int iy1) in
         Ok (Some {| roi := (ix1, iy1, ix2, iy2);
                     target := (target_w, target_h);
                     dest := (dest_x, dest_y) |}))
        (fun _ => Ok None).

(** The object with the three fields of a pan drag. *)
Record Panning : Type := {
  app : ImageCropApp F;
  dragging_pan : bool;
  pan_start_x : Z;
  pan_start_y : Z
}.

Definition on_pan_start (self : Panning) (event_x event_y : Z) : Panning :=
  {| app := app self;
     dragging_pan := true;
     pan_start_x := event_x;
     pan_start_y := event_y |}.

(** [on_pan_drag]; the [redraw] that ends it assigns none of these
    fields. *)
Definition on_pan_drag (self : Panning) (event_x event_y : Z) : Panning :=
  if negb (dragging_pan self) then self
  else
    let dx := (event_x - pan_start_x self)%Z in
    let dy := (event_y - pan_start_y self)%Z in
    {| app := set_view (app self) (scale (app self))
                (offset_x (app self) + of_int dx)
                (offset_y (app self) + of_int dy);
       dragging_pan := dragging_pan self;
       pan_start_x := event_x;
       pan_start_y := event_y |}.

Definition on_pan_end (self : Panning) : Panning :=
  {| app := app self;
     dragging_pan := false;
     pan_start_x := pan_start_x self;
     pan_start_y := pan_start_y self |}.

(** The pointer moves of one pan drag, in order. *)
Definition pan_moves (self : Panning) (events : list (Z * Z)) : Panning :=
  fold_left (fun p e => on_pan_drag p (fst e) (snd e)) events self.
End Defs.
Arguments Drawn F : clear implicits.
Arguments Panning F : clear implicits.
End gui_view.

(** ** Further properties stated of the code *)

(** The four corner handles. *)
Definition corner_handles : list string := ["nw"; "ne"; "sw"; "se"]%string.

(** The object [app] with a drawing drag begun at ([cx], [cy]). *)
Definition drawing_from {F : Type} (app : gui.ImageCropApp F) (cx cy : Z)
  : gui.ImageCropApp F :=
  gui.set_drag app None (gui.active_handle app) (gui.drag_start_bounds app) cx cy.

(** [b] differs from [a] at most in the scale and the offsets. *)
Definition view_only {F : Type} (a b : gui.ImageCropApp F) : Prop :=
  gui.set_view b (gui.scale a) (gui.offset_x a) (gui.offset_y a) = a.

(** The last pointer position of a drag begun at [start]. *)
Definition last_position (start : Z * Z) (events : list (Z * Z)) : Z * Z :=
  last events start.

(** Two viewports agree: the same scale and offsets as rationals, and the
    same remaining fields. *)
Definition same_view (a b : gui.ImageCropApp Q) : Prop :=
  (gui.scale b == gui.scale a)%Q
  /\ (gui.offset_x b == gui.offset_x a)%Q
  /\ (gui.offset_y b == gui.offset_y a)%Q
  /\ gui.set_view b (gui.scale a) (gui.offset_x a) (gui.offset_y a) = a.

(** * Proofs *)

Import coord_transform gui.

(** ** The two arithmetic structures satisfy the laws *)

Lemma digits2_pos_lower (m : positive) :
  2 ^ (Z.pos (digits2_pos m) - 1) <= Z.pos m.
Proof.
  induction m as [m IH | m IH |]; cbn [digits2_pos].
  - rewrite Pos2Z.inj_succ.
    replace (Z.succ (Z.pos (digits2_pos m)) - 1)
      with (Z.succ (Z.pos (digits2_pos m) - 1)) by lia.
    rewrite Z.pow_succ_r by lia. lia.
  - rewrite Pos2Z.inj_succ.
    replace (Z.succ (Z.pos (digits2_pos m)) - 1)
      with (Z.succ (Z.pos (digits2_pos m) - 1)) by lia.
    rewrite Z.pow_succ_r by lia. lia.
  - simpl. lia.
Qed.

Lemma ten_as_spec_float :
  Prim2SF (float_of_Z 10) = S754_finite false 5629499534213120 (-49).
Proof. vm_compute. reflexivity. Qed.

Lemma one_as_spec_float :
  Prim2SF (float_of_Z 1) = S754_finite false 4503599627370496 (-52).
Proof. vm_compute. reflexivity. Qed.

(** A valid positive binary64 value above 10 = 5629499534213120 * 2^-49
    truncates to at least 10. *)
Lemma shiftl_ge_ten (m : positive) (e : Z) :
  valid_binary (S754_finite false m e) = true ->
  (-49 < e \/ (e = -49 /\ 5629499534213120 < Z.pos m)) ->
  10 <= Z.shiftl (Z.pos m) e.
Proof.
  intros Hv [He | [He Hm]].
  - cbn [SpecFloat.valid_binary bounded] in Hv.
    apply andb_true_iff in Hv. destruct Hv as [Hc _].
    unfold canonical_mantissa, fexp in Hc. apply Z.eqb_eq in Hc.
    pose proof (digits2_pos_lower m) as Hd.
    assert (Hdig : Z.pos (digits2_pos m) = 53).
    { unfold SpecFloat.emin, emax, prec in Hc. lia. }
    rewrite Hdig in Hd. change (2 ^ (53 - 1)) with 4503599627370496 in Hd.
    destruct (Z_le_gt_dec 0 e) as [Hpos | Hneg].
    + rewrite Z.shiftl_mul_pow2 by lia.
      assert (1 <= 2 ^ e)
        by (apply Z.pow_le_mono_r with (b := 0) (c := e); lia).
      nia.
    + rewrite Z.shiftl_div_pow2 by lia.
      assert (Hp : 0 < 2 ^ (- e)) by (apply Z.pow_pos_nonneg; lia).
      assert (Hle : 2 ^ (- e) <= 2 ^ 48) by (apply Z.pow_le_mono_r; lia).
      change (2 ^ 48) with 281474976710656 in Hle.
      apply Z.div_le_lower_bound; lia.
  - subst e. rewrite Z.shiftl_div_pow2 by lia.
    change (2 ^ (- -49)) with 562949953421312.
    apply Z.div_le_lower_bound; lia.
Qed.

Lemma binary64_trunc_above_ten (x : float) (z : Z) :
  PrimFloat.ltb (float_of_Z 10) x = true -> float_trunc x = Ok z -> 10 <= z.
Proof.
  intros Hlt Ht. rewrite ltb_spec, ten_as_spec_float in Hlt.
  pose proof (Prim2SF_valid x) as Hv.
  unfold float_trunc in Ht.
  destruct (Prim2SF x) as [s | s | | s m e]; try discriminate.
  injection Ht as <-.
  unfold SFltb, SFcompare in Hlt.
  destruct s; [discriminate|].
  cbn [cond_Zopp].
  apply shiftl_ge_ten; [exact Hv|].
  destruct (Z.compare_spec (-49) e) as [Heq | Hl | Hg].
  - right. split; [symmetry; exact Heq|].
    destruct (Pos.compare_cont Eq 5629499534213120 m) eqn:Hc; try discriminate.
    exact Hc.
  - left. lia.
  - discriminate.
Qed.

Lemma binary64_self_difference (x : float) :
  PrimFloat.ltb (PrimFloat.abs (PrimFloat.sub x x)) (float_of_Z 1) = true
  \/ exists e, float_trunc x = Raise e.
Proof.
  unfold float_trunc.
  rewrite ltb_spec, abs_spec, sub_spec, one_as_spec_float.
  destruct (Prim2SF x) as [s | s | | s m e].
  - left. destruct s; reflexivity.
  - right. eauto.
  - right. eauto.
  - left. unfold SF64sub, SFsub. rewrite Z.sub_diag. reflexivity.
Qed.

Lemma binary64_trunc_raises (x : float) (e : exn) :
  float_trunc x = Raise e -> e = ValueError \/ e = OverflowError.
Proof.
  unfold float_trunc.
  destruct (Prim2SF x); intros Hr; inversion Hr; auto.
Qed.

#[export] Instance binary64_laws : PyFloatLaws float.
Proof.
  split.
  - exact binary64_trunc_above_ten.
  - exact binary64_self_difference.
  - exact binary64_trunc_raises.
Qed.

Lemma Qtrunc_inject (q : Q) (z : Z) : (q == inject_Z z)%Q -> Qtrunc q = z.
Proof.
  unfold Qeq, Qtrunc. destruct q as [n d]. cbn. intros Hq.
  rewrite Z.mul_1_r in Hq. subst n. apply Z.quot_mul. discriminate.
Qed.

Lemma Qtrunc_mono_ten (q : Q) : (10 < q)%Q -> 10 <= Qtrunc q.
Proof.
  unfold Qlt, Qtrunc. destruct q as [n d]. cbn. intros Hq.
  apply Z.quot_le_lower_bound; lia.
Qed.

Lemma Qabs_self_difference (x : Q) :
  negb (Qle_bool (inject_Z 1) (Qabs (x - x))) = true.
Proof.
  apply negb_true_iff, not_true_is_false. intros Hle.
  apply Qle_bool_iff in Hle.
  assert (Hx : (x - x == 0)%Q) by ring.
  rewrite Hx in Hle. vm_compute in Hle. apply Hle. reflexivity.
Qed.

Lemma Qtrunc_above_ten (x : Q) (z : Z) :
  negb (Qle_bool x (inject_Z 10)) = true -> Ok (Qtrunc x) = Ok z -> 10 <= z.
Proof.
  intros Hlt Ht. injection Ht as <-.
  apply Qtrunc_mono_ten. apply negb_true_iff in Hlt.
  destruct (Qlt_le_dec 10 x) as [Hl | Hl]; [exact Hl|].
  apply Qle_bool_iff in Hl. change (inject_Z 10) with 10%Q in Hlt. congruence.
Qed.

#[export] Instance exactQ_laws : PyFloatLaws Q.
Proof.
  split.
  - exact Qtrunc_above_ten.
  - intros x. left. exact (Qabs_self_difference x).
  - intros x e Hr. discriminate Hr.
Qed.

(** ** Validation of a pixel window *)

(** Boolean comparisons of [Z] in the hypotheses, as inequalities. *)
Ltac zbool :=
  repeat match goal with
  | E : (_ >=? _) = _ |- _ => rewrite Z.geb_leb in E
  | E : (_ >? _) = _ |- _ => rewrite Z.gtb_ltb in E
  | E : (_ <? _) = true |- _ => apply Z.ltb_lt in E
  | E : (_ <? _) = false |- _ => apply Z.ltb_ge in E
  | E : (_ <=? _) = true |- _ => apply Z.leb_le in E
  | E : (_ <=? _) = false |- _ => apply Z.leb_gt in E
  end.

Lemma validate_pixel_bounds_raises (x_off y_off x_size y_size W H : Z) :
  invalid_window x_off y_off x_size y_size W H ->
  utils.validate_pixel_bounds (x_off, y_off, x_size, y_size) W H
  = Raise InvalidBoundsError.
Proof.
  unfold invalid_window, utils.validate_pixel_bounds. intros Hbad.
  destruct (x_off <? 0) eqn:E1; [reflexivity|].
  destruct (y_off <? 0) eqn:E2; [reflexivity|].
  destruct (x_off >=? W) eqn:E3; [reflexivity|].
  destruct (y_off >=? H) eqn:E4; [reflexivity|].
  destruct (x_size <=? 0) eqn:E5; [reflexivity|].
  destruct (y_size <=? 0) eqn:E6; [reflexivity|].
  zbool. lia.
Qed.

Lemma validate_pixel_bounds_corrects (x_off y_off x_size y_size W H : Z) :
  ~ invalid_window x_off y_off x_size y_size W H ->
  utils.validate_pixel_bounds (x_off, y_off, x_size, y_size) W H
  = Ok (x_off, y_off, Z.min x_size (W - x_off), Z.min y_size (H - y_off)).
Proof.
  unfold invalid_window, utils.validate_pixel_bounds. intros Hgood.
  destruct (x_off <? 0) eqn:E1; [zbool; lia|].
  destruct (y_off <? 0) eqn:E2; [zbool; lia|].
  destruct (x_off >=? W) eqn:E3; [zbool; lia|].
  destruct (y_off >=? H) eqn:E4; [zbool; lia|].
  destruct (x_size <=? 0) eqn:E5; [zbool; lia|].
  destruct (y_size <=? 0) eqn:E6; [zbool; lia|].
  cbn [orb]. zbool.
  destruct (Z.min_spec x_size (W - x_off)) as [[Hx ->] | [Hx ->]];
    destruct (Z.min_spec y_size (H - y_off)) as [[Hy ->] | [Hy ->]];
    destruct (x_off + x_size >? W) eqn:E7;
    destruct (y_off + y_size >? H) eqn:E8;
    zbool; first [reflexivity | repeat f_equal; lia].
Qed.

(** C10. The pixel crop path validates the window's origin instead of
    clamping it: [crop_by_pixel] raises InvalidBoundsError exactly when
    [x_off < 0], [y_off < 0], [x_off >= width], [y_off >= height],
    [x_size <= 0] or [y_size <= 0]; for every other window the crop
    proceeds with the offsets unchanged and each size reduced to what is
    left of the image, so that [x_off + x_size <= width] and
    [y_off + y_size <= height]. *)
Theorem crop_by_pixel_validates_origin {F : Type} `{PyFloat F}
    (src : crop_core.SrcRaster F) (x_off y_off x_size y_size : Z) :
  let W := crop_core.width src in
  let H := crop_core.height src in
  (crop_core.crop_by_pixel src x_off y_off x_size y_size = Raise InvalidBoundsError
   <-> invalid_window x_off y_off x_size y_size W H)
  /\ (~ invalid_window x_off y_off x_size y_size W H
      <-> exists dst,
            crop_core.crop_by_pixel src x_off y_off x_size y_size = Ok dst
            /\ crop_core.dst_width dst = Z.min x_size (W - x_off)
            /\ crop_core.dst_height dst = Z.min y_size (H - y_off)
            /\ crop_core.read_window dst
               = (x_off, y_off, crop_core.dst_width dst, crop_core.dst_height dst)
            /\ 0 < crop_core.dst_width dst
            /\ 0 < crop_core.dst_height dst
            /\ x_off + crop_core.dst_width dst <= W
            /\ y_off + crop_core.dst_height dst <= H).
Proof.
  intros W H'.
  assert (Hdec : invalid_window x_off y_off x_size y_size W H'
                 \/ ~ invalid_window x_off y_off x_size y_size W H')
    by (unfold invalid_window; lia).
  unfold crop_core.crop_by_pixel. fold W H'.
  destruct Hdec as [Hbad | Hgood].
  - rewrite (validate_pixel_bounds_raises _ _ _ _ _ _ Hbad). cbn.
    split; [tauto|]. split; [tauto|].
    intros (dst & Hdst & _). discriminate Hdst.
  - rewrite (validate_pixel_bounds_corrects _ _ _ _ _ _ Hgood). cbn.
    split; [split; [discriminate | tauto]|].
    split; [|tauto]. intros _. eexists. split; [reflexivity|]. cbn.
    unfold invalid_window in Hgood. repeat split; lia.
Qed.

(** ** Geographic bounds to a pixel window *)

(** In exact arithmetic [geo_to_pixel] returns exactly for the invertible
    transforms, whatever the point. *)
Lemma geo_to_pixel_exact_returns (gt : GeoTransform Q) (geo_x geo_y : Q) :
  (exists p, geo_to_pixel gt geo_x geo_y = Ok p) <-> invertible gt = true.
Proof.
  destruct gt as [x0 pw xr y0 yr ph].
  unfold geo_to_pixel, invertible, rotated, det, py_div.
  cbn [x_rotation y_rotation pixel_width pixel_height].
  cbn [feqb fltb fleb fabs fsub fadd fmul fquo of_int lit ftrunc exactQ].
  destruct (negb (Qeq_bool xr (inject_Z 0)) || negb (Qeq_bool yr (inject_Z 0))).
  - destruct (Qle_bool 1e-10 (Qabs (pw * ph - xr * yr))) eqn:Hdet; cbn [negb].
    + assert (Hnz : Qeq_bool (pw * ph - xr * yr) (inject_Z 0) = false).
      { destruct (Qeq_bool (pw * ph - xr * yr) (inject_Z 0)) eqn:E; [|reflexivity].
        apply Qeq_bool_eq in E. apply Qle_bool_iff in Hdet.
        rewrite E in Hdet. vm_compute in Hdet. exfalso. apply Hdet. reflexivity. }
      rewrite Hnz. cbn. split; [reflexivity | eauto].
    + cbn. split; [intros [p Hp]; discriminate Hp | discriminate].
  - destruct (Qeq_bool pw (inject_Z 0)); cbn;
      [split; [intros [p Hp]; discriminate Hp | discriminate]|].
    destruct (Qeq_bool ph (inject_Z 0)); cbn;
      [split; [intros [p Hp]; discriminate Hp | discriminate]|].
    split; [reflexivity | eauto].
Qed.

(** C6, as amended.  [geo_bounds_to_pixel_bounds] converts the corners
    (minX, maxY) and (maxX, minY) with [geo_to_pixel] and, when both
    conversions return, orders them by element-wise min and max and returns
    a window with [x_off >= 0], [y_off >= 0], [x_off + x_size <= W] and
    [y_off + y_size <= H], whatever area is left; when a conversion raises,
    it raises the same error (in any arithmetic).  In exact arithmetic it
    returns exactly for the invertible transforms: it raises for a rotated
    transform with a determinant below 1e-10 and for a pixel size of
    zero. *)
Theorem geo_bounds_to_pixel_bounds_window :
  (forall (F : Type) (PF : PyFloat F) (gt : GeoTransform F)
          (min_x min_y max_x max_y : F) (W H' : Z),
      match geo_to_pixel gt min_x max_y, geo_to_pixel gt max_x min_y with
      | Ok (ul_x, ul_y), Ok (lr_x, lr_y) =>
          exists x_off y_off x_size y_size,
            geo_bounds_to_pixel_bounds gt min_x min_y max_x max_y W H'
            = Ok (x_off, y_off, x_size, y_size)
            /\ x_off = Z.max 0 (Z.min ul_x lr_x)
            /\ y_off = Z.max 0 (Z.min ul_y lr_y)
            /\ x_off + x_size = Z.min W (Z.max ul_x lr_x)
            /\ y_off + y_size = Z.min H' (Z.max ul_y lr_y)
            /\ 0 <= x_off /\ 0 <= y_off
            /\ x_off + x_size <= W /\ y_off + y_size <= H'
      | Raise e, _ | Ok _, Raise e =>
          geo_bounds_to_pixel_bounds gt min_x min_y max_x max_y W H' = Raise e
      end)
  /\ (forall (gt : GeoTransform Q) (min_x min_y max_x max_y : Q) (W H' : Z),
         (exists r, geo_bounds_to_pixel_bounds gt min_x min_y max_x max_y W H' = Ok r)
         <-> invertible gt = true).
Proof.
  split.
  - intros F PF gt min_x min_y max_x max_y W H'.
    unfold geo_bounds_to_pixel_bounds.
    destruct (geo_to_pixel gt min_x max_y) as [[ul_x ul_y] | e]; cbn; [|reflexivity].
    destruct (geo_to_pixel gt max_x min_y) as [[lr_x lr_y] | e]; cbn; [|reflexivity].
    do 4 eexists. split; [reflexivity|]. repeat split; lia.
  - intros gt min_x min_y max_x max_y W H'.
    unfold geo_bounds_to_pixel_bounds. split.
    + intros [r Hr]. apply (geo_to_pixel_exact_returns gt min_x max_y).
      destruct (geo_to_pixel gt min_x max_y) as [p | e]; [eauto | discriminate Hr].
    + intros Hinv.
      destruct (proj2 (geo_to_pixel_exact_returns gt min_x max_y) Hinv) as [[a b] ->].
      destruct (proj2 (geo_to_pixel_exact_returns gt max_x min_y) Hinv) as [[c d] ->].
      cbn. eauto.
Qed.

(** C6 fails as it stands, for every geotransform.  In binary64 and for
    a 500 x 400 image: with the rotated transform (0, 1, 1, 0, 1, 1), whose
    determinant is zero, the function raises the singular-transform error
    for the box (0, 0, 1, 1); with the transform of the test image given a
    pixel width of zero, it raises the wrapped ZeroDivisionError for the
    box (116.1, 39.7, 116.3, 39.9). *)
Lemma geo_bounds_to_pixel_bounds_raises :
  geo_bounds_to_pixel_bounds (F := float) singular_gt
    (of_int 0) (of_int 0) (of_int 1) (of_int 1) 500 400
  = Raise singular_error
  /\ geo_bounds_to_pixel_bounds (F := float)
       (mkGT (lit 116.0) (of_int 0) (of_int 0) (lit 40.0) (of_int 0) (lit (-0.001)))
       (lit 116.1) (lit 39.7) (lit 116.3) (lit 39.9) 500 400
     = Raise (CoordinateTransformError (ConversionFailed ZeroDivisionError)).
Proof. vm_compute. split; reflexivity. Qed.

(** On the 500 x 400 test image, a box that is a single point and a box
    to the right of and below the image: both conversions return, and so
    does the function, with a window of no area (of negative sizes when the
    box misses the image). *)
Example geo_bounds_without_area :
  geo_bounds_to_pixel_bounds (F := float) test_gt
    (lit 116.25) (lit 39.75) (lit 116.25) (lit 39.75) 500 400
  = Ok (250, 250, 0, 0)
  /\ geo_bounds_to_pixel_bounds (F := float) test_gt
       (lit 117.0) (lit 39.0) (lit 117.5) (lit 39.5) 500 400
     = Ok (1000, 500, -500, -100).
Proof. vm_compute. split; reflexivity. Qed.

(** ** The geotransform of a crop *)

Lemma crop_geotransform_origin {F : Type} `{PyFloat F}
    (gt : GeoTransform F) (x_off y_off : Z) :
  let new_gt := calculate_crop_geotransform gt x_off y_off in
  (x_origin new_gt, y_origin new_gt) = pixel_to_geo gt x_off y_off
  /\ pixel_width new_gt = pixel_width gt
  /\ x_rotation new_gt = x_rotation gt
  /\ y_rotation new_gt = y_rotation gt
  /\ pixel_height new_gt = pixel_height gt.
Proof. destruct gt. cbn. repeat split. Qed.

Lemma crop_geotransform_footprint_exact (gt : GeoTransform Q) (x_off y_off p q : Z) :
  let new_gt := calculate_crop_geotransform gt x_off y_off in
  (fst (pixel_to_geo new_gt p q) == fst (pixel_to_geo gt (p + x_off) (q + y_off)))%Q
  /\ (snd (pixel_to_geo new_gt p q) == snd (pixel_to_geo gt (p + x_off) (q + y_off)))%Q.
Proof.
  destruct gt as [x0 pw xr y0 yr ph]. cbn.
  rewrite !inject_Z_plus. split; ring.
Qed.

(** C4, as amended.  For offsets that convert to a float,
    [calculate_crop_geotransform gt x_off y_off] has the origin
    [pixel_to_geo gt x_off y_off] and the scale and rotation terms of [gt],
    in any arithmetic.  In exact arithmetic its [pixel_to_geo] at (p, q) is
    that of [gt] at (p + x_off, q + y_off): the crop keeps the footprint of
    the pixel window.  In binary64 the two are computed with different
    roundings and agree only approximately; for the test transform cropped
    at (100, 50), within 1e-9 at the far corner. *)
Theorem calculate_crop_geotransform_footprint :
  (forall (F : Type) (PF : PyFloat F) (gt : GeoTransform F) (x_off y_off : Z),
      converts x_off = true -> converts y_off = true ->
      let new_gt := calculate_crop_geotransform gt x_off y_off in
      (x_origin new_gt, y_origin new_gt) = pixel_to_geo gt x_off y_off
      /\ pixel_width new_gt = pixel_width gt
      /\ x_rotation new_gt = x_rotation gt
      /\ y_rotation new_gt = y_rotation gt
      /\ pixel_height new_gt = pixel_height gt)
  /\ (forall (gt : GeoTransform Q) (x_off y_off p q : Z),
         let new_gt := calculate_crop_geotransform gt x_off y_off in
         (fst (pixel_to_geo new_gt p q)
          == fst (pixel_to_geo gt (p + x_off) (q + y_off)))%Q
         /\ (snd (pixel_to_geo new_gt p q)
             == snd (pixel_to_geo gt (p + x_off) (q + y_off)))%Q)
  /\ (let new_gt := calculate_crop_geotransform (F := float) test_gt 100 50 in
      close_to (fst (pixel_to_geo new_gt 200 150))
               (fst (pixel_to_geo test_gt 300 200)) (lit 1e-9) = true
      /\ close_to (snd (pixel_to_geo new_gt 200 150))
                  (snd (pixel_to_geo test_gt 300 200)) (lit 1e-9) = true).
Proof.
  split; [|split].
  - intros F PF gt x_off y_off _ _. apply crop_geotransform_origin.
  - intros gt x_off y_off p q. apply crop_geotransform_footprint_exact.
  - vm_compute. split; reflexivity.
Qed.

Lemma calculate_crop_geotransform_footprint_witness :
  let new_gt := calculate_crop_geotransform (F := float) test_gt 100 50 in
  (x_origin new_gt, y_origin new_gt) = pixel_to_geo test_gt 100 50
  /\ pixel_width new_gt = pixel_width test_gt
  /\ x_rotation new_gt = x_rotation test_gt
  /\ y_rotation new_gt = y_rotation test_gt
  /\ pixel_height new_gt = pixel_height test_gt.
Proof.
  apply (proj1 calculate_crop_geotransform_footprint float binary64 test_gt 100 50);
    vm_compute; reflexivity.
Defined.

(** C4 fails in binary64 at the footprint.  For the test transform cropped
    at (100, 50), the ordinate of the pixel (200, 150) of the crop is
    39.800000000000004, that of the pixel (300, 200) of the original
    39.799999999999997.  The difference is not bounded by the last digit:
    for the transform (0.1, 1e16, -1e16, 0, 0, 1) cropped at (1, 1), the
    abscissa at (-1, -1) of the crop is 0, that at (0, 0) of the original
    0.1. *)
Lemma crop_footprint_differs_in_binary64 :
  (let new_gt := calculate_crop_geotransform (F := float) test_gt 100 50 in
   snd (pixel_to_geo new_gt 200 150) = 39.800000000000004%float
   /\ snd (pixel_to_geo test_gt 300 200) = 39.799999999999997%float
   /\ feqb (snd (pixel_to_geo new_gt 200 150)) (snd (pixel_to_geo test_gt 300 200))
      = false)
  /\ (let gt :=
        mkGT (lit 0.1) (lit 1e16) (lit (-1e16)) (of_int 0) (of_int 0) (of_int 1) in
      let new_gt := calculate_crop_geotransform (F := float) gt 1 1 in
      fst (pixel_to_geo new_gt (-1) (-1)) = of_int 0
      /\ fst (pixel_to_geo gt 0 0) = lit 0.1).
Proof. vm_compute. repeat split; reflexivity. Qed.


(** ** Round trip between pixel and geographic coordinates *)

(** The operations of [exactQ], as the operations of [Q]. *)
Ltac exact_ops :=
  cbn [feqb fltb fleb fabs fsub fadd fmul fquo of_int lit ftrunc exactQ] in *;
  change (inject_Z 0) with 0%Q in *.

Lemma py_div_exact (x y : Q) : ~ (y == 0)%Q -> py_div x y = Ok (x / y)%Q.
Proof.
  intros Hy. unfold py_div. exact_ops.
  destruct (Qeq_bool y 0) eqn:E; [|reflexivity].
  apply Qeq_bool_eq in E. contradiction.
Qed.

Lemma rotated_exact_false (gt : GeoTransform Q) :
  rotated gt = false -> (x_rotation gt == 0)%Q /\ (y_rotation gt == 0)%Q.
Proof.
  unfold rotated. exact_ops. intros Hr.
  apply orb_false_iff in Hr. destruct Hr as [Hx Hy].
  apply negb_false_iff in Hx, Hy.
  split; apply Qeq_bool_eq; assumption.
Qed.

Lemma roundtrip_rotation_free (gt : GeoTransform Q) (px py : Z) :
  rotated gt = false ->
  ~ (pixel_width gt == 0)%Q -> ~ (pixel_height gt == 0)%Q ->
  geo_to_pixel gt (fst (pixel_to_geo gt px py)) (snd (pixel_to_geo gt px py))
  = Ok (px, py).
Proof.
  intros Hrot Hpw Hph.
  destruct (rotated_exact_false gt Hrot) as [Hxr Hyr].
  destruct gt as [x0 pw xr y0 yr ph].
  cbn [x_rotation y_rotation pixel_width pixel_height] in *.
  unfold rotated in Hrot. cbn [x_rotation y_rotation] in Hrot.
  unfold geo_to_pixel, pixel_to_geo. cbn [fst snd].
  rewrite Hrot. exact_ops.
  rewrite !py_div_exact by assumption. cbn [bind try_except].
  rewrite (Qtrunc_inject _ px), (Qtrunc_inject _ py); [reflexivity | |].
  - rewrite Hyr. field. exact Hph.
  - rewrite Hxr. field. exact Hpw.
Qed.

Lemma det_nonzero (d : Q) : (1e-10 <= Qabs d)%Q -> ~ (d == 0)%Q.
Proof.
  intros Hd Hz. rewrite Hz in Hd. vm_compute in Hd. apply Hd. reflexivity.
Qed.

Lemma roundtrip_rotated (gt : GeoTransform Q) (px py : Z) :
  rotated gt = true -> (1e-10 <= Qabs (det gt))%Q ->
  geo_to_pixel gt (fst (pixel_to_geo gt px py)) (snd (pixel_to_geo gt px py))
  = Ok (px, py).
Proof.
  intros Hrot Hdet. pose proof (det_nonzero _ Hdet) as Hnz.
  destruct gt as [x0 pw xr y0 yr ph].
  unfold rotated in Hrot. unfold det in Hdet, Hnz.
  cbn [x_rotation y_rotation pixel_width pixel_height] in *.
  unfold geo_to_pixel, pixel_to_geo. cbn [fst snd].
  rewrite Hrot. exact_ops.
  apply Qle_bool_iff in Hdet. rewrite Hdet. cbn [negb].
  rewrite !py_div_exact by assumption. cbn [bind try_except].
  rewrite (Qtrunc_inject _ px), (Qtrunc_inject _ py); [reflexivity | |];
    field; exact Hnz.
Qed.

(** C3, as amended.  In exact arithmetic and for integer pixel coordinates,
    [geo_to_pixel (pixel_to_geo (px, py))] is (px, py): for a transform
    without rotation terms whose pixel sizes are not zero, and for one with
    rotation terms whose determinant is at least 1e-10 in absolute value. *)
Theorem geo_pixel_roundtrip_exact (gt : GeoTransform Q) (px py : Z) :
  (rotated gt = false /\ ~ (pixel_width gt == 0)%Q /\ ~ (pixel_height gt == 0)%Q)
  \/ (rotated gt = true /\ (1e-10 <= Qabs (det gt))%Q) ->
  geo_to_pixel gt (fst (pixel_to_geo gt px py)) (snd (pixel_to_geo gt px py))
  = Ok (px, py).
Proof.
  intros [(Hrot & Hpw & Hph) | (Hrot & Hdet)].
  - apply roundtrip_rotation_free; assumption.
  - apply roundtrip_rotated; assumption.
Qed.

Lemma geo_pixel_roundtrip_exact_witness :
  geo_to_pixel (F := Q) test_gt
    (fst (pixel_to_geo test_gt 100 50)) (snd (pixel_to_geo test_gt 100 50))
  = Ok (100, 50).
Proof.
  apply (geo_pixel_roundtrip_exact test_gt 100 50).
  left. split; [reflexivity|]. split; intros Hz; vm_compute in Hz; discriminate Hz.
Defined.

(** C3 fails in binary64: on the transform of the test image the round
    trip from pixel (100, 50) ends one pixel short in both coordinates,
    because [geo_to_pixel] truncates 99.999999999994 and 49.999999999997. *)
Lemma geo_pixel_roundtrip_binary64_short :
  rotated (F := float) test_gt = false
  /\ feqb (pixel_width (F := float) test_gt) (of_int 0) = false
  /\ feqb (pixel_height (F := float) test_gt) (of_int 0) = false
  /\ geo_to_pixel (F := float) test_gt
       (fst (pixel_to_geo test_gt 100 50)) (snd (pixel_to_geo test_gt 100 50))
     = Ok (99, 49).
Proof. vm_compute. repeat split. Qed.

(** ** The singular-transform error *)

Section SingularError.
Context {F : Type} `{PyFloatLaws F}.





End SingularError.





(** ** Zoom about an anchor *)

Lemma zoom_offset_exact (s ns off m : Q) :
  ~ (s == 0)%Q -> ~ (ns == 0)%Q ->
  ((m - (m - (m - off) * (ns / s))) / ns == (m - off) / s)%Q.
Proof. intros Hs Hns. field. split; assumption. Qed.

(** The scale after the two clamps of a zoom handler. *)
Lemma clamped_scale_exact (s : Q) :
  let ns := if fltb s MIN_ZOOM then MIN_ZOOM else s in
  let ns := if fltb MAX_ZOOM ns then MAX_ZOOM else ns in
  (0.1 <= ns)%Q /\ (ns <= 50)%Q.
Proof.
  unfold MIN_ZOOM, MAX_ZOOM. exact_ops.
  destruct (Qle_bool 0.1 s) eqn:E1; cbn [negb].
  - apply Qle_bool_iff in E1.
    destruct (Qle_bool s 50.0) eqn:E2; cbn [negb].
    + apply Qle_bool_iff in E2. split; [exact E1 | lra].
    + split; discriminate.
  - split; discriminate.
Qed.

Lemma zoom_about_anchor_exact (app : ImageCropApp Q) (factor ax ay : Q) :
  (0 < scale app)%Q ->
  let new_scale := fmul (scale app) factor in
  let new_scale := if fltb new_scale MIN_ZOOM then MIN_ZOOM else new_scale in
  let new_scale := if fltb MAX_ZOOM new_scale then MAX_ZOOM else new_scale in
  exists real_factor,
    py_div new_scale (scale app) = Ok real_factor
    /\ (0.1 <= new_scale)%Q /\ (new_scale <= 50)%Q
    /\ anchor_fixed app
         (set_view app new_scale
            (fsub ax (fmul (fsub ax (offset_x app)) real_factor))
            (fsub ay (fmul (fsub ay (offset_y app)) real_factor)))
         ax ay.
Proof.
  intros Hs. cbv zeta.
  destruct (clamped_scale_exact (fmul (scale app) factor)) as [Hlo Hhi].
  cbv zeta in Hlo, Hhi.
  set (ns := if fltb MAX_ZOOM _ then MAX_ZOOM else _) in *.
  assert (Hs0 : ~ (scale app == 0)%Q) by (intros Hz; rewrite Hz in Hs; discriminate Hs).
  assert (Hns0 : ~ (ns == 0)%Q) by (intros Hz; rewrite Hz in Hlo; apply Hlo; reflexivity).
  exists (ns / scale app)%Q. split; [apply py_div_exact; exact Hs0|].
  split; [exact Hlo|]. split; [exact Hhi|].
  unfold anchor_fixed, canvas_to_image. cbn [scale offset_x offset_y set_view].
  rewrite !py_div_exact by assumption. cbn [bind].
  do 4 eexists. split; [reflexivity|]. split; [reflexivity|].
  exact_ops. split; apply zoom_offset_exact; assumption.
Qed.

Lemma wheel_factor_exact (event : WheelEvent) :
  exists factor : Q,
    (if (num event =? 5) || (delta event <? 0)
     then py_div (lit 1.0) ZOOM_FACTOR else Ok ZOOM_FACTOR) = Ok factor.
Proof.
  destruct ((num event =? 5) || (delta event <? 0)); eexists; [|reflexivity].
  apply py_div_exact. intros Hz. discriminate Hz.
Qed.

Lemma on_mouse_wheel_anchor_exact (app : ImageCropApp Q) (event : WheelEvent) :
  original_image app = true -> (0 < scale app)%Q ->
  exists app',
    on_mouse_wheel app event = Returned app'
    /\ (0.1 <= scale app')%Q /\ (scale app' <= 50)%Q
    /\ anchor_fixed app app' (of_int (wheel_x event)) (of_int (wheel_y event)).
Proof.
  intros Himg Hs. unfold on_mouse_wheel. rewrite Himg. cbn [negb].
  destruct (wheel_factor_exact event) as [factor ->]. cbn [bind].
  destruct (zoom_about_anchor_exact app factor
              (of_int (wheel_x event)) (of_int (wheel_y event)) Hs)
    as (rf & -> & Hlo & Hhi & Hfix).
  cbn [bind run]. eexists. split; [reflexivity|].
  split; [exact Hlo|]. split; [exact Hhi | exact Hfix].
Qed.

Lemma zoom_view_anchor_exact (app : ImageCropApp Q) (factor : Q) :
  original_image app = true -> (0 < scale app)%Q ->
  exists app' cx cy,
    _zoom_view app factor = Returned app'
    /\ py_div (of_int (winfo_width app)) (of_int 2) = Ok cx
    /\ py_div (of_int (winfo_height app)) (of_int 2) = Ok cy
    /\ (0.1 <= scale app')%Q /\ (scale app' <= 50)%Q
    /\ anchor_fixed app app' cx cy.
Proof.
  intros Himg Hs. unfold _zoom_view. rewrite Himg. cbn [negb].
  assert (H2 : ~ (of_int (F := Q) 2 == 0)%Q) by (intros Hz; discriminate Hz).
  rewrite !(py_div_exact _ _ H2). cbn [bind].
  set (cx := (of_int (winfo_width app) / of_int 2)%Q).
  set (cy := (of_int (winfo_height app) / of_int 2)%Q).
  destruct (zoom_about_anchor_exact app factor cx cy Hs)
    as (rf & -> & Hlo & Hhi & Hfix).
  cbn [bind run]. eexists. exists cx, cy. split; [reflexivity|].
  split; [reflexivity|]. split; [reflexivity|].
  split; [exact Hlo|]. split; [exact Hhi | exact Hfix].
Qed.

(** The two tests of a zoom handler are the specification's clamp, the
    minimum being below the maximum. *)
Lemma clamp_as_spec {F : Type} `{PyFloat F} (x : F) :
  fltb (MAX_ZOOM (F := F)) MIN_ZOOM = false ->
  (let new_scale := if fltb x MIN_ZOOM then MIN_ZOOM else x in
   if fltb MAX_ZOOM new_scale then MAX_ZOOM else new_scale)
  = spec_clamp x MIN_ZOOM MAX_ZOOM.
Proof.
  intros Hle. unfold spec_clamp. cbv zeta.
  destruct (fltb x MIN_ZOOM); [rewrite Hle|]; reflexivity.
Qed.

Lemma on_mouse_wheel_as_spec {F : Type} `{PyFloat F}
    (app : ImageCropApp F) (event : WheelEvent) :
  fltb (MAX_ZOOM (F := F)) MIN_ZOOM = false -> original_image app = true ->
  on_mouse_wheel app event
  = run app
      (bind (wheel_factor event) (fun factor =>
       spec_zoom_at app (of_int (wheel_x event)) (of_int (wheel_y event)) factor)).
Proof.
  intros Hle Himg. unfold on_mouse_wheel, wheel_factor, spec_zoom_at.
  rewrite Himg. cbn [negb]. f_equal.
  destruct (if (num event =? 5) || (delta event <? 0)
            then py_div (lit 1.0) ZOOM_FACTOR else Ok ZOOM_FACTOR) as [factor | e];
    cbn [bind]; [|reflexivity].
  rewrite <- (clamp_as_spec (fmul (scale app) factor) Hle). reflexivity.
Qed.

Lemma zoom_view_as_spec {F : Type} `{PyFloat F}
    (app : ImageCropApp F) (factor : F) :
  fltb (MAX_ZOOM (F := F)) MIN_ZOOM = false -> original_image app = true ->
  _zoom_view app factor
  = run app
      (bind (py_div (of_int (winfo_width app)) (of_int 2)) (fun cx =>
       bind (py_div (of_int (winfo_height app)) (of_int 2)) (fun cy =>
       spec_zoom_at app cx cy factor))).
Proof.
  intros Hle Himg. unfold _zoom_view, spec_zoom_at.
  rewrite Himg. cbn [negb]. f_equal.
  destruct (py_div (of_int (winfo_width app)) (of_int 2)) as [cx | e];
    cbn [bind]; [|reflexivity].
  destruct (py_div (of_int (winfo_height app)) (of_int 2)) as [cy | e];
    cbn [bind]; [|reflexivity].
  rewrite <- (clamp_as_spec (fmul (scale app) factor) Hle). reflexivity.
Qed.

Lemma spec_zoom_at_scale {F : Type} `{PyFloat F}
    (app app' : ImageCropApp F) (ax ay factor : F) :
  spec_zoom_at app ax ay factor = Ok app' ->
  scale app' = spec_clamp (fmul (scale app) factor) MIN_ZOOM MAX_ZOOM.
Proof.
  unfold spec_zoom_at.
  destruct (py_div _ (scale app)) as [rf | e]; cbn [bind]; [|discriminate].
  intros Hz. injection Hz as <-. reflexivity.
Qed.

Lemma run_returned {F : Type} (app app' : ImageCropApp F) (c : result (ImageCropApp F)) :
  run app c = Returned app' -> c = Ok app'.
Proof. destruct c; cbn; intros Hr; [injection Hr as <-; reflexivity | discriminate Hr]. Qed.

(** In exact arithmetic and with a scale that is not zero, the [redraw]
    that ends a handler returns. *)
Lemma redraw_returns_exact (app : ImageCropApp Q) :
  ~ (scale app == 0)%Q -> exists d, gui_view.redraw app = Ok d.
Proof.
  intros Hs. unfold gui_view.redraw.
  destruct (negb (original_image app)); [eauto|].
  unfold canvas_to_image, image_to_canvas. rewrite !py_div_exact by exact Hs.
  cbn [bind ftrunc exactQ].
  destruct (_ || _); cbn; eauto.
Qed.

Lemma clamped_scale_nonzero (s : Q) : (0.1 <= s)%Q -> ~ (s == 0)%Q.
Proof. intros Hlo Hz. rewrite Hz in Hlo. apply Hlo. reflexivity. Qed.

(** C2, as amended.  In binary64, a wheel turn at the pointer and a
    toolbar zoom by any factor about the canvas centre leave the viewport
    that the update worded by the specification gives: the scale
    clamp(scale * factor, MIN_ZOOM, MAX_ZOOM) and the offsets
    anchor - (anchor - offset) * (newScale / scale), or the viewport as it
    was when a division by a scale of zero raises.  In exact arithmetic and
    from a positive scale, the handlers return, the [redraw] that ends
    them returns too, and the anchor shows the same image point before and
    after.  In binary64, a wheel turn up at
    (400, 300) from scale 1.0 and offsets (0, 0) gives scale 1.2 and
    offsets (-80, -60). *)
Theorem zoom_anchor_invariant :
  (forall (app : ImageCropApp float) (event : WheelEvent) (factor : float),
      original_image app = true ->
      state_after (on_mouse_wheel app event)
      = state_after
          (run app
             (bind (wheel_factor event) (fun f =>
              spec_zoom_at app (of_int (wheel_x event)) (of_int (wheel_y event)) f)))
      /\ state_after (_zoom_view app factor)
         = state_after
             (run app
                (bind (py_div (of_int (winfo_width app)) (of_int 2)) (fun cx =>
                 bind (py_div (of_int (winfo_height app)) (of_int 2)) (fun cy =>
                 spec_zoom_at app cx cy factor)))))
  /\ (forall (app : ImageCropApp Q) (event : WheelEvent),
         original_image app = true -> (0 < scale app)%Q ->
         exists factor app',
           wheel_factor event = Ok factor
           /\ spec_zoom_at app (of_int (wheel_x event)) (of_int (wheel_y event)) factor
              = Ok app'
           /\ on_mouse_wheel app event = Returned app'
           /\ (exists d, gui_view.redraw app' = Ok d)
           /\ scale app' = spec_clamp (scale app * factor)%Q MIN_ZOOM MAX_ZOOM
           /\ (0.1 <= scale app')%Q /\ (scale app' <= 50)%Q
           /\ anchor_fixed app app' (of_int (wheel_x event)) (of_int (wheel_y event)))
  /\ (forall (app : ImageCropApp Q) (factor : Q),
         original_image app = true -> (0 < scale app)%Q ->
         exists app' cx cy,
           py_div (of_int (winfo_width app)) (of_int 2) = Ok cx
           /\ py_div (of_int (winfo_height app)) (of_int 2) = Ok cy
           /\ spec_zoom_at app cx cy factor = Ok app'
           /\ _zoom_view app factor = Returned app'
           /\ (exists d, gui_view.redraw app' = Ok d)
           /\ scale app' = spec_clamp (scale app * factor)%Q MIN_ZOOM MAX_ZOOM
           /\ (0.1 <= scale app')%Q /\ (scale app' <= 50)%Q
           /\ anchor_fixed app app' cx cy)
  /\ (let app := loaded (F := float) 1000 800 None None "pixel" 800 600 no_text in
      on_mouse_wheel app (wheel_up 400 300)
      = Returned (set_view app (lit 1.2) (of_int (-80)) (of_int (-60)))).
Proof.
  assert (Hle64 : fltb (MAX_ZOOM (F := float)) MIN_ZOOM = false)
    by (vm_compute; reflexivity).
  assert (HleQ : fltb (MAX_ZOOM (F := Q)) MIN_ZOOM = false)
    by (vm_compute; reflexivity).
  split.
  { intros app event factor Himg. split.
    - rewrite (on_mouse_wheel_as_spec app event Hle64 Himg). reflexivity.
    - rewrite (zoom_view_as_spec app factor Hle64 Himg). reflexivity. }
  split.
  { intros app event Himg Hs.
    destruct (wheel_factor_exact event) as [factor Hf].
    destruct (on_mouse_wheel_anchor_exact app event Himg Hs)
      as (app' & Hret & Hlo & Hhi & Hfix).
    pose proof (on_mouse_wheel_as_spec app event HleQ Himg) as Hspec.
    rewrite Hret in Hspec. symmetry in Hspec. apply run_returned in Hspec.
    unfold wheel_factor in Hspec at 1. rewrite Hf in Hspec. cbn [bind] in Hspec.
    exists factor, app'.
    split; [exact Hf|]. split; [exact Hspec|]. split; [exact Hret|].
    split; [exact (redraw_returns_exact app' (clamped_scale_nonzero _ Hlo))|].
    split; [exact (spec_zoom_at_scale _ _ _ _ _ Hspec)|].
    split; [exact Hlo|]. split; [exact Hhi | exact Hfix]. }
  split.
  { intros app factor Himg Hs.
    destruct (zoom_view_anchor_exact app factor Himg Hs)
      as (app' & cx & cy & Hret & Hcx & Hcy & Hlo & Hhi & Hfix).
    pose proof (zoom_view_as_spec app factor HleQ Himg) as Hspec.
    rewrite Hret in Hspec. symmetry in Hspec. apply run_returned in Hspec.
    rewrite Hcx, Hcy in Hspec. cbn [bind] in Hspec.
    exists app', cx, cy.
    split; [exact Hcx|]. split; [exact Hcy|]. split; [exact Hspec|].
    split; [exact Hret|].
    split; [exact (redraw_returns_exact app' (clamped_scale_nonzero _ Hlo))|].
    split; [exact (spec_zoom_at_scale _ _ _ _ _ Hspec)|].
    split; [exact Hlo|]. split; [exact Hhi | exact Hfix]. }
  vm_compute. reflexivity.
Qed.

Lemma zoom_anchor_invariant_witness :
  let app := loaded (F := Q) 1000 800 None None "pixel" 800 600 no_text in
  exists factor app',
    wheel_factor (wheel_up 400 300) = Ok factor
    /\ spec_zoom_at app (of_int 400) (of_int 300) factor = Ok app'
    /\ on_mouse_wheel app (wheel_up 400 300) = Returned app'
    /\ (exists d, gui_view.redraw app' = Ok d)
    /\ scale app' = spec_clamp (scale app * factor)%Q MIN_ZOOM MAX_ZOOM
    /\ (0.1 <= scale app')%Q /\ (scale app' <= 50)%Q
    /\ anchor_fixed app app' (of_int 400) (of_int 300).
Proof.
  apply (proj1 (proj2 zoom_anchor_invariant)
           (loaded (F := Q) 1000 800 None None "pixel" 800 600 no_text)
           (wheel_up 400 300)); reflexivity.
Defined.

(** C2 fails in binary64 at the invariance.  On the 1000 x 800 image
    fitted into the 800 x 600 canvas, the canvas point (400, 300) shows the
    image row 399.99999999999994 before a wheel turn up at that point and
    the row 400 after it: the pointer readout, which truncates, goes from
    399 to 400. *)
Lemma zoom_anchor_moves_in_binary64 :
  let app0 := loaded (F := float) 1000 800 None None "pixel" 800 600 no_text in
  exists app app' ix iy ix' iy',
    zoom_fit app0 = Returned app
    /\ fltb (of_int 0) (scale app) = true
    /\ on_mouse_wheel app (wheel_up 400 300) = Returned app'
    /\ canvas_to_image app (of_int 400) (of_int 300) = Ok (ix, iy)
    /\ canvas_to_image app' (of_int 400) (of_int 300) = Ok (ix', iy')
    /\ iy = 399.99999999999994%float
    /\ iy' = 400%float
    /\ feqb iy' iy = false
    /\ ftrunc iy = Ok 399
    /\ ftrunc iy' = Ok 400.
Proof.
  cbv zeta. do 6 eexists.
  split; [vm_compute; reflexivity|].
  split; [vm_compute; reflexivity|].
  split; [vm_compute; reflexivity|].
  split; [vm_compute; reflexivity|].
  split; [vm_compute; reflexivity|].
  repeat split; vm_compute; reflexivity.
Qed.


(** ** Geographic bounds of the test window *)

(** C7, as amended.  In binary64, for the 1000 x 800 image with transform
    (116.0, 0.001, 0, 40.0, 0, -0.001) and the pixel window
    (x=100, y=50, w=200, h=150), the geographic fields show minX = 116.1,
    minY = 39.8, width 0.2 and height 0.15, and the corner points
    [pixel_to_geo (100, 50)] and [pixel_to_geo (300, 200)] span
    minX = 116.1, maxX = 116.3, minY = 39.8, maxY = 39.95, each within
    1e-9. *)
Theorem test_window_geo_bounds :
  let app :=
    selected (loaded (F := float) 1000 800 (Some test_gt) None "geo" 800 600 no_text)
      (100, 50, 200, 150) in
  let tol := lit 1e-9 in
  (exists x y w h,
      update_crop_inputs app = Ok (Some (Float x, Float y, Float w, Float h))
      /\ close_to x (lit 116.1) tol = true
      /\ close_to y (lit 39.8) tol = true
      /\ close_to w (lit 0.2) tol = true
      /\ close_to h (lit 0.15) tol = true)
  /\ (let '(gx, gy) := pixel_to_geo test_gt 100 50 in
      let '(gx2, gy2) := pixel_to_geo test_gt 300 200 in
      close_to (py_min gx gx2) (lit 116.1) tol = true
      /\ close_to (py_max gx gx2) (lit 116.3) tol = true
      /\ close_to (py_min gy gy2) (lit 39.8) tol = true
      /\ close_to (py_max gy gy2) (lit 39.95) tol = true).
Proof.
  split.
  - do 4 eexists. split; [vm_compute; reflexivity|].
    repeat split; vm_compute; reflexivity.
  - vm_compute. repeat split.
Qed.

(** C7 fails at minY: the smaller of the two corner ordinates, which is
    also the 'y' field shown, is 39.8 and not within 1e-9 of 39.85. *)
Lemma test_window_min_y_is_not_39_85 :
  let app :=
    selected (loaded (F := float) 1000 800 (Some test_gt) None "geo" 800 600 no_text)
      (100, 50, 200, 150) in
  let min_y :=
    py_min (snd (pixel_to_geo (F := float) test_gt 100 50))
           (snd (pixel_to_geo test_gt 300 200)) in
  close_to min_y (lit 39.85) (lit 1e-9) = false
  /\ (exists x w h,
         update_crop_inputs app = Ok (Some (Float x, Float min_y, Float w, Float h)))
  /\ snd (pixel_to_geo (F := Q) test_gt 300 200) = 39.8000%Q.
Proof.
  split; [vm_compute; reflexivity|]. split.
  - do 3 eexists. vm_compute. reflexivity.
  - vm_compute. reflexivity.
Qed.

(** ** Fit to the canvas *)

Lemma canvas_size_guard {F : Type} `{PyFloat F} (app : ImageCropApp F) :
  (winfo_width app < 10 -> canvas_size app = (800, 600))
  /\ (10 <= winfo_width app -> canvas_size app = (winfo_width app, winfo_height app)).
Proof.
  unfold canvas_size.
  destruct (winfo_width app <? 10) eqn:E; zbool; split; intros; first [reflexivity | lia].
Qed.

Lemma halve_binary64 (x : float) : py_div x (of_int 2) = Ok (fquo x (of_int 2)).
Proof. reflexivity. Qed.

Lemma zoom_fit_formula (app : ImageCropApp float) (cw ch : Z) (w_ratio h_ratio : float) :
  original_image app = true ->
  canvas_size app = (cw, ch) ->
  py_div (of_int cw) (of_int (img_width app)) = Ok w_ratio ->
  py_div (of_int ch) (of_int (img_height app)) = Ok h_ratio ->
  let s := fmul (py_min w_ratio h_ratio) (lit 0.95) in
  zoom_fit app
  = Returned
      (set_view app s
         (fquo (fsub (of_int cw) (fmul (of_int (img_width app)) s)) (of_int 2))
         (fquo (fsub (of_int ch) (fmul (of_int (img_height app)) s)) (of_int 2))).
Proof.
  intros Himg Hsize Hw Hh. unfold zoom_fit.
  rewrite Himg, Hsize. cbn [negb]. rewrite Hw, Hh. cbn [bind].
  rewrite !halve_binary64. reflexivity.
Qed.

Lemma zoom_fit_centres_exact (app : ImageCropApp Q) (cw ch : Z) :
  original_image app = true ->
  canvas_size app = (cw, ch) ->
  img_width app <> 0 -> img_height app <> 0 ->
  exists app',
    zoom_fit app = Returned app'
    /\ (fst (image_to_canvas app' (inject_Z (img_width app) / 2)
                                  (inject_Z (img_height app) / 2))
        == inject_Z cw / 2)%Q
    /\ (snd (image_to_canvas app' (inject_Z (img_width app) / 2)
                                  (inject_Z (img_height app) / 2))
        == inject_Z ch / 2)%Q.
Proof.
  intros Himg Hsize HW HH. unfold zoom_fit.
  rewrite Himg, Hsize. cbn [negb].
  assert (HW' : ~ (of_int (F := Q) (img_width app) == 0)%Q).
  { cbn. unfold Qeq. cbn. lia. }
  assert (HH' : ~ (of_int (F := Q) (img_height app) == 0)%Q).
  { cbn. unfold Qeq. cbn. lia. }
  assert (H2 : ~ (of_int (F := Q) 2 == 0)%Q) by (intros Hz; discriminate Hz).
  rewrite (py_div_exact _ _ HW'), (py_div_exact _ _ HH'). cbn [bind].
  rewrite !(py_div_exact _ _ H2). cbn [bind run].
  eexists. split; [reflexivity|].
  unfold image_to_canvas. cbn [fst snd scale offset_x offset_y set_view].
  exact_ops. change (inject_Z 2) with 2%Q. split; field.
Qed.

(** C8, as amended.  [zoom_fit] sets
    [scale = min(cw / W, ch / H) * 0.95] and the offsets
    [(cw - W * scale) / 2] and [(ch - H * scale) / 2], where (cw, ch) is the
    canvas size, or 800 x 600 when the canvas width is below 10; in exact
    arithmetic these offsets put the centre of the image on the centre of
    the canvas.  On a 1000 x 800 image and an 800 x 600 canvas, binary64
    gives scale 0.7125 and offsets 43.75 and 15, within 1e-9. *)
Theorem zoom_fit_scale_and_offsets :
  (forall (app : ImageCropApp float) (cw ch : Z) (w_ratio h_ratio : float),
      original_image app = true ->
      canvas_size app = (cw, ch) ->
      py_div (of_int cw) (of_int (img_width app)) = Ok w_ratio ->
      py_div (of_int ch) (of_int (img_height app)) = Ok h_ratio ->
      let s := fmul (py_min w_ratio h_ratio) (lit 0.95) in
      zoom_fit app
      = Returned
          (set_view app s
             (fquo (fsub (of_int cw) (fmul (of_int (img_width app)) s)) (of_int 2))
             (fquo (fsub (of_int ch) (fmul (of_int (img_height app)) s)) (of_int 2))))
  /\ (forall app : ImageCropApp float,
         (winfo_width app < 10 -> canvas_size app = (800, 600))
         /\ (10 <= winfo_width app ->
             canvas_size app = (winfo_width app, winfo_height app)))
  /\ (forall (app : ImageCropApp Q) (cw ch : Z),
         original_image app = true ->
         canvas_size app = (cw, ch) ->
         img_width app <> 0 -> img_height app <> 0 ->
         exists app',
           zoom_fit app = Returned app'
           /\ (fst (image_to_canvas app' (inject_Z (img_width app) / 2)
                                         (inject_Z (img_height app) / 2))
               == inject_Z cw / 2)%Q
           /\ (snd (image_to_canvas app' (inject_Z (img_width app) / 2)
                                         (inject_Z (img_height app) / 2))
               == inject_Z ch / 2)%Q)
  /\ (let app := loaded (F := float) 1000 800 None None "pixel" 800 600 no_text in
      exists app',
        zoom_fit app = Returned app'
        /\ close_to (scale app') (lit 0.7125) (lit 1e-9) = true
        /\ close_to (offset_x app') (lit 43.75) (lit 1e-9) = true
        /\ close_to (offset_y app') (lit 15.0) (lit 1e-9) = true).
Proof.
  split; [exact zoom_fit_formula|].
  split; [intros app; apply canvas_size_guard|].
  split; [exact zoom_fit_centres_exact|].
  eexists. split; [vm_compute; reflexivity|].
  repeat split; vm_compute; reflexivity.
Qed.

Lemma zoom_fit_scale_and_offsets_witness :
  let app := loaded (F := float) 1000 800 None None "pixel" 1 1 no_text in
  let s := fmul (py_min (lit 0.8) (lit 0.75)) (lit 0.95) in
  zoom_fit app
  = Returned
      (set_view app s
         (fquo (fsub (of_int 800) (fmul (of_int 1000) s)) (of_int 2))
         (fquo (fsub (of_int 600) (fmul (of_int 800) s)) (of_int 2))).
Proof.
  apply (proj1 zoom_fit_scale_and_offsets
           (loaded (F := float) 1000 800 None None "pixel" 1 1 no_text)
           800 600 (lit 0.8) (lit 0.75));
    vm_compute; reflexivity.
Defined.

(** C8 fails on its example: on a 1000 x 800 image and an 800 x 600 canvas
    the scale is more than 0.14 from 0.57, the horizontal offset more than
    128 from 172, and the vertical offset more than 14 from 0; and with a
    canvas of 800 x 5 nothing is substituted for the height below 10. *)
Lemma zoom_fit_example_is_not_0_57 :
  (let app := loaded (F := float) 1000 800 None None "pixel" 800 600 no_text in
   exists app',
     zoom_fit app = Returned app'
     /\ close_to (scale app') (lit 0.57) (lit 0.14) = false
     /\ close_to (offset_x app') (of_int 172) (of_int 128) = false
     /\ close_to (offset_y app') (of_int 0) (of_int 14) = false)
  /\ (let app := loaded (F := float) 1000 800 None None "pixel" 800 5 no_text in
      exists app',
        zoom_fit app = Returned app'
        /\ close_to (scale app') (lit 0.0059375) (lit 1e-9) = true).
Proof.
  split; eexists; (split; [vm_compute; reflexivity|]);
    repeat split; vm_compute; reflexivity.
Qed.

(** ** The crop rectangle under the handlers *)

Section CropHandlers.
Context {F : Type} `{PyFloatLaws F}.

(** Resolves the next call that may raise, a conversion first. *)
Ltac step :=
  match goal with
  | |- context [to_float ?n] => destruct (to_float n) eqn:?; cbn [bind]
  | |- context [bind ?c _] =>
      destruct c eqn:?; cbn [bind];
      repeat match goal with p : (_ * _)%type |- _ => destruct p end
  end.

Lemma to_int_max_ten (y : F) (z : Z) :
  to_int (max_int_float 10 y) = Ok z -> 10 <= z.
Proof.
  unfold max_int_float. destruct (fltb (of_int 10) y) eqn:E; cbn [to_int].
  - apply trunc_above_ten. exact E.
  - intros Hz. injection Hz as <-. lia.
Qed.

Lemma to_int_Int (n z : Z) : to_int (F := F) (Int n) = Ok z -> z = n.
Proof. cbn. intros Hz. injection Hz as <-. reflexivity. Qed.

Lemma on_crop_drag_min_size (app : ImageCropApp F) (event_x event_y : Z) :
  crop_min_size app -> crop_min_size (state_after (on_crop_drag app event_x event_y)).
Proof.
  intros [Hc Hs]. pose proof (conj Hc Hs : crop_min_size app) as Hsame.
  unfold on_crop_drag.
  destruct (drag_start_bounds app) as [[[[ox oy] ow] oh] |] eqn:Hstart.
  - cbn in Hs. destruct Hs as [Hw Hh].
    destruct (mode_is app "move").
    + unfold run. repeat step; cbn [state_after]; try exact Hsame;
        unfold crop_min_size;
        cbn [crop_bounds drag_start_bounds set_crop_bounds]; rewrite ?Hstart;
        cbn; auto.
    + destruct (mode_is app "resize").
      * unfold run.
        destruct (active_handle app) as [h |]; cbn [bind];
          [destruct (char_in "e" h), (char_in "w" h), (char_in "s" h),
             (char_in "n" h)|];
          repeat step; cbn [state_after]; try exact Hsame;
          unfold crop_min_size;
          cbn [crop_bounds drag_start_bounds set_crop_bounds]; rewrite ?Hstart;
          cbn; auto;
          repeat match goal with
          | E : to_int (max_int_float 10 _) = Ok _ |- _ => apply to_int_max_ten in E
          | E : to_int (Int _) = Ok _ |- _ => apply to_int_Int in E
          end; repeat split; lia.
      * destruct (dragging_crop app); cbn [negb]; cbn [state_after];
          [|split; [exact Hc | rewrite Hstart; cbn; auto]].
        unfold run. repeat step; cbn [state_after]; unfold crop_min_size;
          rewrite ?Hstart; cbn; auto. 
  - destruct (mode_is app "move"), (mode_is app "resize");
      (destruct (dragging_crop app); cbn [negb]; [|exact Hsame]);
      unfold run; repeat step; exact Hsame.
Qed.

Lemma then_update_state (app : ImageCropApp F) : state_after (then_update app) = app.
Proof. unfold then_update. destruct (update_crop_inputs app); reflexivity. Qed.

Lemma on_crop_drag_in_image (app : ImageCropApp F) (event_x event_y : Z) :
  mode_is app "resize" = false ->
  crop_in_image app -> crop_in_image (state_after (on_crop_drag app event_x event_y)).
Proof.
  intros Hmode [Hc Hs]. unfold on_crop_drag. rewrite Hmode.
  assert (Hsame : forall o, state_after o = app -> crop_in_image (state_after o)).
  { intros o ->. split; assumption. }
  destruct (mode_is app "move");
    [destruct (drag_start_bounds app) as [[[[ox oy] ow] oh] |] eqn:Hstart|].
  - cbn in Hs. unfold run.
    repeat step; try (apply Hsame; reflexivity).
    cbn [state_after]. unfold crop_in_image.
    cbn [crop_bounds drag_start_bounds set_crop_bounds img_width img_height].
    rewrite Hstart. cbn. repeat split; lia.
  - destruct (dragging_crop app); cbn [negb]; [|apply Hsame; reflexivity].
    unfold run. repeat step; apply Hsame; reflexivity.
  - destruct (dragging_crop app); cbn [negb]; [|apply Hsame; reflexivity].
    unfold run. repeat step; apply Hsame; reflexivity.
Qed.

Lemma move_crop_in_image (app : ImageCropApp F) (dx dy : Z) :
  crop_in_image app -> crop_in_image (state_after (move_crop app dx dy)).
Proof.
  intros [Hc Hs]. unfold move_crop.
  destruct (crop_bounds app) as [[[[x y] w] h] |] eqn:Hcrop.
  - rewrite then_update_state. unfold crop_in_image.
    cbn [crop_bounds drag_start_bounds set_crop_bounds img_width img_height].
    cbn in Hc. split; [cbn; repeat split; lia | exact Hs].
  - cbn [state_after]. unfold crop_in_image. rewrite Hcrop. split; [exact I | exact Hs].
Qed.

Lemma move_crop_min_size (app : ImageCropApp F) (dx dy : Z) :
  crop_min_size app -> crop_min_size (state_after (move_crop app dx dy)).
Proof.
  intros [Hc Hs]. unfold move_crop.
  destruct (crop_bounds app) as [[[[x y] w] h] |] eqn:Hcrop.
  - rewrite then_update_state. unfold crop_min_size.
    cbn [crop_bounds drag_start_bounds set_crop_bounds].
    cbn in Hc. split; [exact Hc | exact Hs].
  - cbn [state_after]. unfold crop_min_size. rewrite Hcrop. split; [exact I | exact Hs].
Qed.

(** A press that meets neither a handle nor the rectangle starts a drawing
    drag and clears the rectangle. *)
Lemma on_crop_start_draws (app : ImageCropApp F) (cx cy : Z) :
  original_image app = true ->
  _get_handle_at app cx cy = Ok None -> _is_inside_crop app cx cy = Ok false ->
  on_crop_start app cx cy
  = Returned
      (set_crop_bounds
         (set_drag (set_dragging_crop app true) None (active_handle app)
            (drag_start_bounds app) cx cy)
         None).
Proof.
  intros Himg Hh Hi. unfold on_crop_start. rewrite Himg, Hh, Hi. reflexivity.
Qed.

Lemma py_min_same (x : F) : py_min x x = x.
Proof. unfold py_min. destruct (fltb x x); reflexivity. Qed.

(** The release of a drawing drag whose width or height in the image is
    below one pixel. *)
Lemma on_crop_end_small (app : ImageCropApp F) (event_x event_y : Z)
    (ix1 iy1 ix2 iy2 : F) :
  crop_drag_mode app = None ->
  canvas_to_image app (of_int (crop_start_x app)) (of_int (crop_start_y app))
  = Ok (ix1, iy1) ->
  canvas_to_image app (of_int event_x) (of_int event_y) = Ok (ix2, iy2) ->
  fltb (fabs (fsub ix2 ix1)) (of_int 1) || fltb (fabs (fsub iy2 iy1)) (of_int 1) = true ->
  on_crop_end app event_x event_y
  = Returned (set_crop_bounds (set_dragging_crop app false) None).
Proof.
  intros Hmode H1 H2 Hsmall. unfold on_crop_end, mode_is. rewrite Hmode.
  cbn [orb]. cbv zeta.
  change (canvas_to_image (set_dragging_crop app false)) with (canvas_to_image app).
  cbn [crop_start_x crop_start_y set_dragging_crop].
  rewrite H1, H2. cbn [bind]. rewrite Hsmall. reflexivity.
Qed.

(** The release of a drawing drag at the point of the press. *)
Lemma on_crop_end_zero_drag (app : ImageCropApp F) :
  crop_drag_mode app = None -> crop_bounds app = None ->
  crop_bounds
    (state_after (on_crop_end app (crop_start_x app) (crop_start_y app)))
  = None.
Proof.
  intros Hmode Hnone. unfold on_crop_end, mode_is. rewrite Hmode.
  cbn [orb]. cbv zeta.
  change (canvas_to_image (set_dragging_crop app false)) with (canvas_to_image app).
  cbn [crop_start_x crop_start_y set_dragging_crop].
  destruct (canvas_to_image app (of_int (crop_start_x app)) (of_int (crop_start_y app)))
    as [[ix iy] | e]; cbn [bind]; [|exact Hnone].
  rewrite !py_min_same.
  destruct (fltb (fabs (fsub ix ix)) (of_int 1) || fltb (fabs (fsub iy iy)) (of_int 1))
    eqn:Hsmall; [reflexivity|].
  apply orb_false_iff in Hsmall. destruct Hsmall as [Hw _].
  destruct (self_difference ix) as [Hlt | [e He]]; [congruence|].
  rewrite He. cbn [bind state_after]. exact Hnone.
Qed.

(** A pointer move during a drawing drag leaves the object as it is. *)
Lemma on_crop_drag_drawing (app : ImageCropApp F) (event_x event_y : Z) :
  crop_drag_mode app = None ->
  state_after (on_crop_drag app event_x event_y) = app.
Proof.
  intros Hmode. unfold on_crop_drag, mode_is. rewrite Hmode.
  destruct (dragging_crop app); cbn [negb]; [|reflexivity].
  unfold run. repeat step; reflexivity.
Qed.
End CropHandlers.

(** C1, as amended.  In binary64, and whether the handler returns or an
    exception leaves it: a pointer move of a move drag (or of a drawing
    drag) and a keyboard nudge keep the rectangle inside the image,
    [x >= 0], [y >= 0], [x + w <= W], [y + h <= H], with [w >= 10] and
    [h >= 10]; a pointer move of a resize drag keeps [w >= 10] and
    [h >= 10]. *)
Theorem crop_rectangle_invariants :
  (forall (app : ImageCropApp float) (event_x event_y : Z),
      mode_is app "resize" = false ->
      crop_in_image app -> crop_min_size app ->
      crop_in_image (state_after (on_crop_drag app event_x event_y))
      /\ crop_min_size (state_after (on_crop_drag app event_x event_y)))
  /\ (forall (app : ImageCropApp float) (dx dy : Z),
         crop_in_image app -> crop_min_size app ->
         crop_in_image (state_after (move_crop app dx dy))
         /\ crop_min_size (state_after (move_crop app dx dy)))
  /\ (forall (app : ImageCropApp float) (event_x event_y : Z),
         crop_min_size app ->
         crop_min_size (state_after (on_crop_drag app event_x event_y))).
Proof.
  split.
  { intros app event_x event_y Hmode Hin Hmin. split.
    - apply on_crop_drag_in_image; assumption.
    - apply on_crop_drag_min_size; assumption. }
  split.
  { intros app dx dy Hin Hmin. split.
    - apply move_crop_in_image; assumption.
    - apply move_crop_min_size; assumption. }
  intros app event_x event_y. apply on_crop_drag_min_size.
Qed.

Lemma crop_rectangle_invariants_witness :
  let app :=
    dragging
      (selected (loaded (F := float) 1000 800 None None "pixel" 800 600 no_text)
         (50, 50, 100, 40))
      "move" None 100 70 in
  crop_in_image (state_after (on_crop_drag app 5000 0))
  /\ crop_min_size (state_after (on_crop_drag app 5000 0)).
Proof.
  apply (proj1 crop_rectangle_invariants).
  - reflexivity.
  - unfold crop_in_image. cbn. repeat split; lia.
  - unfold crop_min_size. cbn. repeat split; lia.
Defined.

(** C1 fails for a resize drag and for a numeric-entry commit.  On a
    1000 x 800 image at scale 1.0, from the rectangle (50, 50, 100, 40):
    dragging the 'se' handle from (150, 90) to (1500, 90) gives
    (50, 50, 1450, 40), whose right edge is at 1500; committing the pixel
    entries x = -5, y = 0, w = 3, h = 2000 gives (-5, 0, 3, 2000). *)
Lemma resize_and_entry_leave_the_image :
  let app0 := loaded (F := float) 1000 800 None None "pixel" 800 600 no_text in
  let app := dragging (selected app0 (50, 50, 100, 40)) "resize" (Some "se"%string) 150 90 in
  let typed :=
    selected
      (loaded (F := float) 1000 800 None None "pixel" 800 600
         (texts (lit (-5)) (lit 0) (lit 3) (lit 2000)))
      (50, 50, 100, 40) in
  (crop_in_image app /\ crop_min_size app)
  /\ on_crop_drag app 1500 90
     = Returned (set_crop_bounds app (Some (50, 50, 1450, 40)))
  /\ ~ in_image 1000 800 (50, 50, 1450, 40)
  /\ (crop_in_image typed /\ crop_min_size typed)
  /\ apply_input_bounds typed
     = Returned (set_crop_bounds typed (Some (-5, 0, 3, 2000)))
  /\ ~ in_image 1000 800 (-5, 0, 3, 2000)
  /\ ~ min_size (-5, 0, 3, 2000).
Proof.
  cbv zeta.
  split; [split; [unfold crop_in_image | unfold crop_min_size]; cbn; repeat split; lia|].
  split; [vm_compute; reflexivity|].
  split; [unfold in_image; lia|].
  split; [split; [unfold crop_in_image | unfold crop_min_size]; cbn; repeat split; lia|].
  split; [vm_compute; reflexivity|].
  split; [unfold in_image | unfold min_size]; lia.
Qed.

(** C9.  In binary64 and in any viewport, a drawing drag is begun by a
    press, with an image loaded, for which the tests of [on_crop_start]
    return and meet neither a handle nor the rectangle.  The press clears
    the rectangle; pointer moves leave it cleared; a release at the point
    of the press, and any release at which the width or the height of the
    drag in the image is below one pixel, leaves no rectangle. *)
Theorem small_drawing_drag_selects_nothing (app : ImageCropApp float) (cx cy : Z) :
  original_image app = true ->
  _get_handle_at app cx cy = Ok None -> _is_inside_crop app cx cy = Ok false ->
  exists app1,
    on_crop_start app cx cy = Returned app1
    /\ crop_bounds app1 = None
    /\ (forall x y, state_after (on_crop_drag app1 x y) = app1)
    /\ crop_bounds (state_after (on_crop_end app1 cx cy)) = None
    /\ (forall (event_x event_y : Z) (ix1 iy1 ix2 iy2 : float),
           canvas_to_image app1 (of_int cx) (of_int cy) = Ok (ix1, iy1) ->
           canvas_to_image app1 (of_int event_x) (of_int event_y) = Ok (ix2, iy2) ->
           fltb (fabs (fsub ix2 ix1)) (of_int 1)
           || fltb (fabs (fsub iy2 iy1)) (of_int 1) = true ->
           on_crop_end app1 event_x event_y
           = Returned (set_crop_bounds (set_dragging_crop app1 false) None)).
Proof.
  intros Himg Hhandle Hinside.
  eexists. split; [apply on_crop_start_draws; assumption|].
  split; [reflexivity|].
  split; [intros x y; apply on_crop_drag_drawing; reflexivity|].
  split.
  - apply (on_crop_end_zero_drag
             (set_crop_bounds
                (set_drag (set_dragging_crop app true) None (active_handle app)
                   (drag_start_bounds app) cx cy) None)); reflexivity.
  - intros event_x event_y ix1 iy1 ix2 iy2 H1 H2 Hsmall.
    apply (on_crop_end_small _ event_x event_y ix1 iy1 ix2 iy2);
      [reflexivity | exact H1 | exact H2 | exact Hsmall].
Qed.

Lemma small_drawing_drag_selects_nothing_witness :
  let app := loaded (F := float) 1000 800 None None "pixel" 800 600 no_text in
  exists app1,
    on_crop_start app 50 50 = Returned app1
    /\ crop_bounds app1 = None
    /\ (forall x y, state_after (on_crop_drag app1 x y) = app1)
    /\ crop_bounds (state_after (on_crop_end app1 50 50)) = None
    /\ (forall (event_x event_y : Z) (ix1 iy1 ix2 iy2 : float),
           canvas_to_image app1 (of_int 50) (of_int 50) = Ok (ix1, iy1) ->
           canvas_to_image app1 (of_int event_x) (of_int event_y) = Ok (ix2, iy2) ->
           fltb (fabs (fsub ix2 ix1)) (of_int 1)
           || fltb (fabs (fsub iy2 iy1)) (of_int 1) = true ->
           on_crop_end app1 event_x event_y
           = Returned (set_crop_bounds (set_dragging_crop app1 false) None)).
Proof.
  apply (small_drawing_drag_selects_nothing
           (loaded (F := float) 1000 800 None None "pixel" 800 600 no_text) 50 50);
    reflexivity.
Defined.

(** A press that begins no drag.  On a 1000 x 800 image at scale 1.0,
    after the pixel entries x = 9e307, y = 0, w = 9e307, h = 10 are
    committed, x converts to a float and x + w does not: a press at
    (150, 90) leaves [on_crop_start] with OverflowError from the handle
    test, before anything is assigned, so no drag is begun and the press
    point is not recorded.  [on_crop_end] tests neither the image nor
    [dragging_crop]: the release at (150, 90) stores (0, 0, 150, 90),
    spanned from the point recorded before.  Likewise with no image loaded:
    the press at (50, 50) returns at once and the release there stores
    (0, 0, 50, 50). *)
Lemma press_without_drag :
  (let typed :=
     loaded (F := float) 1000 800 None None "pixel" 800 600
       (texts (lit 9e307) (lit 0) (lit 9e307) (lit 10)) in
   exists app x w,
     apply_input_bounds typed = Returned app
     /\ crop_bounds app = Some (x, 0, w, 10)
     /\ converts (F := float) x = true
     /\ converts (F := float) (x + w) = false
     /\ _get_handle_at app 150 90 = Raise OverflowError
     /\ on_crop_start app 150 90 = Escaped OverflowError app
     /\ dragging_crop app = false
     /\ state_after (on_crop_drag app 150 90) = app
     /\ crop_bounds (state_after (on_crop_end app 150 90)) = Some (0, 0, 150, 90))
  /\ (let app := initial (F := float) 800 600 in
      on_crop_start app 50 50 = Returned app
      /\ dragging_crop app = false
      /\ state_after (on_crop_drag app 50 50) = app
      /\ crop_bounds (state_after (on_crop_end app 50 50)) = Some (0, 0, 50, 50)).
Proof.
  cbv zeta. split.
  - do 3 eexists.
    split; [vm_compute; reflexivity|].
    split; [vm_compute; reflexivity|].
    repeat split; vm_compute; reflexivity.
  - repeat split; vm_compute; reflexivity.
Qed.

(** * Further properties *)

Import crop_entry gui_view.

(** ** Cropping by geographic bounds *)

(** X1. When both corners of a geographic box convert and the clamped
    window has positive sizes, [crop_by_geo] crops exactly that window: the
    validation of [crop_by_pixel] accepts it and corrects nothing, and the
    window lies in the image. *)
Theorem crop_by_geo_crops_clamped_window {F : Type} `{PyFloat F}
    (src : crop_core.SrcRaster F) (min_x min_y max_x max_y : F)
    (x_off y_off x_size y_size : Z) :
  geo_bounds_to_pixel_bounds (crop_core.src_gt src) min_x min_y max_x max_y
    (crop_core.width src) (crop_core.height src)
  = Ok (x_off, y_off, x_size, y_size) ->
  0 < x_size -> 0 < y_size ->
  exists dst,
    crop_by_geo src min_x min_y max_x max_y = Ok dst
    /\ crop_core.read_window dst = (x_off, y_off, x_size, y_size)
    /\ crop_core.dst_width dst = x_size
    /\ crop_core.dst_height dst = y_size
    /\ crop_core.dst_gt dst
       = calculate_crop_geotransform (crop_core.src_gt src) x_off y_off
    /\ 0 <= x_off /\ 0 <= y_off
    /\ x_off + x_size <= crop_core.width src
    /\ y_off + y_size <= crop_core.height src.
Proof.
  intros Hwin Hxs Hys.
  unfold crop_by_geo. rewrite Hwin. cbn [bind].
  unfold geo_bounds_to_pixel_bounds in Hwin.
  destruct (geo_to_pixel (crop_core.src_gt src) min_x max_y) as [[ul_x ul_y] | e1];
    [|discriminate Hwin].
  destruct (geo_to_pixel (crop_core.src_gt src) max_x min_y) as [[lr_x lr_y] | e2];
    [|discriminate Hwin].
  cbn in Hwin. injection Hwin as Hxo Hyo Hxs' Hys'.
  unfold crop_core.crop_by_pixel.
  rewrite validate_pixel_bounds_corrects by (unfold invalid_window; lia).
  rewrite !Z.min_l by lia. cbn.
  eexists. split; [reflexivity|]. cbn. repeat split; lia.
Qed.

Lemma crop_by_geo_crops_clamped_window_witness :
  exists dst,
    crop_by_geo (F := float)
      {| crop_core.width := 500; crop_core.height := 400; crop_core.bands := 3;
         crop_core.src_gt := test_gt |}
      (lit 116.1) (lit 39.7) (lit 116.3) (lit 39.9) = Ok dst
    /\ crop_core.read_window dst = (99, 100, 200, 199)
    /\ crop_core.dst_width dst = 200
    /\ crop_core.dst_height dst = 199
    /\ crop_core.dst_gt dst = calculate_crop_geotransform test_gt 99 100
    /\ 0 <= 99 /\ 0 <= 100 /\ 99 + 200 <= 500 /\ 100 + 199 <= 400.
Proof.
  apply (crop_by_geo_crops_clamped_window (F := float)
           {| crop_core.width := 500; crop_core.height := 400; crop_core.bands := 3;
              crop_core.src_gt := test_gt |}
           (lit 116.1) (lit 39.7) (lit 116.3) (lit 39.9) 99 100 200 199);
    [vm_compute; reflexivity | lia | lia].
Defined.

(** X2. A geographic box whose clamped window has no area is an error of
    [crop_by_geo], not an empty result: when both corners convert and a
    size of the window is zero or negative, it raises InvalidBoundsError;
    and when a corner does not convert it raises what the conversion
    raised. *)
Theorem crop_by_geo_rejects_empty_window {F : Type} `{PyFloat F}
    (src : crop_core.SrcRaster F) (min_x min_y max_x max_y : F) :
  match geo_bounds_to_pixel_bounds (crop_core.src_gt src) min_x min_y max_x max_y
          (crop_core.width src) (crop_core.height src) with
  | Ok (x_off, y_off, x_size, y_size) =>
      x_size <= 0 \/ y_size <= 0 ->
      crop_by_geo src min_x min_y max_x max_y = Raise InvalidBoundsError
  | Raise e => crop_by_geo src min_x min_y max_x max_y = Raise e
  end.
Proof.
  unfold crop_by_geo.
  destruct (geo_bounds_to_pixel_bounds _ _ _ _ _ _ _)
    as [[[[x_off y_off] x_size] y_size] | e]; cbn [bind try_except]; [|reflexivity].
  intros Hempty. unfold crop_core.crop_by_pixel.
  rewrite validate_pixel_bounds_raises by (unfold invalid_window; lia).
  reflexivity.
Qed.

Lemma crop_by_geo_rejects_empty_window_witness :
  crop_by_geo (F := float)
    {| crop_core.width := 500; crop_core.height := 400; crop_core.bands := 3;
       crop_core.src_gt := test_gt |}
    (lit 116.25) (lit 39.75) (lit 116.25) (lit 39.75) = Raise InvalidBoundsError.
Proof.
  pose proof (crop_by_geo_rejects_empty_window (F := float)
                {| crop_core.width := 500; crop_core.height := 400; crop_core.bands := 3;
                   crop_core.src_gt := test_gt |}
                (lit 116.25) (lit 39.75) (lit 116.25) (lit 39.75)) as Hthm.
  assert (E : geo_bounds_to_pixel_bounds (F := float) test_gt
                (lit 116.25) (lit 39.75) (lit 116.25) (lit 39.75) 500 400
              = Ok (250, 250, 0, 0)) by (vm_compute; reflexivity).
  cbn [crop_core.width crop_core.height crop_core.src_gt] in Hthm.
  rewrite E in Hthm. apply Hthm. left. lia.
Defined.

Lemma crop_by_pixel_returns_iff {F : Type} `{PyFloat F}
    (src : crop_core.SrcRaster F) (x_off y_off x_size y_size : Z) :
  (exists dst, crop_core.crop_by_pixel src x_off y_off x_size y_size = Ok dst)
  <-> ~ invalid_window x_off y_off x_size y_size
          (crop_core.width src) (crop_core.height src).
Proof.
  unfold crop_core.crop_by_pixel. split.
  - intros [dst Hdst] Hbad.
    rewrite (validate_pixel_bounds_raises _ _ _ _ _ _ Hbad) in Hdst.
    discriminate Hdst.
  - intros Hgood. rewrite (validate_pixel_bounds_corrects _ _ _ _ _ _ Hgood).
    cbn. eexists. reflexivity.
Qed.

(** X3. [crop_raster] looks at the coordinate type first: a type that is
    neither 'pixel' nor 'geo' in any letter case is a ValueError whatever
    the bounds and the image.  In pixel mode and exact arithmetic it crops
    the window of the bounds truncated toward zero, and it succeeds exactly
    when that window is valid. *)
Theorem crop_raster_dispatch :
  (forall (F : Type) (PF : PyFloat F) (src : crop_core.SrcRaster F)
          (bounds : F * F * F * F) (coord_type : string),
      lower coord_type <> "pixel"%string -> lower coord_type <> "geo"%string ->
      crop_raster src bounds coord_type = Raise ValueError)
  /\ (forall (src : crop_core.SrcRaster Q) (b1 b2 b3 b4 : Q) (coord_type : string),
         lower coord_type = "pixel"%string ->
         crop_raster src (b1, b2, b3, b4) coord_type
         = crop_core.crop_by_pixel src (Qtrunc b1) (Qtrunc b2) (Qtrunc b3) (Qtrunc b4)
         /\ ((exists dst, crop_raster src (b1, b2, b3, b4) coord_type = Ok dst)
             <-> ~ invalid_window (Qtrunc b1) (Qtrunc b2) (Qtrunc b3) (Qtrunc b4)
                    (crop_core.width src) (crop_core.height src))).
Proof.
  split.
  - intros F PF src [[[b1 b2] b3] b4] coord_type Hp Hg. unfold crop_raster.
    destruct (String.eqb_spec (lower coord_type) "pixel"); [contradiction|].
    destruct (String.eqb_spec (lower coord_type) "geo"); [contradiction|].
    reflexivity.
  - intros src b1 b2 b3 b4 coord_type Hp. unfold crop_raster. rewrite Hp.
    cbn [String.eqb]. change (String.eqb "pixel" "pixel") with true. cbn iota.
    split; [reflexivity|].
    cbn [ftrunc exactQ bind].
    apply crop_by_pixel_returns_iff.
Qed.

Lemma crop_raster_dispatch_witness :
  crop_raster (F := float)
    {| crop_core.width := 500; crop_core.height := 400; crop_core.bands := 3;
       crop_core.src_gt := test_gt |}
    (lit 100, lit 50, lit 200, lit 150) "Polar"
  = Raise ValueError.
Proof.
  apply (proj1 crop_raster_dispatch); vm_compute; discriminate.
Defined.

(** X4. [validate_pixel_bounds] is idempotent: a window it returns is
    returned unchanged when validated again for the same image. *)
Theorem validate_pixel_bounds_idempotent (b b' : Z * Z * Z * Z) (W H : Z) :
  utils.validate_pixel_bounds b W H = Ok b' ->
  utils.validate_pixel_bounds b' W H = Ok b'.
Proof.
  destruct b as [[[x_off y_off] x_size] y_size]. intros Hb.
  assert (Hdec : invalid_window x_off y_off x_size y_size W H
                 \/ ~ invalid_window x_off y_off x_size y_size W H)
    by (unfold invalid_window; lia).
  destruct Hdec as [Hbad | Hgood].
  - rewrite (validate_pixel_bounds_raises _ _ _ _ _ _ Hbad) in Hb. discriminate Hb.
  - rewrite (validate_pixel_bounds_corrects _ _ _ _ _ _ Hgood) in Hb.
    injection Hb as <-.
    rewrite validate_pixel_bounds_corrects by (unfold invalid_window in *; lia).
    rewrite <- !Z.min_assoc, !Z.min_id. reflexivity.
Qed.

Lemma validate_pixel_bounds_idempotent_witness :
  utils.validate_pixel_bounds (400, 50, 100, 350) 500 400 = Ok (400, 50, 100, 350).
Proof.
  apply (validate_pixel_bounds_idempotent (400, 50, 200, 1000) (400, 50, 100, 350) 500 400).
  reflexivity.
Defined.

(** X5. Crops compose: in exact arithmetic, the geotransform of a crop at
    (c, d) of a crop at (a, b) is the geotransform of the crop at
    (a + c, b + d), and a crop at (0, 0) keeps the origin. *)
Theorem calculate_crop_geotransform_composes (gt : GeoTransform Q) (a b c d : Z) :
  let twice := calculate_crop_geotransform (calculate_crop_geotransform gt a b) c d in
  let once := calculate_crop_geotransform gt (a + c) (b + d) in
  let none := calculate_crop_geotransform gt 0 0 in
  (x_origin twice == x_origin once)%Q
  /\ (y_origin twice == y_origin once)%Q
  /\ pixel_width twice = pixel_width once
  /\ x_rotation twice = x_rotation once
  /\ y_rotation twice = y_rotation once
  /\ pixel_height twice = pixel_height once
  /\ (x_origin none == x_origin gt)%Q
  /\ (y_origin none == y_origin gt)%Q.
Proof.
  destruct gt as [x0 pw xr y0 yr ph]. cbn.
  rewrite !inject_Z_plus. change (inject_Z 0) with 0%Q.
  repeat split; ring.
Qed.

Lemma Qtrunc_comp (p q : Q) : (p == q)%Q -> Qtrunc p = Qtrunc q.
Proof.
  unfold Qeq, Qtrunc. destruct p as [n d], q as [n' d']. cbn. intros Hpq.
  transitivity (Z.quot (n * Z.pos d') (Z.pos d * Z.pos d')).
  - symmetry. apply Z.quot_mul_cancel_r; discriminate.
  - rewrite Hpq, (Z.mul_comm (Z.pos d) (Z.pos d')).
    apply Z.quot_mul_cancel_r; discriminate.
Qed.

Lemma Qtrunc_contains (q : Q) :
  (0 <= q)%Q -> (inject_Z (Qtrunc q) <= q)%Q /\ (q < inject_Z (Qtrunc q + 1))%Q.
Proof.
  unfold Qle, Qlt, Qtrunc. destruct q as [n d]. cbn. intros Hq.
  rewrite Z.mul_1_r in Hq. rewrite !Z.mul_1_r.
  rewrite Z.quot_div_nonneg by lia.
  pose proof (Z.mul_div_le n (Z.pos d)) as Hlo.
  pose proof (Z.mul_succ_div_gt n (Z.pos d)) as Hhi.
  split; nia.
Qed.

(** X6. In exact arithmetic [geo_to_pixel] inverts the affine map at every
    pixel position, integer or not, and truncates: the point with pixel
    position (u, v) converts to (trunc u, trunc v), which for u, v >= 0 is
    the pixel that contains the point. *)
Theorem geo_to_pixel_truncates_position (gt : GeoTransform Q) (u v : Q) :
  (rotated gt = false /\ ~ (pixel_width gt == 0)%Q /\ ~ (pixel_height gt == 0)%Q)
  \/ (rotated gt = true /\ (1e-10 <= Qabs (det gt))%Q) ->
  let geo_x := (x_origin gt + u * pixel_width gt + v * x_rotation gt)%Q in
  let geo_y := (y_origin gt + u * y_rotation gt + v * pixel_height gt)%Q in
  geo_to_pixel gt geo_x geo_y = Ok (Qtrunc u, Qtrunc v)
  /\ ((0 <= u)%Q -> (inject_Z (Qtrunc u) <= u)%Q /\ (u < inject_Z (Qtrunc u + 1))%Q)
  /\ ((0 <= v)%Q -> (inject_Z (Qtrunc v) <= v)%Q /\ (v < inject_Z (Qtrunc v + 1))%Q).
Proof.
  intros Hgt. cbv zeta.
  split; [|split; apply Qtrunc_contains].
  destruct Hgt as [(Hrot & Hpw & Hph) | (Hrot & Hdet)].
  - destruct (rotated_exact_false gt Hrot) as [Hxr Hyr].
    destruct gt as [x0 pw xr y0 yr ph].
    cbn [x_origin y_origin x_rotation y_rotation pixel_width pixel_height] in *.
    unfold rotated in Hrot. cbn [x_rotation y_rotation] in Hrot.
    unfold geo_to_pixel. rewrite Hrot. exact_ops.
    rewrite !py_div_exact by assumption. cbn [bind try_except].
    match goal with
    | |- Ok (Qtrunc ?p, Qtrunc ?q) = _ =>
        rewrite (Qtrunc_comp p u), (Qtrunc_comp q v); [reflexivity | |]
    end.
    + rewrite Hyr. field. exact Hph.
    + rewrite Hxr. field. exact Hpw.
  - pose proof (det_nonzero _ Hdet) as Hnz.
    destruct gt as [x0 pw xr y0 yr ph].
    unfold rotated in Hrot. unfold det in Hdet, Hnz.
    cbn [x_origin y_origin x_rotation y_rotation pixel_width pixel_height] in *.
    unfold geo_to_pixel. rewrite Hrot. exact_ops.
    apply Qle_bool_iff in Hdet. rewrite Hdet. cbn [negb].
    rewrite !py_div_exact by assumption. cbn [bind try_except].
    match goal with
    | |- Ok (Qtrunc ?p, Qtrunc ?q) = _ =>
        rewrite (Qtrunc_comp p u), (Qtrunc_comp q v); [reflexivity | |];
          field; exact Hnz
    end.
Qed.

Lemma geo_to_pixel_truncates_position_witness :
  geo_to_pixel (F := Q) test_gt
    (x_origin test_gt + 100.75 * pixel_width test_gt + 50.25 * x_rotation test_gt)%Q
    (y_origin test_gt + 100.75 * y_rotation test_gt + 50.25 * pixel_height test_gt)%Q
  = Ok (Qtrunc 100.75, Qtrunc 50.25)
  /\ ((0 <= 100.75)%Q ->
      (inject_Z (Qtrunc 100.75) <= 100.75)%Q /\ (100.75 < inject_Z (Qtrunc 100.75 + 1))%Q)
  /\ ((0 <= 50.25)%Q ->
      (inject_Z (Qtrunc 50.25) <= 50.25)%Q /\ (50.25 < inject_Z (Qtrunc 50.25 + 1))%Q).
Proof.
  apply (geo_to_pixel_truncates_position test_gt 100.75 50.25).
  left. split; [reflexivity|]. split; intros Hz; vm_compute in Hz; discriminate Hz.
Defined.

(** X7. The corners of the geographic box may be given in either order:
    [geo_bounds_to_pixel_bounds] returns the same window for
    (a, b, c, d) and for (c, d, a, b). *)
Theorem geo_bounds_corner_order {F : Type} `{PyFloat F}
    (gt : GeoTransform F) (a b c d : F) (W H' : Z) (r : Z * Z * Z * Z) :
  geo_bounds_to_pixel_bounds gt a b c d W H' = Ok r
  <-> geo_bounds_to_pixel_bounds gt c d a b W H' = Ok r.
Proof.
  unfold geo_bounds_to_pixel_bounds.
  destruct (geo_to_pixel gt a d) as [[p1x p1y] | e1];
    destruct (geo_to_pixel gt c b) as [[p2x p2y] | e2]; cbn;
    try (split; discriminate).
  rewrite (Z.min_comm p1x p2x), (Z.min_comm p1y p2y),
    (Z.max_comm p1x p2x), (Z.max_comm p1y p2y).
  reflexivity.
Qed.

(** X8. A rectangle that lies in the image with positive sizes is cropped
    as it is: [crop_by_pixel], as [save_crop] calls it with the rectangle
    of the window, accepts it, corrects nothing, and gives the crop the
    origin [pixel_to_geo (x, y)]. *)
Theorem crop_by_pixel_keeps_rectangle_in_image {F : Type} `{PyFloat F}
    (src : crop_core.SrcRaster F) (x y w h : Z) :
  in_image (crop_core.width src) (crop_core.height src) (x, y, w, h) ->
  0 < w -> 0 < h ->
  exists dst,
    crop_core.crop_by_pixel src x y w h = Ok dst
    /\ crop_core.read_window dst = (x, y, w, h)
    /\ crop_core.dst_width dst = w
    /\ crop_core.dst_height dst = h
    /\ (x_origin (crop_core.dst_gt dst), y_origin (crop_core.dst_gt dst))
       = pixel_to_geo (crop_core.src_gt src) x y.
Proof.
  intros (Hx & Hy & Hw & Hh) Hpw Hph. unfold crop_core.crop_by_pixel.
  rewrite validate_pixel_bounds_corrects by (unfold invalid_window; lia).
  rewrite !Z.min_l by lia. cbn.
  eexists. split; [reflexivity|]. cbn.
  destruct (crop_core.src_gt src). repeat split.
Qed.

Lemma crop_by_pixel_keeps_rectangle_in_image_witness :
  exists dst,
    crop_core.crop_by_pixel (F := float)
      {| crop_core.width := 500; crop_core.height := 400; crop_core.bands := 3;
         crop_core.src_gt := test_gt |} 100 50 200 150 = Ok dst
    /\ crop_core.read_window dst = (100, 50, 200, 150)
    /\ crop_core.dst_width dst = 200
    /\ crop_core.dst_height dst = 150
    /\ (x_origin (crop_core.dst_gt dst), y_origin (crop_core.dst_gt dst))
       = pixel_to_geo test_gt 100 50.
Proof.
  apply (crop_by_pixel_keeps_rectangle_in_image (F := float)
           {| crop_core.width := 500; crop_core.height := 400; crop_core.bands := 3;
              crop_core.src_gt := test_gt |} 100 50 200 150);
    [cbn; lia | lia | lia].
Defined.

(** ** The viewport *)

(** X9. In exact arithmetic and with a scale that is not zero,
    [canvas_to_image] and [image_to_canvas] are inverse to each other. *)
Theorem canvas_image_round_trip (app : ImageCropApp Q) (x y : Q) :
  ~ (scale app == 0)%Q ->
  (exists ix iy,
      canvas_to_image app (fst (image_to_canvas app x y)) (snd (image_to_canvas app x y))
      = Ok (ix, iy)
      /\ (ix == x)%Q /\ (iy == y)%Q)
  /\ (exists ix iy,
         canvas_to_image app x y = Ok (ix, iy)
         /\ (fst (image_to_canvas app ix iy) == x)%Q
         /\ (snd (image_to_canvas app ix iy) == y)%Q).
Proof.
  intros Hs. unfold canvas_to_image, image_to_canvas. cbn [fst snd].
  rewrite !py_div_exact by exact Hs. cbn [bind].
  split; do 2 eexists; (split; [reflexivity|]); exact_ops; split; field; exact Hs.
Qed.

Lemma canvas_image_round_trip_witness :
  let app := loaded (F := Q) 1000 800 None None "pixel" 800 600 no_text in
  (exists ix iy,
      canvas_to_image app (fst (image_to_canvas app 3%Q 4%Q)) (snd (image_to_canvas app 3%Q 4%Q))
      = Ok (ix, iy)
      /\ (ix == 3)%Q /\ (iy == 4)%Q)
  /\ (exists ix iy,
         canvas_to_image app 3%Q 4%Q = Ok (ix, iy)
         /\ (fst (image_to_canvas app ix iy) == 3)%Q
         /\ (snd (image_to_canvas app ix iy) == 4)%Q).
Proof.
  apply (canvas_image_round_trip
           (loaded (F := Q) 1000 800 None None "pixel" 800 600 no_text) 3%Q 4%Q).
  intros Hz. vm_compute in Hz. discriminate Hz.
Defined.

(** The scale after the two clamps, when the product is within the limits. *)
Lemma clamp_within_exact (s : Q) :
  (0.1 <= s)%Q -> (s <= 50)%Q ->
  (if fltb MAX_ZOOM (if fltb s MIN_ZOOM then MIN_ZOOM else s)
   then MAX_ZOOM else (if fltb s MIN_ZOOM then MIN_ZOOM else s)) = s.
Proof.
  intros Hlo Hhi. unfold MIN_ZOOM, MAX_ZOOM. exact_ops.
  assert (H1 : Qle_bool 0.1 s = true) by (apply Qle_bool_iff; exact Hlo).
  assert (H2 : Qle_bool s 50.0 = true) by (apply Qle_bool_iff; lra).
  rewrite H1. cbn [negb]. rewrite H2. reflexivity.
Qed.

Lemma zoom_view_within_exact (app : ImageCropApp Q) (factor : Q) :
  original_image app = true ->
  ~ (scale app == 0)%Q ->
  (0.1 <= scale app * factor)%Q -> (scale app * factor <= 50)%Q ->
  let cx := (inject_Z (winfo_width app) / 2)%Q in
  let cy := (inject_Z (winfo_height app) / 2)%Q in
  let rf := (scale app * factor / scale app)%Q in
  _zoom_view app factor
  = Returned (set_view app (scale app * factor)%Q
                (cx - (cx - offset_x app) * rf)%Q
                (cy - (cy - offset_y app) * rf)%Q).
Proof.
  intros Himg Hs Hlo Hhi. unfold _zoom_view. rewrite Himg. cbn [negb].
  assert (H2 : ~ (of_int (F := Q) 2 == 0)%Q) by (intros Hz; discriminate Hz).
  rewrite !(py_div_exact _ _ H2). cbn [bind].
  change (fmul (scale app) factor) with (scale app * factor)%Q.
  rewrite (clamp_within_exact _ Hlo Hhi).
  rewrite (py_div_exact _ _ Hs). reflexivity.
Qed.

(** X10. In exact arithmetic, zooming in and then out with the toolbar
    restores the viewport, as long as neither step is clamped: from a scale
    s with 0.1 <= s and 1.2 s <= 50, [zoom_out] after [zoom_in] gives the
    scale and the offsets back and changes nothing else. *)
Theorem zoom_in_then_out_restores (app : ImageCropApp Q) :
  original_image app = true ->
  (0.1 <= scale app)%Q -> (scale app * 1.2 <= 50)%Q ->
  exists app1 app2,
    zoom_in app = Returned app1
    /\ zoom_out app1 = Returned app2
    /\ same_view app app2.
Proof.
  intros Himg Hlo Hhi.
  assert (Hs : ~ (scale app == 0)%Q) by (intros Hz; rewrite Hz in Hlo; apply Hlo; reflexivity).
  unfold zoom_in, zoom_out, ZOOM_FACTOR. cbn [lit exactQ].
  assert (Hf : ~ (1.2 == 0)%Q) by (intros Hz; discriminate Hz).
  rewrite (py_div_exact _ _ Hf).
  rewrite zoom_view_within_exact; [|exact Himg|exact Hs|lra|exact Hhi].
  do 2 eexists. split; [reflexivity|].
  set (app1 := set_view app _ _ _).
  assert (Hs1 : (scale app1 * (1.0 / 1.2) == scale app)%Q).
  { subst app1. cbn [scale set_view]. field. }
  rewrite zoom_view_within_exact;
    [|exact Himg| |rewrite Hs1; exact Hlo|rewrite Hs1; lra].
  - split; [reflexivity|]. unfold same_view. cbn [scale offset_x offset_y set_view].
    subst app1. cbn [scale offset_x offset_y set_view winfo_width winfo_height].
    split; [field|]. split; [field; exact Hs|]. split; [field; exact Hs|].
    destruct app; reflexivity.
  - subst app1. cbn [scale set_view]. intros Hz. apply Hs.
    assert (Hq : (scale app == scale app * 1.2 / 1.2)%Q) by field.
    rewrite Hq, Hz. reflexivity.
Qed.

Lemma zoom_in_then_out_restores_witness :
  let app := loaded (F := Q) 1000 800 None None "pixel" 800 600 no_text in
  exists app1 app2,
    zoom_in app = Returned app1
    /\ zoom_out app1 = Returned app2
    /\ same_view app app2.
Proof.
  apply (zoom_in_then_out_restores
           (loaded (F := Q) 1000 800 None None "pixel" 800 600 no_text));
    [reflexivity | | ]; intros Hc; vm_compute in Hc; discriminate Hc.
Defined.

Lemma view_only_refl {F : Type} (app : ImageCropApp F) : view_only app app.
Proof. unfold view_only. destruct app; reflexivity. Qed.

Lemma view_only_set_view {F : Type} (app : ImageCropApp F) (s ox oy : F) :
  view_only app (set_view app s ox oy).
Proof. unfold view_only. destruct app; reflexivity. Qed.

Lemma view_only_run {F : Type} (app : ImageCropApp F) (c : result (ImageCropApp F)) :
  (forall app', c = Ok app' -> view_only app app') ->
  view_only app (state_after (run app c)).
Proof.
  intros Hc. destruct c as [app' | e]; cbn [run state_after].
  - apply Hc. reflexivity.
  - apply view_only_refl.
Qed.

(** Resolves the calls that may raise in a hypothesis [Hc : c = Ok _]. *)
Ltac steps_in Hc :=
  repeat match type of Hc with
  | context [bind ?c _] =>
      destruct c eqn:?; cbn [bind] in Hc; [|discriminate Hc]
  end.

(** X11. Zooming and panning never touch the selection: after
    [zoom_fit], [zoom_100], a toolbar zoom by any factor, a wheel turn or a
    pan move, whether the handler returns or an exception leaves it, the
    object differs at most in the scale and the offsets, so the crop
    rectangle, which is kept in image pixels, and the state of a drag are
    as before. *)
Theorem view_handlers_keep_selection {F : Type} `{PyFloat F}
    (app : ImageCropApp F) (factor : F) (event : WheelEvent)
    (pan : Panning F) (event_x event_y : Z) :
  view_only app (state_after (zoom_fit app))
  /\ view_only app (state_after (zoom_100 app))
  /\ view_only app (state_after (_zoom_view app factor))
  /\ view_only app (state_after (on_mouse_wheel app event))
  /\ view_only (gui_view.app pan) (gui_view.app (on_pan_drag pan event_x event_y))
  /\ crop_bounds (gui_view.app (on_pan_drag pan event_x event_y))
     = crop_bounds (gui_view.app pan).
Proof.
  repeat split.
  - unfold zoom_fit. destruct (original_image app); cbn [negb];
      [|apply view_only_refl].
    destruct (canvas_size app) as [cw ch]. apply view_only_run.
    intros app' Hc. steps_in Hc. injection Hc as <-. apply view_only_set_view.
  - unfold zoom_100. destruct (original_image app); cbn [negb];
      [|apply view_only_refl].
    destruct (canvas_size app) as [cw ch]. apply view_only_run.
    intros app' Hc. steps_in Hc. injection Hc as <-. apply view_only_set_view.
  - unfold _zoom_view. destruct (original_image app); cbn [negb];
      [|apply view_only_refl].
    apply view_only_run.
    intros app' Hc. steps_in Hc. injection Hc as <-. apply view_only_set_view.
  - unfold on_mouse_wheel. destruct (original_image app); cbn [negb];
      [|apply view_only_refl].
    apply view_only_run.
    intros app' Hc. steps_in Hc. injection Hc as <-. apply view_only_set_view.
  - unfold on_pan_drag. destruct (dragging_pan pan); cbn [negb gui_view.app];
      [apply view_only_set_view | apply view_only_refl].
  - unfold on_pan_drag. destruct (dragging_pan pan); cbn [negb gui_view.app];
      [destruct (gui_view.app pan); reflexivity | reflexivity].
Qed.

(** ** Panning *)

Lemma last_cons_default {A : Type} (l : list A) (e d : A) :
  last (e :: l) d = last l e.
Proof.
  revert e d. induction l as [|a l IH]; intros e d; [reflexivity|].
  change (last (e :: a :: l) d) with (last (a :: l) d).
  rewrite (IH a d), (IH a e). reflexivity.
Qed.

Lemma inject_Z_sub (a b : Z) : (inject_Z (a - b) == inject_Z a - inject_Z b)%Q.
Proof. unfold Z.sub. rewrite inject_Z_plus, inject_Z_opp. ring. Qed.

(** X12. In exact arithmetic a pan drag moves the image by the total
    displacement of the pointer, whatever path the pointer took: after the
    pointer moves [events] of a pan begun at the press point, the offsets
    are the offsets at the press plus (last position - press point), the
    scale is as before, and every image point is shown displaced by that
    much. *)
Theorem pan_moves_total_displacement (pan : Panning Q) (events : list (Z * Z)) :
  dragging_pan pan = true ->
  let start := (pan_start_x pan, pan_start_y pan) in
  let stop := last_position start events in
  let pan' := pan_moves pan events in
  let dx := inject_Z (fst stop - fst start) in
  let dy := inject_Z (snd stop - snd start) in
  (offset_x (gui_view.app pan') == offset_x (gui_view.app pan) + dx)%Q
  /\ (offset_y (gui_view.app pan') == offset_y (gui_view.app pan) + dy)%Q
  /\ scale (gui_view.app pan') = scale (gui_view.app pan)
  /\ (pan_start_x pan', pan_start_y pan') = stop
  /\ dragging_pan pan' = true
  /\ (forall ix iy : Q,
         (fst (image_to_canvas (gui_view.app pan') ix iy)
          == fst (image_to_canvas (gui_view.app pan) ix iy) + dx)%Q
         /\ (snd (image_to_canvas (gui_view.app pan') ix iy)
             == snd (image_to_canvas (gui_view.app pan) ix iy) + dy)%Q).
Proof.
  intros Hdrag. cbv zeta.
  assert (Hmain :
    let stop := last_position (pan_start_x pan, pan_start_y pan) events in
    let pan' := pan_moves pan events in
    (offset_x (gui_view.app pan')
     == offset_x (gui_view.app pan) + inject_Z (fst stop - pan_start_x pan))%Q
    /\ (offset_y (gui_view.app pan')
        == offset_y (gui_view.app pan) + inject_Z (snd stop - pan_start_y pan))%Q
    /\ scale (gui_view.app pan') = scale (gui_view.app pan)
    /\ (pan_start_x pan', pan_start_y pan') = stop
    /\ dragging_pan pan' = true).
  { revert pan Hdrag. unfold last_position, pan_moves.
    induction events as [|[ex ey] events IH]; intros pan Hdrag; cbv zeta.
    - cbn. rewrite !Z.sub_diag. change (inject_Z 0) with 0%Q.
      repeat split; try ring. exact Hdrag.
    - cbn [fold_left fst snd]. rewrite last_cons_default.
      assert (Hstep : on_pan_drag pan ex ey
                      = {| gui_view.app :=
                             set_view (gui_view.app pan) (scale (gui_view.app pan))
                               (offset_x (gui_view.app pan) + inject_Z (ex - pan_start_x pan))%Q
                               (offset_y (gui_view.app pan) + inject_Z (ey - pan_start_y pan))%Q;
                           dragging_pan := true;
                           pan_start_x := ex;
                           pan_start_y := ey |}).
      { unfold on_pan_drag. rewrite Hdrag. reflexivity. }
      rewrite Hstep.
      match goal with |- context [fold_left _ events ?p] => specialize (IH p eq_refl) end.
      cbv zeta in IH.
      cbn [gui_view.app pan_start_x pan_start_y scale offset_x offset_y set_view] in IH.
      destruct IH as (Hx & Hy & Hs & Hp & Hd).
      split; [rewrite Hx, !inject_Z_sub; ring|].
      split; [rewrite Hy, !inject_Z_sub; ring|].
      split; [exact Hs|]. split; [exact Hp | exact Hd]. }
  cbv zeta in Hmain. cbn [fst snd]. destruct Hmain as (Hx & Hy & Hs & Hp & Hd).
  split; [exact Hx|]. split; [exact Hy|]. split; [exact Hs|].
  split; [exact Hp|]. split; [exact Hd|].
  intros ix iy. unfold image_to_canvas. cbn [fst snd]. exact_ops.
  rewrite Hs, Hx, Hy. split; ring.
Qed.

Lemma pan_moves_total_displacement_witness :
  let pan :=
    on_pan_start
      {| gui_view.app := loaded (F := Q) 1000 800 None None "pixel" 800 600 no_text;
         dragging_pan := false; pan_start_x := 0; pan_start_y := 0 |} 10 20 in
  let events := [(15, 18); (40, 90); (7, 5)] in
  let start := (pan_start_x pan, pan_start_y pan) in
  let stop := last_position start events in
  let pan' := pan_moves pan events in
  let dx := inject_Z (fst stop - fst start) in
  let dy := inject_Z (snd stop - snd start) in
  (offset_x (gui_view.app pan') == offset_x (gui_view.app pan) + dx)%Q
  /\ (offset_y (gui_view.app pan') == offset_y (gui_view.app pan) + dy)%Q
  /\ scale (gui_view.app pan') = scale (gui_view.app pan)
  /\ (pan_start_x pan', pan_start_y pan') = stop
  /\ dragging_pan pan' = true
  /\ (forall ix iy : Q,
         (fst (image_to_canvas (gui_view.app pan') ix iy)
          == fst (image_to_canvas (gui_view.app pan) ix iy) + dx)%Q
         /\ (snd (image_to_canvas (gui_view.app pan') ix iy)
             == snd (image_to_canvas (gui_view.app pan) ix iy) + dy)%Q).
Proof.
  apply (pan_moves_total_displacement
           (on_pan_start
              {| gui_view.app := loaded (F := Q) 1000 800 None None "pixel" 800 600 no_text;
                 dragging_pan := false; pan_start_x := 0; pan_start_y := 0 |} 10 20)
           [(15, 18); (40, 90); (7, 5)]).
  reflexivity.
Defined.

(** ** Redrawing *)

(** X13. [redraw] never asks for pixels outside the image: whenever it
    draws, the region (ix1, iy1, ix2, iy2) it crops satisfies
    0 <= ix1 < ix2 <= W and 0 <= iy1 < iy2 <= H, in any arithmetic. *)
Theorem redraw_region_in_image {F : Type} `{PyFloat F}
    (app : ImageCropApp F) (d : Drawn F) :
  redraw app = Ok (Some d) ->
  let '(ix1, iy1, ix2, iy2) := roi d in
  0 <= ix1 /\ ix1 < ix2 /\ ix2 <= img_width app
  /\ 0 <= iy1 /\ iy1 < iy2 /\ iy2 <= img_height app.
Proof.
  unfold redraw. destruct (original_image app); cbn [negb]; [|discriminate].
  intros Hd.
  repeat match type of Hd with
  | context [bind ?c _] =>
      destruct c eqn:?; cbn [bind] in Hd; [|discriminate Hd];
      repeat match goal with p : (_ * _)%type |- _ => destruct p end
  | context [if ?c then _ else _] =>
      destruct c eqn:?; [discriminate Hd|]
  | context [try_except ?c _] =>
      destruct c eqn:?; cbn [try_except] in Hd; [|discriminate Hd]
  end.
  match goal with
  | Ht : (let '(_, _) := image_to_canvas _ _ _ in _) = Ok _ |- _ =>
      unfold image_to_canvas in Ht; injection Ht as <-
  end.
  injection Hd as <-. cbn [roi].
  match goal with E : (_ || _) = false |- _ => apply orb_false_iff in E; destruct E end.
  zbool. lia.
Qed.

Lemma redraw_region_in_image_witness :
  let app := loaded (F := float) 1000 800 None None "pixel" 800 600 no_text in
  let d := {| roi := (0, 0, 801, 601); target := (802, 602);
              dest := (lit 0.0, lit 0.0) |} in
  let '(ix1, iy1, ix2, iy2) := roi d in
  0 <= ix1 /\ ix1 < ix2 /\ ix2 <= img_width app
  /\ 0 <= iy1 /\ iy1 < iy2 /\ iy2 <= img_height app.
Proof.
  apply (redraw_region_in_image
           (loaded (F := float) 1000 800 None None "pixel" 800 600 no_text)
           {| roi := (0, 0, 801, 601); target := (802, 602);
              dest := (lit 0.0, lit 0.0) |}).
  vm_compute. reflexivity.
Defined.

Lemma Qtrunc_le (p q : Q) : (p <= q)%Q -> Qtrunc p <= Qtrunc q.
Proof.
  unfold Qle, Qtrunc. destruct p as [n d], q as [n' d']. cbn. intros Hpq.
  rewrite <- (Z.quot_mul_cancel_r n (Z.pos d) (Z.pos d')) by discriminate.
  rewrite <- (Z.quot_mul_cancel_r n' (Z.pos d') (Z.pos d)) by discriminate.
  rewrite (Z.mul_comm (Z.pos d') (Z.pos d)).
  apply Z.quot_le_mono; lia.
Qed.

Lemma canvas_to_image_exact (app : ImageCropApp Q) (cx cy : Q) :
  ~ (scale app == 0)%Q ->
  canvas_to_image app cx cy
  = Ok ((cx - offset_x app) / scale app, (cy - offset_y app) / scale app)%Q.
Proof.
  intros Hs. unfold canvas_to_image. rewrite !py_div_exact by exact Hs. reflexivity.
Qed.

Lemma Qdiv_le_pos (a b s : Q) : (0 < s)%Q -> (a <= b)%Q -> (a / s <= b / s)%Q.
Proof.
  intros Hs Hab. unfold Qdiv. apply Qmult_le_compat_r; [exact Hab|].
  apply Qlt_le_weak, Qinv_lt_0_compat, Hs.
Qed.

(** What [redraw] computes in exact arithmetic, where nothing in it
    raises. *)
Lemma redraw_exact (app : ImageCropApp Q) :
  original_image app = true -> ~ (scale app == 0)%Q ->
  let ix1 := Z.max 0 (Qtrunc ((0 - offset_x app) / scale app)) in
  let iy1 := Z.max 0 (Qtrunc ((0 - offset_y app) / scale app)) in
  let ix2 := Z.min (img_width app)
               (Qtrunc ((inject_Z (winfo_width app) - offset_x app) / scale app) + 1) in
  let iy2 := Z.min (img_height app)
               (Qtrunc ((inject_Z (winfo_height app) - offset_y app) / scale app) + 1) in
  redraw app
  = if (ix2 <=? ix1) || (iy2 <=? iy1) then Ok None
    else Ok (Some {| roi := (ix1, iy1, ix2, iy2);
                     target := (Qtrunc (inject_Z (ix2 - ix1) * scale app) + 1,
                                Qtrunc (inject_Z (iy2 - iy1) * scale app) + 1);
                     dest := image_to_canvas app (inject_Z ix1) (inject_Z iy1) |}).
Proof.
  intros Himg Hs. cbv zeta. unfold redraw. rewrite Himg. cbn [negb].
  rewrite !canvas_to_image_exact by exact Hs. cbn [bind ftrunc exactQ of_int].
  change (inject_Z 0) with 0%Q.
  destruct (_ || _); reflexivity.
Qed.

(** X14. In exact arithmetic and with a positive scale, the region that
    [redraw] crops covers everything visible: for every canvas point
    within the canvas whose image pixel, taken as the pointer readout takes
    it (the truncated [canvas_to_image]), lies in the image, [redraw] draws
    and the pixel is inside the region; and the size it resamples the
    region to exceeds the displayed size of the region by at most one
    pixel, so that no gap is left. *)
Theorem redraw_covers_visible (app : ImageCropApp Q) (cx cy : Z) :
  original_image app = true -> (0 < scale app)%Q ->
  0 <= cx <= winfo_width app -> 0 <= cy <= winfo_height app ->
  let px := Qtrunc ((inject_Z cx - offset_x app) / scale app) in
  let py := Qtrunc ((inject_Z cy - offset_y app) / scale app) in
  0 <= px < img_width app -> 0 <= py < img_height app ->
  canvas_to_image app (inject_Z cx) (inject_Z cy)
  = Ok ((inject_Z cx - offset_x app) / scale app,
        (inject_Z cy - offset_y app) / scale app)%Q
  /\ exists ix1 iy1 ix2 iy2 tw th dst,
       redraw app = Ok (Some {| roi := (ix1, iy1, ix2, iy2);
                                target := (tw, th); dest := dst |})
       /\ ix1 <= px < ix2 /\ iy1 <= py < iy2
       /\ (inject_Z (ix2 - ix1) * scale app < inject_Z tw)%Q
       /\ (inject_Z tw <= inject_Z (ix2 - ix1) * scale app + 1)%Q
       /\ (inject_Z (iy2 - iy1) * scale app < inject_Z th)%Q
       /\ (inject_Z th <= inject_Z (iy2 - iy1) * scale app + 1)%Q.
Proof.
  intros Himg Hs Hcx Hcy. cbv zeta. intros Hpx Hpy.
  assert (Hs0 : ~ (scale app == 0)%Q) by (intros Hz; rewrite Hz in Hs; discriminate Hs).
  split; [apply canvas_to_image_exact; exact Hs0|].
  rewrite (redraw_exact app Himg Hs0).
  assert (Hx1 : Qtrunc ((0 - offset_x app) / scale app)
                <= Qtrunc ((inject_Z cx - offset_x app) / scale app)).
  { apply Qtrunc_le, Qdiv_le_pos; [exact Hs|].
    assert (0 <= inject_Z cx)%Q by (change 0%Q with (inject_Z 0); rewrite <- Zle_Qle; lia).
    lra. }
  assert (Hx2 : Qtrunc ((inject_Z cx - offset_x app) / scale app)
                <= Qtrunc ((inject_Z (winfo_width app) - offset_x app) / scale app)).
  { apply Qtrunc_le, Qdiv_le_pos; [exact Hs|].
    assert (inject_Z cx <= inject_Z (winfo_width app))%Q by (rewrite <- Zle_Qle; lia).
    lra. }
  assert (Hy1 : Qtrunc ((0 - offset_y app) / scale app)
                <= Qtrunc ((inject_Z cy - offset_y app) / scale app)).
  { apply Qtrunc_le, Qdiv_le_pos; [exact Hs|].
    assert (0 <= inject_Z cy)%Q by (change 0%Q with (inject_Z 0); rewrite <- Zle_Qle; lia).
    lra. }
  assert (Hy2 : Qtrunc ((inject_Z cy - offset_y app) / scale app)
                <= Qtrunc ((inject_Z (winfo_height app) - offset_y app) / scale app)).
  { apply Qtrunc_le, Qdiv_le_pos; [exact Hs|].
    assert (inject_Z cy <= inject_Z (winfo_height app))%Q by (rewrite <- Zle_Qle; lia).
    lra. }
  set (ix1 := Z.max 0 _). set (iy1 := Z.max 0 _).
  set (ix2 := Z.min (img_width app) _). set (iy2 := Z.min (img_height app) _).
  assert (Hix : ix1 <= Qtrunc ((inject_Z cx - offset_x app) / scale app) < ix2)
    by (subst ix1 ix2; lia).
  assert (Hiy : iy1 <= Qtrunc ((inject_Z cy - offset_y app) / scale app) < iy2)
    by (subst iy1 iy2; lia).
  destruct ((ix2 <=? ix1) || (iy2 <=? iy1)) eqn:Hempty.
  { apply orb_true_iff in Hempty. destruct Hempty as [E | E]; zbool; lia. }
  do 7 eexists. split; [reflexivity|].
  split; [exact Hix|]. split; [exact Hiy|].
  assert (Hwx : (0 <= inject_Z (ix2 - ix1) * scale app)%Q).
  { apply Qmult_le_0_compat; [|apply Qlt_le_weak, Hs].
    change 0%Q with (inject_Z 0). rewrite <- Zle_Qle. lia. }
  assert (Hwy : (0 <= inject_Z (iy2 - iy1) * scale app)%Q).
  { apply Qmult_le_0_compat; [|apply Qlt_le_weak, Hs].
    change 0%Q with (inject_Z 0). rewrite <- Zle_Qle. lia. }
  destruct (Qtrunc_contains _ Hwx) as [Hxlo Hxhi].
  destruct (Qtrunc_contains _ Hwy) as [Hylo Hyhi].
  split; [exact Hxhi|]. split.
  { rewrite inject_Z_plus. change (inject_Z 1) with 1%Q. lra. }
  split; [exact Hyhi|].
  rewrite inject_Z_plus. change (inject_Z 1) with 1%Q. lra.
Qed.

Lemma redraw_covers_visible_witness :
  let app := loaded (F := Q) 1000 800 None None "pixel" 800 600 no_text in
  canvas_to_image app (inject_Z 400) (inject_Z 300)
  = Ok ((inject_Z 400 - offset_x app) / scale app,
        (inject_Z 300 - offset_y app) / scale app)%Q
  /\ exists ix1 iy1 ix2 iy2 tw th dst,
       redraw app = Ok (Some {| roi := (ix1, iy1, ix2, iy2);
                                target := (tw, th); dest := dst |})
       /\ ix1 <= Qtrunc ((inject_Z 400 - offset_x app) / scale app) < ix2
       /\ iy1 <= Qtrunc ((inject_Z 300 - offset_y app) / scale app) < iy2
       /\ (inject_Z (ix2 - ix1) * scale app < inject_Z tw)%Q
       /\ (inject_Z tw <= inject_Z (ix2 - ix1) * scale app + 1)%Q
       /\ (inject_Z (iy2 - iy1) * scale app < inject_Z th)%Q
       /\ (inject_Z th <= inject_Z (iy2 - iy1) * scale app + 1)%Q.
Proof.
  apply (redraw_covers_visible
           (loaded (F := Q) 1000 800 None None "pixel" 800 600 no_text) 400 300);
    first [reflexivity | cbn; lia | vm_compute; split; discriminate].
Defined.

(** ** Drags of the crop rectangle *)

Lemma get_handle_at_corner {F : Type} `{PyFloat F}
    (app : ImageCropApp F) (cx cy : Z) (h : string) :
  _get_handle_at app cx cy = Ok (Some h) ->
  In h corner_handles /\ exists b, crop_bounds app = Some b.
Proof.
  unfold _get_handle_at, corner_handles.
  destruct (crop_bounds app) as [[[[bx by_] bw] bh] |]; [|discriminate].
  destruct (image_to_canvas_ints app bx by_) as [[hx1 hy1] | e]; [|discriminate].
  destruct (image_to_canvas_ints app (bx + bw) (by_ + bh)) as [[hx2 hy2] | e];
    [|discriminate].
  cbn [bind find].
  repeat match goal with
  | |- context [if ?c then _ else _] => destruct c
  end; cbn; intros Hh; inversion Hh; subst; split; eauto; cbn; tauto.
Qed.

(** X15. A press starts a resize only on a corner handle of an existing
    rectangle: when [on_crop_start] leaves the object in resize mode, the
    active handle is one of 'nw', 'ne', 'sw', 'se', which names exactly one
    vertical and one horizontal edge, and the snapshot of the drag is the
    rectangle at the press, which the press leaves in place. *)
Theorem resize_starts_on_a_corner {F : Type} `{PyFloat F}
    (app app1 : ImageCropApp F) (cx cy : Z) :
  original_image app = true ->
  on_crop_start app cx cy = Returned app1 ->
  mode_is app1 "resize" = true ->
  exists h b,
    active_handle app1 = Some h
    /\ In h corner_handles
    /\ char_in "e" h = negb (char_in "w" h)
    /\ char_in "s" h = negb (char_in "n" h)
    /\ crop_bounds app = Some b
    /\ drag_start_bounds app1 = Some b
    /\ crop_bounds app1 = Some b
    /\ (crop_start_x app1, crop_start_y app1) = (cx, cy).
Proof.
  intros Himg Hstart Hmode. unfold on_crop_start in Hstart. rewrite Himg in Hstart.
  cbn [negb] in Hstart.
  destruct (_get_handle_at app cx cy) as [[h |] | e] eqn:Hh; [| |discriminate Hstart].
  - injection Hstart as <-.
    destruct (get_handle_at_corner app cx cy h Hh) as [Hin [b Hb]].
    exists h, b. cbn [active_handle drag_start_bounds crop_bounds crop_start_x
                       crop_start_y set_drag].
    rewrite Hb. repeat split; try assumption;
      unfold corner_handles in Hin; cbn in Hin;
      destruct Hin as [<- | [<- | [<- | [<- | []]]]]; reflexivity.
  - destruct (_is_inside_crop app cx cy) as [[|] | e]; [| |discriminate Hstart];
      injection Hstart as <-; cbn in Hmode; discriminate Hmode.
Qed.

Lemma resize_starts_on_a_corner_witness :
  let app :=
    selected (loaded (F := float) 1000 800 None None "pixel" 800 600 no_text)
      (50, 50, 100, 40) in
  exists h b,
    active_handle (dragging app "resize" (Some "se"%string) 150 90) = Some h
    /\ In h corner_handles
    /\ char_in "e" h = negb (char_in "w" h)
    /\ char_in "s" h = negb (char_in "n" h)
    /\ crop_bounds app = Some b
    /\ drag_start_bounds (dragging app "resize" (Some "se"%string) 150 90) = Some b
    /\ crop_bounds (dragging app "resize" (Some "se"%string) 150 90) = Some b
    /\ (crop_start_x (dragging app "resize" (Some "se"%string) 150 90),
        crop_start_y (dragging app "resize" (Some "se"%string) 150 90)) = (150, 90).
Proof.
  apply (resize_starts_on_a_corner
           (selected (loaded (F := float) 1000 800 None None "pixel" 800 600 no_text)
              (50, 50, 100, 40))
           (dragging
              (selected (loaded (F := float) 1000 800 None None "pixel" 800 600 no_text)
                 (50, 50, 100, 40)) "resize" (Some "se"%string) 150 90)
           150 90);
    vm_compute; reflexivity.
Defined.

(** [steps_in], taking the pairs apart too. *)
Ltac steps_pairs_in Hc :=
  repeat match type of Hc with
  | context [bind ?c _] =>
      destruct c eqn:?; cbn [bind] in Hc; [|discriminate Hc];
      repeat match goal with p : (_ * _)%type |- _ => destruct p end
  end.

(** A pointer move of a drag leaves the object or assigns the rectangle. *)
Lemma on_crop_drag_assigns_rectangle {F : Type} `{PyFloat F}
    (app : ImageCropApp F) (event_x event_y : Z) :
  state_after (on_crop_drag app event_x event_y) = app
  \/ exists b, state_after (on_crop_drag app event_x event_y) = set_crop_bounds app b.
Proof.
  unfold on_crop_drag.
  destruct (if mode_is app "move" then drag_start_bounds app else None)
    as [[[[ox oy] ow] oh] |].
  - unfold run.
    match goal with |- context [match ?c with Ok _ => _ | Raise _ => _ end] =>
      destruct c as [app' | e] eqn:Hc end; [|left; reflexivity].
    right. steps_in Hc. injection Hc as <-. eexists. reflexivity.
  - destruct (if mode_is app "resize" then drag_start_bounds app else None)
      as [[[[ox oy] ow] oh] |].
    + unfold run.
      match goal with |- context [match ?c with Ok _ => _ | Raise _ => _ end] =>
        destruct c as [app' | e] eqn:Hc end; [|left; reflexivity].
      right. steps_pairs_in Hc. injection Hc as <-. eexists. reflexivity.
    + left. destruct (dragging_crop app); cbn [negb]; [|reflexivity].
      unfold run.
      match goal with |- context [match ?c with Ok _ => _ | Raise _ => _ end] =>
        destruct c as [app' | e] eqn:Hc end; [|reflexivity].
      repeat match type of Hc with
      | context [bind ?c _] =>
          destruct c eqn:?; cbn [bind] in Hc; [|discriminate Hc];
          repeat match goal with p : (_ * _)%type |- _ => destruct p end
      end.
      injection Hc as <-. reflexivity.
Qed.

(** A pointer move of a move or resize drag does not read the rectangle
    it assigns. *)
Lemma on_crop_drag_ignores_rectangle {F : Type} `{PyFloat F}
    (app s : ImageCropApp F) (b : option bounds) (event_x event_y : Z) :
  mode_is app "move" || mode_is app "resize" = true ->
  drag_start_bounds app <> None ->
  on_crop_drag app event_x event_y = Returned s ->
  on_crop_drag (set_crop_bounds app b) event_x event_y = Returned s.
Proof.
  destruct app. unfold on_crop_drag, mode_is, run.
  cbn [crop_drag_mode drag_start_bounds crop_start_x crop_start_y scale img_width
       img_height active_handle dragging_crop set_crop_bounds].
  intros Hmode Hstart Hs.
  destruct crop_drag_mode0 as [m |]; [|discriminate Hmode].
  destruct drag_start_bounds0 as [[[[ox oy] ow] oh] |]; [|contradiction].
  destruct (String.eqb m "move"); [|destruct (String.eqb m "resize"); [|discriminate Hmode]];
    repeat match goal with
    | p : (_ * _)%type |- _ => destruct p
    | |- context [bind ?c _] => destruct c eqn:?; cbn [bind] in *
    | |- context [match ?c with Some _ => _ | None => _ end] => destruct c eqn:?
    | |- context [if ?c then _ else _] => destruct c eqn:?
    end;
    first [exact Hs | discriminate Hs].
Qed.

Lemma on_crop_drag_idle {F : Type} `{PyFloat F}
    (app : ImageCropApp F) (event_x event_y : Z) :
  mode_is app "move" || mode_is app "resize" = false \/ drag_start_bounds app = None ->
  state_after (on_crop_drag app event_x event_y) = app.
Proof.
  intros Hidle. unfold on_crop_drag.
  assert (Hm : (if mode_is app "move" then drag_start_bounds app else None) = None).
  { destruct Hidle as [Hmode | ->]; [|destruct (mode_is app "move"); reflexivity].
    apply orb_false_iff in Hmode. destruct Hmode as [-> _]. reflexivity. }
  assert (Hr : (if mode_is app "resize" then drag_start_bounds app else None) = None).
  { destruct Hidle as [Hmode | ->]; [|destruct (mode_is app "resize"); reflexivity].
    apply orb_false_iff in Hmode. destruct Hmode as [_ ->]. reflexivity. }
  rewrite Hm, Hr.
  destruct (dragging_crop app); cbn [negb]; [|reflexivity].
  unfold run.
  match goal with |- context [match ?c with Ok _ => _ | Raise _ => _ end] =>
    destruct c as [app' | e] eqn:Hc end; [|reflexivity].
  repeat match type of Hc with
  | context [bind ?c _] =>
      destruct c eqn:?; cbn [bind] in Hc; [|discriminate Hc];
      repeat match goal with p : (_ * _)%type |- _ => destruct p end
  end.
  injection Hc as <-. reflexivity.
Qed.

(** X16. A drag of the rectangle depends on the press and on the current
    pointer position only, not on the path between them: the pointer move
    to a point gives the same object after any earlier pointer move of the
    drag as it gives directly. *)
Theorem on_crop_drag_path_independent {F : Type} `{PyFloat F}
    (app s : ImageCropApp F) (x1 y1 x2 y2 : Z) :
  on_crop_drag app x2 y2 = Returned s ->
  on_crop_drag (state_after (on_crop_drag app x1 y1)) x2 y2 = Returned s.
Proof.
  intros Hs.
  destruct (mode_is app "move" || mode_is app "resize") eqn:Hmode;
    [destruct (drag_start_bounds app) as [sb |] eqn:Hstart|].
  - destruct (on_crop_drag_assigns_rectangle app x1 y1) as [-> | [b ->]];
      [exact Hs|].
    apply on_crop_drag_ignores_rectangle; [exact Hmode | congruence | exact Hs].
  - rewrite on_crop_drag_idle by (right; exact Hstart). exact Hs.
  - rewrite on_crop_drag_idle by (left; exact Hmode). exact Hs.
Qed.

Lemma on_crop_drag_path_independent_witness :
  let app :=
    dragging
      (selected (loaded (F := float) 1000 800 None None "pixel" 800 600 no_text)
         (50, 50, 100, 40))
      "move" None 100 70 in
  on_crop_drag (state_after (on_crop_drag app 5000 0)) 130 90
  = Returned (set_crop_bounds app (Some (80, 70, 100, 40))).
Proof.
  apply (on_crop_drag_path_independent
           (dragging
              (selected (loaded (F := float) 1000 800 None None "pixel" 800 600 no_text)
                 (50, 50, 100, 40))
              "move" None 100 70)).
  vm_compute. reflexivity.
Defined.

Lemma then_update_keeps_state {F : Type} `{PyFloat F} (app : ImageCropApp F) :
  state_after (then_update app) = app.
Proof. unfold then_update. destruct (update_crop_inputs app); reflexivity. Qed.

Lemma on_crop_end_idle {F : Type} `{PyFloat F}
    (app : ImageCropApp F) (event_x event_y : Z) :
  let app' := state_after (on_crop_end app event_x event_y) in
  mode_is app' "move" || mode_is app' "resize" = false /\ dragging_crop app' = false
  \/ crop_drag_mode app' = None.
Proof.
  cbv zeta. unfold on_crop_end.
  destruct (mode_is app "move" || mode_is app "resize") eqn:Hmode.
  - right. rewrite then_update_keeps_state. reflexivity.
  - left. cbv zeta.
    match goal with |- context [match ?c with Ok o => o | Raise e => _ end] =>
      destruct c as [o | e] eqn:Hc end.
    + repeat match type of Hc with
      | context [bind ?c _] =>
          destruct c eqn:?; cbn [bind] in Hc; [|discriminate Hc];
          repeat match goal with p : (_ * _)%type |- _ => destruct p end
      | context [if ?c then _ else _] => destruct c eqn:?
      end; injection Hc as <-; rewrite ?then_update_keeps_state;
        cbn [state_after]; split; solve [exact Hmode | reflexivity].
    + cbn [state_after]. split; [exact Hmode | reflexivity].
Qed.

(** X17. A release ends the drag: after [on_crop_end], whether it returns
    or an exception leaves it, a pointer move without a new press changes
    nothing of the object. *)
Theorem release_ends_the_drag {F : Type} `{PyFloat F}
    (app : ImageCropApp F) (event_x event_y x y : Z) :
  let app' := state_after (on_crop_end app event_x event_y) in
  state_after (on_crop_drag app' x y) = app'.
Proof.
  cbv zeta.
  destruct (on_crop_end_idle app event_x event_y) as [[Hmode _] | Hnone];
    cbv zeta in *.
  - apply on_crop_drag_idle. left. exact Hmode.
  - apply on_crop_drag_idle. left. unfold mode_is. rewrite Hnone. reflexivity.
Qed.

(** X18. A keyboard nudge that keeps the rectangle off the borders is
    undone by the opposite nudge, and a nudge that would cross the right or
    the bottom border stops the rectangle against it. *)
Theorem move_crop_nudges {F : Type} `{PyFloat F}
    (app : ImageCropApp F) (x y w h dx dy : Z) :
  crop_bounds app = Some (x, y, w, h) ->
  in_image (img_width app) (img_height app) (x, y, w, h) ->
  (0 <= x + dx -> x + dx + w <= img_width app ->
   0 <= y + dy -> y + dy + h <= img_height app ->
   crop_bounds (state_after (move_crop app dx dy)) = Some (x + dx, y + dy, w, h)
   /\ crop_bounds
        (state_after (move_crop (state_after (move_crop app dx dy)) (- dx) (- dy)))
      = Some (x, y, w, h))
  /\ (img_width app <= x + dx + w -> img_height app <= y + dy + h ->
      crop_bounds (state_after (move_crop app dx dy))
      = Some (img_width app - w, img_height app - h, w, h)).
Proof.
  intros Hcrop (Hx & Hy & Hw & Hh). split.
  - intros Hx0 Hx1 Hy0 Hy1.
    assert (H1 : state_after (move_crop app dx dy)
                 = set_crop_bounds app (Some (x + dx, y + dy, w, h))).
    { unfold move_crop. rewrite Hcrop, then_update_keeps_state.
      rewrite !Z.min_l, !Z.max_r by lia. reflexivity. }
    rewrite H1. split; [reflexivity|].
    unfold move_crop. cbn [crop_bounds set_crop_bounds img_width img_height].
    rewrite then_update_keeps_state. cbn [crop_bounds set_crop_bounds].
    rewrite !Z.min_l, !Z.max_r by lia.
    replace (x + dx + - dx) with x by lia. replace (y + dy + - dy) with y by lia.
    reflexivity.
  - intros Hx1 Hy1. unfold move_crop. rewrite Hcrop, then_update_keeps_state.
    cbn [crop_bounds set_crop_bounds].
    rewrite !Z.min_r, !Z.max_r by lia. reflexivity.
Qed.

Lemma move_crop_nudges_witness :
  let app :=
    selected (loaded (F := float) 1000 800 None None "pixel" 800 600 no_text)
      (50, 50, 100, 40) in
  (0 <= 50 + 10 -> 50 + 10 + 100 <= img_width app ->
   0 <= 50 + 0 -> 50 + 0 + 40 <= img_height app ->
   crop_bounds (state_after (move_crop app 10 0)) = Some (50 + 10, 50 + 0, 100, 40)
   /\ crop_bounds
        (state_after (move_crop (state_after (move_crop app 10 0)) (- 10) (- 0)))
      = Some (50, 50, 100, 40))
  /\ (img_width app <= 50 + 10 + 100 -> img_height app <= 50 + 0 + 40 ->
      crop_bounds (state_after (move_crop app 10 0))
      = Some (img_width app - 100, img_height app - 40, 100, 40)).
Proof.
  apply (move_crop_nudges
           (selected (loaded (F := float) 1000 800 None None "pixel" 800 600 no_text)
              (50, 50, 100, 40)) 50 50 100 40 10 0);
    [reflexivity | cbn; lia].
Defined.

Lemma py_min_exact_comm (a b : Q) : (py_min a b == py_min b a)%Q.
Proof.
  unfold py_min. exact_ops.
  destruct (Qle_bool a b) eqn:Eab; destruct (Qle_bool b a) eqn:Eba; cbn [negb];
    try reflexivity.
  - apply Qle_bool_iff in Eab. apply Qle_bool_iff in Eba. lra.
  - exfalso.
    destruct (Qlt_le_dec a b) as [Hlt | Hle].
    + apply Qlt_le_weak in Hlt. apply Qle_bool_iff in Hlt. congruence.
    + apply Qle_bool_iff in Hle. congruence.
Qed.

Lemma Qabs_sub_comm (a b : Q) : (Qabs (a - b) == Qabs (b - a))%Q.
Proof.
  assert (Hab : (a - b == - (b - a))%Q) by ring.
  rewrite Hab. apply Qabs_opp.
Qed.

(** The rectangle after the release of a drawing drag, in exact
    arithmetic. *)
Lemma on_crop_end_drawing_exact (app : ImageCropApp Q) (event_x event_y : Z) :
  crop_drag_mode app = None -> ~ (scale app == 0)%Q ->
  let ix1 := ((inject_Z (crop_start_x app) - offset_x app) / scale app)%Q in
  let iy1 := ((inject_Z (crop_start_y app) - offset_y app) / scale app)%Q in
  let ix2 := ((inject_Z event_x - offset_x app) / scale app)%Q in
  let iy2 := ((inject_Z event_y - offset_y app) / scale app)%Q in
  crop_bounds (state_after (on_crop_end app event_x event_y))
  = if negb (Qle_bool 1 (Qabs (ix2 - ix1))) || negb (Qle_bool 1 (Qabs (iy2 - iy1)))
    then None
    else Some (Qtrunc (py_min ix1 ix2), Qtrunc (py_min iy1 iy2),
               Qtrunc (Qabs (ix2 - ix1)), Qtrunc (Qabs (iy2 - iy1))).
Proof.
  intros Hmode Hs. cbv zeta. unfold on_crop_end, mode_is. rewrite Hmode.
  cbn [orb]. cbv zeta.
  change (canvas_to_image (set_dragging_crop app false)) with (canvas_to_image app).
  cbn [crop_start_x crop_start_y set_dragging_crop].
  rewrite !canvas_to_image_exact by exact Hs. cbn [bind]. exact_ops.
  change (inject_Z 1) with 1%Q.
  destruct (negb (Qle_bool 1 _) || negb (Qle_bool 1 _)); [reflexivity|].
  cbn [bind]. rewrite then_update_keeps_state. reflexivity.
Qed.

(** X19. In exact arithmetic the rectangle drawn does not depend on the
    direction of the drag: pressing at one point and releasing at another
    leaves the same rectangle (or none) as pressing at the second and
    releasing at the first. *)
Theorem drawn_rectangle_direction_free (app : ImageCropApp Q) (x1 y1 x2 y2 : Z) :
  crop_bounds (state_after (on_crop_end (drawing_from app x1 y1) x2 y2))
  = crop_bounds (state_after (on_crop_end (drawing_from app x2 y2) x1 y1)).
Proof.
  destruct (Qeq_dec (scale app) 0) as [Hz | Hs].
  - unfold on_crop_end, mode_is, drawing_from, canvas_to_image, py_div.
    cbn [crop_drag_mode set_drag set_dragging_crop scale orb]. exact_ops.
    rewrite (Qeq_eq_bool _ _ Hz). reflexivity.
  - rewrite !on_crop_end_drawing_exact by (first [reflexivity | exact Hs]).
    unfold drawing_from. cbn [crop_start_x crop_start_y offset_x offset_y scale set_drag].
    set (ix1 := ((inject_Z x1 - offset_x app) / scale app)%Q).
    set (iy1 := ((inject_Z y1 - offset_y app) / scale app)%Q).
    set (ix2 := ((inject_Z x2 - offset_x app) / scale app)%Q).
    set (iy2 := ((inject_Z y2 - offset_y app) / scale app)%Q).
    rewrite (Qleb_comp 1%Q 1%Q (Qeq_refl 1%Q) _ _ (Qabs_sub_comm ix2 ix1)).
    rewrite (Qleb_comp 1%Q 1%Q (Qeq_refl 1%Q) _ _ (Qabs_sub_comm iy2 iy1)).
    destruct (negb (Qle_bool 1 _) || negb (Qle_bool 1 _)); [reflexivity|].
    rewrite (Qtrunc_comp _ _ (py_min_exact_comm ix1 ix2)).
    rewrite (Qtrunc_comp _ _ (py_min_exact_comm iy1 iy2)).
    rewrite (Qtrunc_comp _ _ (Qabs_sub_comm ix2 ix1)).
    rewrite (Qtrunc_comp _ _ (Qabs_sub_comm iy2 iy1)).
    reflexivity.
Qed.

Lemma Qtrunc_inject_Z (n : Z) : Qtrunc (inject_Z n) = n.
Proof. unfold Qtrunc. cbn. apply Z.quot_1_r. Qed.

(** X20. In exact arithmetic, bringing the pointer back to the point of
    the press restores the rectangle of the press: in a move drag whose
    snapshot lies in the image, and in a resize drag whose snapshot has the
    minimum size, the pointer move to the press point assigns the
    snapshot. *)
Theorem drag_back_restores_snapshot (app : ImageCropApp Q) (x y w h : Z) (handle : string) :
  ~ (scale app == 0)%Q ->
  drag_start_bounds app = Some (x, y, w, h) ->
  (mode_is app "move" = true /\ in_image (img_width app) (img_height app) (x, y, w, h))
  \/ (mode_is app "move" = false /\ mode_is app "resize" = true
      /\ active_handle app = Some handle /\ min_size (x, y, w, h)) ->
  on_crop_drag app (crop_start_x app) (crop_start_y app)
  = Returned (set_crop_bounds app (Some (x, y, w, h))).
Proof.
  intros Hs Hstart Hmode. unfold on_crop_drag. rewrite Hstart, !Z.sub_diag.
  assert (Hzero : py_div (of_int (F := Q) 0) (scale app) = Ok (0 / scale app)%Q)
    by (apply py_div_exact; exact Hs).
  assert (Hq : forall n : Z, (inject_Z n + 0 / scale app == inject_Z n)%Q)
    by (intros n; field; exact Hs).
  assert (Hq' : forall n : Z, (inject_Z n - 0 / scale app == inject_Z n)%Q)
    by (intros n; field; exact Hs).
  assert (Ht : forall n : Z, Qtrunc (inject_Z n + 0 / scale app) = n)
    by (intros n; rewrite (Qtrunc_comp _ _ (Hq n)); apply Qtrunc_inject_Z).
  assert (Ht' : forall n : Z, Qtrunc (inject_Z n - 0 / scale app) = n)
    by (intros n; rewrite (Qtrunc_comp _ _ (Hq' n)); apply Qtrunc_inject_Z).
  assert (Hmax : forall n : Z, 10 <= n ->
            to_int (max_int_float 10 (inject_Z n + 0 / scale app)%Q) = Ok n
            /\ to_int (max_int_float 10 (inject_Z n - 0 / scale app)%Q) = Ok n).
  { intros n Hn. unfold max_int_float. exact_ops.
    rewrite (Qleb_comp _ _ (Hq n) _ _ (Qeq_refl (inject_Z 10))).
    rewrite (Qleb_comp _ _ (Hq' n) _ _ (Qeq_refl (inject_Z 10))).
    destruct (Qle_bool (inject_Z n) (inject_Z 10)) eqn:E; cbn [negb to_int ftrunc exactQ].
    - apply Qle_bool_iff in E. rewrite <- Zle_Qle in E.
      assert (n = 10) by lia. subst n. split; reflexivity.
    - rewrite Ht, Ht'. split; reflexivity. }
  destruct Hmode as [(Hmove & Hx & Hy & Hw & Hh) | (Hmove & Hresize & Hhandle & Hw & Hh)].
  - rewrite Hmove. unfold run, to_float. rewrite Hzero.
    cbn [bind ftrunc exactQ of_int converts].
    rewrite !Ht. rewrite !Z.min_l, !Z.max_r by lia. reflexivity.
  - rewrite Hmove, Hresize. unfold run, to_float. rewrite Hzero, Hhandle.
    cbn [bind of_int exactQ converts].
    destruct (Hmax w Hw) as [Hw1 Hw2]. destruct (Hmax h Hh) as [Hh1 Hh2].
    destruct (char_in "e" handle), (char_in "w" handle),
      (char_in "s" handle), (char_in "n" handle);
      cbn [fadd fsub to_int ftrunc exactQ bind];
      rewrite ?Hw1, ?Hw2, ?Hh1, ?Hh2, ?Ht; cbn [bind];
      rewrite ?Hw1, ?Hw2, ?Hh1, ?Hh2, ?Ht; cbn [bind];
      rewrite ?Hw1, ?Hw2, ?Hh1, ?Hh2, ?Ht; cbn [bind]; reflexivity.
Qed.

Lemma drag_back_restores_snapshot_witness :
  let app :=
    dragging
      (selected (loaded (F := Q) 1000 800 None None "pixel" 800 600 no_text)
         (50, 50, 100, 40))
      "resize" (Some "nw"%string) 50 50 in
  on_crop_drag app (crop_start_x app) (crop_start_y app)
  = Returned (set_crop_bounds app (Some (50, 50, 100, 40))).
Proof.
  apply (drag_back_restores_snapshot
           (dragging
              (selected (loaded (F := Q) 1000 800 None None "pixel" 800 600 no_text)
                 (50, 50, 100, 40))
              "resize" (Some "nw"%string) 50 50)
           50 50 100 40 "nw").
  - intros Hz. vm_compute in Hz. discriminate Hz.
  - reflexivity.
  - right. repeat split; cbn; lia.
Defined.

(** ** From a pixel window to geographic bounds and back *)

Lemma geo_to_pixel_rotation_free_exact (gt : GeoTransform Q) (a b c d : Z) :
  rotated gt = false ->
  ~ (pixel_width gt == 0)%Q -> ~ (pixel_height gt == 0)%Q ->
  geo_to_pixel gt (fst (pixel_to_geo gt a b)) (snd (pixel_to_geo gt c d)) = Ok (a, d).
Proof.
  intros Hrot Hpw Hph.
  destruct (rotated_exact_false gt Hrot) as [Hxr Hyr].
  destruct gt as [x0 pw xr y0 yr ph].
  cbn [x_rotation y_rotation pixel_width pixel_height] in *.
  unfold rotated in Hrot. cbn [x_rotation y_rotation] in Hrot.
  unfold geo_to_pixel, pixel_to_geo. cbn [fst snd].
  rewrite Hrot. exact_ops.
  rewrite !py_div_exact by assumption. cbn [bind try_except].
  rewrite (Qtrunc_inject _ a), (Qtrunc_inject _ d); [reflexivity | |].
  - rewrite Hyr. field. exact Hph.
  - rewrite Hxr. field. exact Hpw.
Qed.

Lemma py_min_max_exact (a b : Q) :
  ~ (a == b)%Q ->
  (py_min a b = a /\ py_max a b = b) \/ (py_min a b = b /\ py_max a b = a).
Proof.
  intros Hab. unfold py_min, py_max. exact_ops.
  destruct (Qle_bool a b) eqn:Eab; destruct (Qle_bool b a) eqn:Eba; cbn [negb].
  - apply Qle_bool_iff in Eab. apply Qle_bool_iff in Eba.
    exfalso. apply Hab. apply Qle_antisym; assumption.
  - left. split; reflexivity.
  - right. split; reflexivity.
  - exfalso. destruct (Qlt_le_dec a b) as [Hlt | Hle].
    + apply Qlt_le_weak in Hlt. apply Qle_bool_iff in Hlt. congruence.
    + apply Qle_bool_iff in Hle. congruence.
Qed.

(** X21. In exact arithmetic a pixel window survives the round trip
    through geographic bounds: for a transform without rotation terms and
    a window inside the image, [crop_by_geo] of the bounding box of
    [pixel_to_geo (x, y)] and [pixel_to_geo (x + w, y + h)] crops the
    window (x, y, w, h), whatever the signs of the pixel sizes. *)
Theorem crop_by_geo_of_window_bounds (src : crop_core.SrcRaster Q) (x y w h : Z) :
  let gt := crop_core.src_gt src in
  rotated gt = false ->
  ~ (pixel_width gt == 0)%Q -> ~ (pixel_height gt == 0)%Q ->
  in_image (crop_core.width src) (crop_core.height src) (x, y, w, h) ->
  0 < w -> 0 < h ->
  let '(gx1, gy1) := pixel_to_geo gt x y in
  let '(gx2, gy2) := pixel_to_geo gt (x + w) (y + h) in
  exists dst,
    crop_by_geo src (py_min gx1 gx2) (py_min gy1 gy2) (py_max gx1 gx2) (py_max gy1 gy2)
    = Ok dst
    /\ crop_core.read_window dst = (x, y, w, h)
    /\ crop_core.dst_width dst = w
    /\ crop_core.dst_height dst = h.
Proof.
  intros gt Hrot Hpw Hph (Hx & Hy & Hw & Hh) Hwpos Hhpos.
  destruct (rotated_exact_false gt Hrot) as [Hxr Hyr].
  pose proof (geo_to_pixel_rotation_free_exact gt) as Hinv.
  destruct (pixel_to_geo gt x y) as [gx1 gy1] eqn:E1.
  destruct (pixel_to_geo gt (x + w) (y + h)) as [gx2 gy2] eqn:E2.
  assert (Hgx1 : gx1 = fst (pixel_to_geo gt x y)) by (rewrite E1; reflexivity).
  assert (Hgy1 : gy1 = snd (pixel_to_geo gt x y)) by (rewrite E1; reflexivity).
  assert (Hgx2 : gx2 = fst (pixel_to_geo gt (x + w) (y + h))) by (rewrite E2; reflexivity).
  assert (Hgy2 : gy2 = snd (pixel_to_geo gt (x + w) (y + h))) by (rewrite E2; reflexivity).
  assert (Hnx : ~ (gx1 == gx2)%Q).
  { rewrite Hgx1, Hgx2. unfold pixel_to_geo. destruct gt as [x0 pw xr y0 yr ph].
    cbn [fst x_rotation pixel_width] in *. exact_ops. rewrite Hxr.
    rewrite !inject_Z_plus. intros Heq.
    assert (Hz : (inject_Z w * pw == 0)%Q) by lra.
    apply Qmult_integral in Hz. destruct Hz as [Hz | Hz]; [|contradiction].
    change 0%Q with (inject_Z 0) in Hz. rewrite inject_Z_injective in Hz. lia. }
  assert (Hny : ~ (gy1 == gy2)%Q).
  { rewrite Hgy1, Hgy2. unfold pixel_to_geo. destruct gt as [x0 pw xr y0 yr ph].
    cbn [snd y_rotation pixel_height] in *. exact_ops. rewrite Hyr.
    rewrite !inject_Z_plus. intros Heq.
    assert (Hz : (inject_Z h * ph == 0)%Q) by lra.
    apply Qmult_integral in Hz. destruct Hz as [Hz | Hz]; [|contradiction].
    change 0%Q with (inject_Z 0) in Hz. rewrite inject_Z_injective in Hz. lia. }
  unfold crop_by_geo, geo_bounds_to_pixel_bounds. fold gt.
  destruct (py_min_max_exact gx1 gx2 Hnx) as [[-> ->] | [-> ->]];
    destruct (py_min_max_exact gy1 gy2 Hny) as [[-> ->] | [-> ->]];
    rewrite Hgx1, Hgx2, Hgy1, Hgy2, !Hinv by assumption;
    cbn [bind]; unfold crop_core.crop_by_pixel;
    (rewrite validate_pixel_bounds_corrects by (unfold invalid_window; lia));
    cbn [bind try_except];
    eexists; (split; [reflexivity|]);
    cbn [crop_core.read_window crop_core.dst_width crop_core.dst_height];
    repeat split; repeat f_equal; lia.
Qed.

Lemma crop_by_geo_of_window_bounds_witness :
  let src := {| crop_core.width := 500; crop_core.height := 400; crop_core.bands := 3;
                crop_core.src_gt := test_gt (F := Q) |} in
  let '(gx1, gy1) := pixel_to_geo (crop_core.src_gt src) 100 50 in
  let '(gx2, gy2) := pixel_to_geo (crop_core.src_gt src) (100 + 200) (50 + 150) in
  exists dst,
    crop_by_geo src (py_min gx1 gx2) (py_min gy1 gy2) (py_max gx1 gx2) (py_max gy1 gy2)
    = Ok dst
    /\ crop_core.read_window dst = (100, 50, 200, 150)
    /\ crop_core.dst_width dst = 200
    /\ crop_core.dst_height dst = 150.
Proof.
  apply (crop_by_geo_of_window_bounds
           {| crop_core.width := 500; crop_core.height := 400; crop_core.bands := 3;
              crop_core.src_gt := test_gt (F := Q) |} 100 50 200 150);
    first [reflexivity | lia | cbn; lia
          | intros Hz; vm_compute in Hz; discriminate Hz].
Defined.
